(** * Electrical load calculator: the calculation engine

    A shallow embedding of [src/utils/calculations.js] (panel slot
    accounting, the NEC optional-method demand estimate, the practical load
    aggregate, battery sizing and the EV feasibility verdict) together with
    the panel-space derivation of [src/steps/Step1Service.jsx].

    Numbers.  The source computes with JavaScript numbers.  Panel slot and
    battery unit counts are integers and are modelled in [Z]; watts, amps,
    hours, kilowatt-hours and the EV charger count, which the EV step stores
    unrounded, are modelled as exact rationals [Q].  The model therefore
    describes the arithmetic the code writes down; the rounding of IEEE
    doubles, [NaN] and [Infinity] are outside of it.  [Q] divides by zero
    to 0 where JavaScript gives an infinity, so the theorems that evaluate
    the battery engine on a load list assume a product table with positive
    ratings.

    Strings.  Categories, statuses and recommendations are the string
    literals of the source. *)

From stdpp Require Import gmap strings pretty.
From Stdlib Require Import ZArith QArith Qround Qminmax Lqa Lia List Bool.
Import ListNotations.

Local Open Scope string_scope.
Local Open Scope Z_scope.

(** ** The JavaScript primitives the engine relies on *)

Module JS.

(** [Math.round]: the nearest integer, halves rounded up. *)
Definition Math_round (x : Q) : Z := Qfloor (x + (1 # 2))%Q.

(** [Math.ceil]. *)
Definition Math_ceil (x : Q) : Z := Qceiling x.

(** The comparison operators on numbers, as booleans. *)
Definition leb (x y : Q) : bool := Qle_bool x y.
Definition ltb (x y : Q) : bool := negb (Qle_bool y x).
Definition eqb (x y : Q) : bool := Qeq_bool x y.

(** [x || 0] on a possibly missing number. *)
Definition or0 (x : option Q) : Q :=
  match x with
  | Some v => v
  | None => 0%Q
  end.

Definition or0Z (x : option Z) : Z :=
  match x with
  | Some v => v
  | None => 0
  end.

(** [s.startsWith(p)], used to define the two functions below. *)
Fixpoint startsWith (s p : string) : bool :=
  match p, s with
  | EmptyString, _ => true
  | String a p', String b s' => if Ascii.eqb a b then startsWith s' p' else false
  | String _ _, EmptyString => false
  end.

(** [s.includes(sub)]: substring containment. *)
Fixpoint includes (s sub : string) : bool :=
  if startsWith s sub then true
  else match s with
       | EmptyString => false
       | String _ s' => includes s' sub
       end.

Fixpoint drop (n : nat) (s : string) : string :=
  match n, s with
  | O, _ => s
  | S n', String _ s' => drop n' s'
  | S _, EmptyString => EmptyString
  end.

(** [s.replace(pat, rep)] with a string pattern: only the first
    occurrence is replaced. *)
Fixpoint replace (s pat rep : string) : string :=
  if startsWith s pat then rep ++ drop (String.length pat) s
  else match s with
       | EmptyString => EmptyString
       | String c s' => String c (replace s' pat rep)
       end.

End JS.

(** ** Data model *)

Record Breaker := {
  poles : Z;
  amps : Q;
  type : string;
  voltageOverride : option Q
}.

Record Usage := {
  assumedWatts : Q;
  hoursPerDay : Q;
  includeInServiceCalc : bool;
  includeInBatteryCalc : bool
}.

Record Motor := {
  isMotor : bool;
  lra : option Q
}.

Record Load := {
  id : string;
  category : string;
  breaker : Breaker;
  usage : Usage;
  motor : Motor
}.

Record TandemPolicy := {
  allowedPositions : string;
  customMaxTandemSlots : option Z
}.

Record Panel := {
  totalSlots : Z;
  usedSlots : Z;
  tandemSlotsUsed : option Z;
  tandemsAllowed : string;
  tandemPolicy : TandemPolicy
}.

Record Service := {
  serviceVoltage : Q;
  mainBreakerAmps : Q;
  busRatingAmps : Q
}.

(** ** Panel slot accounting *)

Module PanelSlots.
Record t := {
  availableSlots : Z;
  tandemCapableSlots : Z;
  canFreeSlotsWithTandems : bool
}.
End PanelSlots.

(** [calculatePanelSlots] of calculations.js.  The slot counts are
    integers, so [Math.floor(totalSlots / 2)] is the integer quotient; a
    [switch] on a position string that matches no [case] leaves 0. *)
Definition calculatePanelSlots (panel : Panel) : PanelSlots.t :=
  let availableSlots := totalSlots panel - usedSlots panel in
  let tandemCapableSlots :=
    if String.eqb (tandemsAllowed panel) "Allowed" then
      let pos := allowedPositions (tandemPolicy panel) in
      if String.eqb pos "All slots" then totalSlots panel
      else if String.eqb pos "Bottom half only" then totalSlots panel / 2
      else if String.eqb pos "Custom" then
             JS.or0Z (customMaxTandemSlots (tandemPolicy panel))
      else 0
    else 0 in
  {| PanelSlots.availableSlots := availableSlots;
     PanelSlots.tandemCapableSlots := tandemCapableSlots;
     PanelSlots.canFreeSlotsWithTandems :=
       String.eqb (tandemsAllowed panel) "Allowed" && (0 <? tandemCapableSlots) |}.

(** [totalAvailableSlots] of Step1Service.jsx (the same expression is
    repeated in Step5BatteryWhole.jsx): the panel spaces still free after
    regular and tandem breakers. *)
Definition totalAvailableSlots (panel : Panel) : Z :=
  Z.max 0 (totalSlots panel - (usedSlots panel + JS.or0Z (tandemSlotsUsed panel))).

(** [calculateModeledSlots]: the slots the load list occupies. *)
Definition calculateModeledSlots (loads : list Load) : Z :=
  fold_left
    (fun modeledSlots load =>
       if String.eqb (type (breaker load)) "Tandem" then modeledSlots + 1
       else modeledSlots + (if poles (breaker load) =? 2 then 2 else 1))
    loads 0.

(** ** NEC optional method (simplified) *)

Module Breakdown.
Record t := {
  generalAndSmallAppliance : Z;
  fixedAppliances : Z;
  cooking : Z;
  dryer : Z;
  hvac : Z;
  otherLarge : Z;
  ev : Z
}.
End Breakdown.

Module NEC.
Record t := {
  totalDemandVA : Q;
  totalDemandKVA : Q;
  serviceAmps : Q;
  status : string;
  ratio : Z;
  breakdown : Breakdown.t
}.
End NEC.

(** [ls.reduce((sum, l) => sum + l.usage.assumedWatts, 0)]. *)
Definition sumAssumedWatts (ls : list Load) : Q :=
  fold_left (fun sum l => sum + assumedWatts (usage l))%Q ls 0%Q.

Definition fixedCategories : list string :=
  [ "Dishwasher"; "Garbage Disposal"; "Microwave"; "Clothes Washer";
    "Water Heater (Electric)"; "Dehumidifier" ].

(** The membership tests of the [filter] calls, one per bucket. *)
Definition isLighting (l : Load) : bool :=
  String.eqb (category l) "General Lighting/Receptacles".

Definition isFixed (l : Load) : bool :=
  existsb (fun c => JS.includes (category l) (JS.replace c "Electric " ""))
          fixedCategories.

Definition isCooking (l : Load) : bool :=
  String.eqb (category l) "Range/Oven" || String.eqb (category l) "Cooktop".

Definition isDryer (l : Load) : bool :=
  String.eqb (category l) "Electric Dryer".

Definition isCooling (l : Load) : bool :=
  String.eqb (category l) "AC Condenser" || String.eqb (category l) "Heat Pump"
  || String.eqb (category l) "Air Handler".

Definition isHeating (l : Load) : bool :=
  JS.includes (category l) "Furnace" || JS.includes (category l) "Boiler".

Definition isEV (l : Load) : bool :=
  String.eqb (category l) "EV Charger".

(** Step 8 filters with [!cookingLoads.includes(l)] and the like.  Every
    [l] it tests is an element of [loads], and [cookingLoads] holds exactly
    the elements of [loads] that pass the cooking test, so the identity test
    [cookingLoads.includes(l)] is the cooking test on [l]; the same holds
    for the dryer, cooling and heating lists. *)
Definition isOtherLarge (l : Load) : bool :=
  negb (isFixed l) && negb (isCooking l) && negb (isDryer l)
  && negb (isCooling l) && negb (isHeating l)
  && negb (isLighting l) && negb (isEV l).

(** Step 1: general lighting and receptacles at 3 VA per square foot. *)
Definition generalLoadVA (loads : list Load) (sqFt : option Q) : Q :=
  let fromLoads :=
    let generalLoadVA := sumAssumedWatts (filter isLighting loads) in
    if JS.eqb generalLoadVA 0 then 4500%Q else generalLoadVA in
  match sqFt with
  | Some a => if JS.ltb 0 a then (a * 3)%Q else fromLoads
  | None => fromLoads
  end.

(** Step 2: small appliance and laundry circuits. *)
Definition smallApplianceVA : Q := 3000.
Definition laundryVA : Q := 1500.

(** Step 3: the demand factor on general + small appliance + laundry. *)
Definition generalTotal (loads : list Load) (sqFt : option Q) : Q :=
  (generalLoadVA loads sqFt + smallApplianceVA + laundryVA)%Q.

Definition demandGeneral (generalTotal : Q) : Q :=
  if JS.leb generalTotal 10000 then generalTotal
  else (10000 + (generalTotal - 10000) * (4 # 10))%Q.

(** Step 4: fixed appliances. *)
Definition fixedLoadVA (loads : list Load) : Q :=
  let fixedLoads := filter isFixed loads in
  let fixedLoadVA := sumAssumedWatts fixedLoads in
  if (4 <=? Z.of_nat (length fixedLoads)) then (fixedLoadVA * (75 # 100))%Q
  else fixedLoadVA.

(** Step 5: cooking. *)
Definition cookingDemand (loads : list Load) : Q :=
  let cookingLoads := filter isCooking loads in
  if (0 <? Z.of_nat (length cookingLoads)) then
    let totalCookingWatts := sumAssumedWatts cookingLoads in
    if (Z.of_nat (length cookingLoads) =? 1) && JS.leb totalCookingWatts 12000
    then 8000%Q
    else (totalCookingWatts * (65 # 100))%Q
  else 0%Q.

(** Step 6: dryer. *)
Definition dryerDemand (loads : list Load) : Q :=
  let dryerLoads := filter isDryer loads in
  if (0 <? Z.of_nat (length dryerLoads)) then
    Qmax 5000 (sumAssumedWatts dryerLoads)
  else 0%Q.

(** Step 7: HVAC, the larger of cooling and heating. *)
Definition coolingVA (loads : list Load) : Q :=
  sumAssumedWatts (filter isCooling loads).

Definition heatingVA (loads : list Load) : Q :=
  sumAssumedWatts (filter isHeating loads).

Definition hvacDemand (loads : list Load) : Q :=
  Qmax (coolingVA loads) (heatingVA loads).

(** Step 8: all remaining loads; then the EV chargers. *)
Definition otherLargeVA (loads : list Load) : Q :=
  sumAssumedWatts (filter isOtherLarge loads).

Definition evVA (loads : list Load) : Q :=
  sumAssumedWatts (filter isEV loads).

(** [calculateNECOptionalMethod(loads, service, sqFt = null)]. *)
Definition calculateNECOptionalMethod
    (loads : list Load) (service : Service) (sqFt : option Q) : NEC.t :=
  let demandGeneral := demandGeneral (generalTotal loads sqFt) in
  let fixedLoadVA := fixedLoadVA loads in
  let cookingDemand := cookingDemand loads in
  let dryerDemand := dryerDemand loads in
  let hvacDemand := hvacDemand loads in
  let otherLargeVA := otherLargeVA loads in
  let evVA := evVA loads in
  let totalDemandVA :=
    (demandGeneral + fixedLoadVA + cookingDemand + dryerDemand + hvacDemand
     + otherLargeVA + evVA)%Q in
  let serviceAmps := (totalDemandVA / serviceVoltage service)%Q in
  let ratio := (serviceAmps / mainBreakerAmps service)%Q in
  let status :=
    if JS.ltb 1 ratio then "Undersized"
    else if JS.ltb (8 # 10) ratio then "Borderline"
    else "OK" in
  {| NEC.totalDemandVA := totalDemandVA;
     NEC.totalDemandKVA := (totalDemandVA / 1000)%Q;
     NEC.serviceAmps := (inject_Z (JS.Math_round (serviceAmps * 10)) / 10)%Q;
     NEC.status := status;
     NEC.ratio := JS.Math_round (ratio * 100);
     NEC.breakdown :=
       {| Breakdown.generalAndSmallAppliance := JS.Math_round demandGeneral;
          Breakdown.fixedAppliances := JS.Math_round fixedLoadVA;
          Breakdown.cooking := JS.Math_round cookingDemand;
          Breakdown.dryer := JS.Math_round dryerDemand;
          Breakdown.hvac := JS.Math_round hvacDemand;
          Breakdown.otherLarge := JS.Math_round otherLargeVA;
          Breakdown.ev := JS.Math_round evVA |} |}.

(** ** Practical summed model (for battery sizing) *)

Module Practical.
Record t := {
  totalRunningWatts : Q;
  totalRunningKW : Q;
  totalDailyWh : Q;
  totalDailyKWh : Q;
  largestMotorWatts : Q;
  largestMotorLRA : Q;
  motorLoads : Z
}.
End Practical.

(** [calculatePracticalLoad(loads, includeLoadIds = null)]. *)
Definition calculatePracticalLoad
    (loads : list Load) (includeLoadIds : option (list string)) : Practical.t :=
  let filteredLoads :=
    match includeLoadIds with
    | Some ids => filter (fun l => existsb (String.eqb (id l)) ids) loads
    | None => loads
    end in
  let totalRunningWatts := sumAssumedWatts filteredLoads in
  let totalDailyWh :=
    fold_left (fun sum l => sum + assumedWatts (usage l) * hoursPerDay (usage l))%Q
              filteredLoads 0%Q in
  let motorLoads := filter (fun l => isMotor (motor l)) filteredLoads in
  let largestMotorWatts :=
    fold_left (fun max l => Qmax max (assumedWatts (usage l))) motorLoads 0%Q in
  let largestMotorLRA :=
    fold_left (fun max l => Qmax max (JS.or0 (lra (motor l)))) motorLoads 0%Q in
  {| Practical.totalRunningWatts := totalRunningWatts;
     Practical.totalRunningKW := (totalRunningWatts / 1000)%Q;
     Practical.totalDailyWh := totalDailyWh;
     Practical.totalDailyKWh := (totalDailyWh / 1000)%Q;
     Practical.largestMotorWatts := largestMotorWatts;
     Practical.largestMotorLRA := largestMotorLRA;
     Practical.motorLoads := Z.of_nat (length motorLoads) |}.

(** ** Battery sizing *)

(** One entry of the product table [BATTERY_SPECS] of
    [data/loadLibrary].  The engine reads [usableKWh], [continuousKW] and
    [maxUnits] of the Enphase 5P; these and [motorStartLRA] of the Enphase
    10C; [usableKWh], [continuousKW], [motorStartLRA] and [maxLeaders] of the
    Powerwall 3; [usableKWh] and [maxPerLeader] of its expansion pack. *)
Module BatterySpec.
Record t := {
  usableKWh : Q;
  continuousKW : Q;
  motorStartLRA : Q;
  maxUnits : Z;
  maxLeaders : Z;
  maxPerLeader : Z
}.
End BatterySpec.

Module BatterySpecs.
Record t := {
  enphase5P : BatterySpec.t;
  enphase10C : BatterySpec.t;
  teslaPW3 : BatterySpec.t;
  teslaPW3Expansion : BatterySpec.t
}.
End BatterySpecs.

Module Selection.
Record t := {
  include : bool;
  hoursPerDay : Q
}.
End Selection.

(** The [options] argument of [calculateBatterySizing]; an absent
    [solarOffsetPercent] is the default 0. *)
Record Options := {
  includeLoadIds : option (list string);
  solarOffsetPercent : Q;
  proposedEVLoads : option (list Load);
  partialSelections : option (gmap string Selection.t)
}.

Module Feasibility.
Record t := {
  notFeasible : bool;
  reason : option string
}.
End Feasibility.

(** The result of a single-product configuration.  The Enphase 5P entry
    has no [forMotorStart] field. *)
Module Single.
Record t := {
  count : Z;
  forEnergy : Z;
  forPower : Z;
  forMotorStart : option Z;
  totalKWh : Q;
  totalKW : Q;
  limitedBy : string;
  motorStartWarning : option string;
  notFeasible : bool;
  reason : option string
}.
End Single.

Module Mixed.
Record t := {
  count10C : Z;
  count5P : Z;
  totalUnits : Z;
  totalKWh : Q;
  totalKW : Q;
  notFeasible : bool;
  reason : option string
}.
End Mixed.

Module WithExpansions.
Record t := {
  leaders : Z;
  expansions : Z;
  totalUnits : Z;
  totalKWh : Q;
  totalKW : Q;
  exceedsMax : bool;
  notFeasible : bool;
  reason : option string
}.
End WithExpansions.

Module Summary.
Record t := {
  totalEnergyNeededKWh : Q;
  peakPowerKW : Q;
  backupDays : Q;
  solarOffsetPercent : Q;
  loadCount : Z;
  largestLRA : Q;
  hasUnknownMotorLRA : bool
}.
End Summary.

Module Results.
Record t := {
  enphase5P : Single.t;
  enphase10C : Single.t;
  enphase_mixed : Mixed.t;
  teslaPW3Only : Single.t;
  teslaPW3WithExpansions : WithExpansions.t;
  summary : Summary.t
}.
End Results.

(** The helper [checkFeasibility(count, maxUnits, label)]. *)
Definition checkFeasibility (count maxUnits : Z) (label : string) : Feasibility.t :=
  if maxUnits <? count then
    {| Feasibility.notFeasible := true;
       Feasibility.reason :=
         Some ("Exceeds maximum configuration (" ++ pretty maxUnits ++ " "
               ++ label ++ " max)") |}
  else
    {| Feasibility.notFeasible := false; Feasibility.reason := None |}.

(** The load selection at the head of [calculateBatterySizing]. *)
Definition filteredLoads (loads : list Load) (options : Options) : list Load :=
  let filteredLoads :=
    filter (fun l =>
              match includeLoadIds options with
              | Some ids => existsb (String.eqb (id l)) ids
              | None => if negb (includeInBatteryCalc (usage l)) then false else true
              end) loads in
  let filteredLoads :=
    match proposedEVLoads options with
    | Some evs =>
        if (0 <? Z.of_nat (length evs)) then (filteredLoads ++ evs)%list else filteredLoads
    | None => filteredLoads
    end in
  match partialSelections options with
  | Some selections =>
      map (fun l =>
             match selections !! id l with
             | Some sel =>
                 {| id := id l; category := category l; breaker := breaker l;
                    usage :=
                      {| assumedWatts := assumedWatts (usage l);
                         hoursPerDay := Selection.hoursPerDay sel;
                         includeInServiceCalc := includeInServiceCalc (usage l);
                         includeInBatteryCalc := includeInBatteryCalc (usage l) |};
                    motor := motor l |}
             | None => l
             end) filteredLoads
  | None => filteredLoads
  end.

(** The energy requirement, with the solar offset applied. *)
Definition totalEnergyNeededKWh
    (loads : list Load) (backupDays : Q) (options : Options) : Q :=
  let practicalLoad := calculatePracticalLoad (filteredLoads loads options) None in
  let totalEnergyNeededKWh := (Practical.totalDailyKWh practicalLoad * backupDays)%Q in
  let totalEnergyNeededKWh :=
    if JS.ltb 0 (solarOffsetPercent options)
    then (totalEnergyNeededKWh * (1 - solarOffsetPercent options / 100))%Q
    else totalEnergyNeededKWh in
  Qmax 0 totalEnergyNeededKWh.

Definition peakPowerKW (loads : list Load) (options : Options) : Q :=
  Practical.totalRunningKW (calculatePracticalLoad (filteredLoads loads options) None).

Definition motorLoads (loads : list Load) (options : Options) : list Load :=
  filter (fun l => isMotor (motor l)) (filteredLoads loads options).

Definition largestLRA (loads : list Load) (options : Options) : Q :=
  fold_left (fun max l => Qmax max (JS.or0 (lra (motor l))))
            (motorLoads loads options) 0%Q.

(** [!l.motor.lra]: the rating is missing or zero. *)
Definition noLRA (l : Load) : bool :=
  match lra (motor l) with
  | Some v => JS.eqb v 0
  | None => true
  end.

Definition hasUnknownMotorLRA (loads : list Load) (options : Options) : bool :=
  existsb (fun l => noLRA l && isMotor (motor l)) (motorLoads loads options).

Section BatterySizing.

(** The product table is imported from [data/loadLibrary]; the engine is
    parameterised by it. *)
Variable BATTERY_SPECS : BatterySpecs.t.

(** [calculateBatterySizing(loads, backupDays, options = {})]. *)
Definition calculateBatterySizing
    (loads : list Load) (backupDays : Q) (options : Options) : Results.t :=
  let filteredLoads := filteredLoads loads options in
  let totalEnergyNeededKWh := totalEnergyNeededKWh loads backupDays options in
  let peakPowerKW := peakPowerKW loads options in
  let largestLRA := largestLRA loads options in
  let hasUnknownMotorLRA := hasUnknownMotorLRA loads options in

  (* Enphase 5P *)
  let e5p := BatterySpecs.enphase5P BATTERY_SPECS in
  let e5pForEnergy := JS.Math_ceil (totalEnergyNeededKWh / BatterySpec.usableKWh e5p) in
  let e5pForPower := JS.Math_ceil (peakPowerKW / BatterySpec.continuousKW e5p) in
  let e5pCount := Z.max (Z.max e5pForEnergy e5pForPower) 1 in
  let e5pFeasibility := checkFeasibility e5pCount (BatterySpec.maxUnits e5p) "units" in
  let r5P :=
    {| Single.count :=
         if Feasibility.notFeasible e5pFeasibility then e5pCount
         else Z.min e5pCount (BatterySpec.maxUnits e5p);
       Single.forEnergy := e5pForEnergy;
       Single.forPower := e5pForPower;
       Single.forMotorStart := None;
       Single.totalKWh :=
         (inject_Z (Z.min e5pCount (BatterySpec.maxUnits e5p))
          * BatterySpec.usableKWh e5p)%Q;
       Single.totalKW :=
         (inject_Z (Z.min e5pCount (BatterySpec.maxUnits e5p))
          * BatterySpec.continuousKW e5p)%Q;
       Single.limitedBy := if e5pForPower <=? e5pForEnergy then "Energy" else "Power";
       Single.motorStartWarning :=
         if hasUnknownMotorLRA
         then Some "Motor start capability not rated for 5P. Verify with Enphase."
         else None;
       Single.notFeasible := Feasibility.notFeasible e5pFeasibility;
       Single.reason := Feasibility.reason e5pFeasibility |} in

  (* Enphase 10C *)
  let e10c := BatterySpecs.enphase10C BATTERY_SPECS in
  let e10cForEnergy := JS.Math_ceil (totalEnergyNeededKWh / BatterySpec.usableKWh e10c) in
  let e10cForPower := JS.Math_ceil (peakPowerKW / BatterySpec.continuousKW e10c) in
  let e10cForMotor :=
    if JS.ltb 0 largestLRA
    then JS.Math_ceil (largestLRA / BatterySpec.motorStartLRA e10c)
    else 0 in
  let e10cCount := Z.max (Z.max (Z.max e10cForEnergy e10cForPower) e10cForMotor) 1 in
  let e10cFeasibility := checkFeasibility e10cCount (BatterySpec.maxUnits e10c) "units" in
  let e10cLimitedBy :=
    if (e10cForPower <=? e10cForEnergy) && (e10cForMotor <=? e10cForEnergy) then "Energy"
    else if e10cForMotor <=? e10cForPower then "Power" else "Motor Start" in
  let r10C :=
    {| Single.count :=
         if Feasibility.notFeasible e10cFeasibility then e10cCount
         else Z.min e10cCount (BatterySpec.maxUnits e10c);
       Single.forEnergy := e10cForEnergy;
       Single.forPower := e10cForPower;
       Single.forMotorStart := Some e10cForMotor;
       Single.totalKWh :=
         (inject_Z (Z.min e10cCount (BatterySpec.maxUnits e10c))
          * BatterySpec.usableKWh e10c)%Q;
       Single.totalKW :=
         (inject_Z (Z.min e10cCount (BatterySpec.maxUnits e10c))
          * BatterySpec.continuousKW e10c)%Q;
       Single.limitedBy := e10cLimitedBy;
       Single.motorStartWarning :=
         if hasUnknownMotorLRA
         then Some "Some motor loads have unknown LRA. Conservative estimates applied."
         else None;
       Single.notFeasible := Feasibility.notFeasible e10cFeasibility;
       Single.reason := Feasibility.reason e10cFeasibility |} in

  (* Enphase Mixed *)
  let mixedPowerUnits10C := Z.max (Z.max e10cForPower e10cForMotor) 1 in
  let mixedEnergyFrom10C := (inject_Z mixedPowerUnits10C * BatterySpec.usableKWh e10c)%Q in
  let remainingEnergy := Qmax 0 (totalEnergyNeededKWh - mixedEnergyFrom10C) in
  let additional5P :=
    if JS.ltb 0 remainingEnergy
    then JS.Math_ceil (remainingEnergy / BatterySpec.usableKWh e5p)
    else 0 in
  let mixedTotal := mixedPowerUnits10C + additional5P in
  let mixedFeasible :=
    mixedTotal <=? BatterySpec.maxUnits e10c + BatterySpec.maxUnits e5p in
  let rMixed :=
    {| Mixed.count10C := mixedPowerUnits10C;
       Mixed.count5P := additional5P;
       Mixed.totalUnits := mixedTotal;
       Mixed.totalKWh :=
         (inject_Z mixedPowerUnits10C * BatterySpec.usableKWh e10c
          + inject_Z additional5P * BatterySpec.usableKWh e5p)%Q;
       Mixed.totalKW :=
         (inject_Z mixedPowerUnits10C * BatterySpec.continuousKW e10c
          + inject_Z additional5P * BatterySpec.continuousKW e5p)%Q;
       Mixed.notFeasible := negb mixedFeasible;
       Mixed.reason :=
         if negb mixedFeasible then Some "Exceeds maximum combined unit count"
         else None |} in

  (* Tesla Powerwall 3 *)
  let pw3 := BatterySpecs.teslaPW3 BATTERY_SPECS in
  let pw3exp := BatterySpecs.teslaPW3Expansion BATTERY_SPECS in
  let pw3ForPower := JS.Math_ceil (peakPowerKW / BatterySpec.continuousKW pw3) in
  let pw3ForMotor :=
    if JS.ltb 0 largestLRA
    then JS.Math_ceil (largestLRA / BatterySpec.motorStartLRA pw3)
    else 0 in
  let pw3Leaders := Z.max (Z.max pw3ForPower pw3ForMotor) 1 in
  let pw3LeadersCapped := Z.min pw3Leaders (BatterySpec.maxLeaders pw3) in

  (* PW3 only (no expansions) *)
  let pw3OnlyForEnergy := JS.Math_ceil (totalEnergyNeededKWh / BatterySpec.usableKWh pw3) in
  let pw3OnlyCount := Z.max pw3OnlyForEnergy pw3LeadersCapped in
  let pw3OnlyFeasibility := checkFeasibility pw3OnlyCount (BatterySpec.maxLeaders pw3) "PW3" in
  let pw3OnlyCapped := Z.min pw3OnlyCount (BatterySpec.maxLeaders pw3) in
  let pw3OnlyLimitedBy :=
    if (pw3ForPower <=? pw3OnlyForEnergy) && (pw3ForMotor <=? pw3OnlyForEnergy) then "Energy"
    else if pw3ForMotor <=? pw3ForPower then "Power" else "Motor Start" in
  let rPW3Only :=
    {| Single.count :=
         if Feasibility.notFeasible pw3OnlyFeasibility then pw3OnlyCount
         else pw3OnlyCapped;
       Single.forEnergy := pw3OnlyForEnergy;
       Single.forPower := pw3ForPower;
       Single.forMotorStart := Some pw3ForMotor;
       Single.totalKWh := (inject_Z pw3OnlyCapped * BatterySpec.usableKWh pw3)%Q;
       Single.totalKW := (inject_Z pw3OnlyCapped * BatterySpec.continuousKW pw3)%Q;
       Single.limitedBy := pw3OnlyLimitedBy;
       Single.motorStartWarning :=
         if hasUnknownMotorLRA
         then Some "Some motor loads have unknown LRA. Conservative estimates applied."
         else None;
       Single.notFeasible := Feasibility.notFeasible pw3OnlyFeasibility;
       Single.reason := Feasibility.reason pw3OnlyFeasibility |} in

  (* Tesla PW3 + Expansions *)
  let leaderEnergyKWh := (inject_Z pw3LeadersCapped * BatterySpec.usableKWh pw3)%Q in
  let remainingEnergyTesla := Qmax 0 (totalEnergyNeededKWh - leaderEnergyKWh) in
  let expansionsNeeded :=
    if JS.ltb 0 remainingEnergyTesla
    then JS.Math_ceil (remainingEnergyTesla / BatterySpec.usableKWh pw3exp)
    else 0 in
  let maxExpansions := pw3LeadersCapped * BatterySpec.maxPerLeader pw3exp in
  let expansionsCapped := Z.min expansionsNeeded maxExpansions in
  let totalTeslaUnits := pw3LeadersCapped + expansionsCapped in
  let teslaExceedsMax := maxExpansions <? expansionsNeeded in
  let rWithExp :=
    {| WithExpansions.leaders := pw3LeadersCapped;
       WithExpansions.expansions := expansionsCapped;
       WithExpansions.totalUnits := totalTeslaUnits;
       WithExpansions.totalKWh :=
         (inject_Z pw3LeadersCapped * BatterySpec.usableKWh pw3
          + inject_Z expansionsCapped * BatterySpec.usableKWh pw3exp)%Q;
       WithExpansions.totalKW :=
         (inject_Z pw3LeadersCapped * BatterySpec.continuousKW pw3)%Q;
       WithExpansions.exceedsMax := teslaExceedsMax;
       WithExpansions.notFeasible := teslaExceedsMax;
       WithExpansions.reason :=
         if teslaExceedsMax
         then Some ("Needs " ++ pretty expansionsNeeded ++ " expansions but max is "
                    ++ pretty maxExpansions ++ " ("
                    ++ pretty (BatterySpec.maxPerLeader pw3exp) ++ " per leader)")
         else None |} in

  {| Results.enphase5P := r5P;
     Results.enphase10C := r10C;
     Results.enphase_mixed := rMixed;
     Results.teslaPW3Only := rPW3Only;
     Results.teslaPW3WithExpansions := rWithExp;
     Results.summary :=
       {| Summary.totalEnergyNeededKWh :=
            (inject_Z (JS.Math_round (totalEnergyNeededKWh * 10)) / 10)%Q;
          Summary.peakPowerKW := (inject_Z (JS.Math_round (peakPowerKW * 10)) / 10)%Q;
          Summary.backupDays := backupDays;
          Summary.solarOffsetPercent := solarOffsetPercent options;
          Summary.loadCount := Z.of_nat (length filteredLoads);
          Summary.largestLRA := largestLRA;
          Summary.hasUnknownMotorLRA := hasUnknownMotorLRA |} |}.

End BatterySizing.

(** ** EV feasibility *)

Record ChargerOption := {
  isCustom : bool;
  continuousAmps : Q;
  recommendedBreakerAmps : Q
}.

Record EV := {
  chargerOption : option ChargerOption;
  customContinuousAmps : option Q;
  chargerCount : option Q
}.

Record Project := {
  service : Service;
  panel : Panel;
  ev : EV;
  loads : list Load
}.

Module EVResult.
Record t := {
  continuousAmps : Q;
  breakerAmps : Q;
  evWattsEach : Q;
  evWattsTotal : Q;
  evWatts : Q;
  chargerCount : Q;
  slotsNeeded : Q;
  hasSpace : bool;
  canUseTandems : bool;
  necWithoutEV : NEC.t;
  necWithEV : NEC.t;
  recommendation : string;
  availableSlots : Z
}.
End EVResult.

(** The object literal pushed once per charger.  The literal sets only
    the fields below; the others are absent there and are never read by the
    demand estimate, which is the only consumer of these loads. *)
Definition evSyntheticLoad (evWattsEach : Q) : Load :=
  {| id := "";
     category := "EV Charger";
     breaker := {| poles := 2; amps := 0; type := ""; voltageOverride := None |};
     usage := {| assumedWatts := evWattsEach; hoursPerDay := 0;
                 includeInServiceCalc := true; includeInBatteryCalc := false |};
     motor := {| isMotor := false; lra := None |} |}.

(** [ev.chargerCount || 1].  The count is a number like any other: the EV
    step stores [Math.max(1, Math.min(4, Number(v) || 1))] without rounding,
    so a count such as 2.5 is stored as it is typed. *)
Definition countOr1 (c : option Q) : Q :=
  match c with
  | Some n => if JS.eqb n 0 then 1%Q else n
  | None => 1%Q
  end.

(** The number of rounds of [for (let i = 0; i < count; i++)]: the rounds
    are those of [i = 0, 1, 2, ...] below [count], so there are
    [Math.ceil(count)] of them, and none when [count] is not positive. *)
Definition loopCount (count : Q) : nat := Z.to_nat (Qceiling count).

(** [calculateEVFeasibility(project)]; [None] is the [null] result. *)
Definition calculateEVFeasibility (project : Project) : option EVResult.t :=
  let service := service project in
  let panel := panel project in
  let ev := ev project in
  let loads := loads project in
  match chargerOption ev with
  | None => None
  | Some charger =>
      let continuousAmps :=
        if isCustom charger then JS.or0 (customContinuousAmps ev)
        else continuousAmps charger in
      let breakerAmps :=
        if isCustom charger
        then (inject_Z (JS.Math_ceil (continuousAmps * (125 # 100) / 5)) * 5)%Q
        else recommendedBreakerAmps charger in
      let count := countOr1 (chargerCount ev) in
      let evWattsEach := (continuousAmps * serviceVoltage service)%Q in
      let evWattsTotal := (evWattsEach * count)%Q in
      let necResult := calculateNECOptionalMethod loads service None in
      let evSyntheticLoads := repeat (evSyntheticLoad evWattsEach) (loopCount count) in
      let necWithEV :=
        calculateNECOptionalMethod (loads ++ evSyntheticLoads)%list service None in
      let modeledUsedSlots :=
        if (0 <? Z.of_nat (length loads)) then calculateModeledSlots loads
        else usedSlots panel in
      let computedAvailableSlots := Z.max 0 (totalSlots panel - modeledUsedSlots) in
      let panelSlots := calculatePanelSlots panel in
      let slotsNeeded := (2 * count)%Q in
      let hasSpace := JS.leb slotsNeeded (inject_Z computedAvailableSlots) in
      let recommendation :=
        if String.eqb (NEC.status necWithEV) "Undersized" then
          "Service upgrade recommended"
        else if negb hasSpace && negb (PanelSlots.canFreeSlotsWithTandems panelSlots) then
          "Subpanel recommended"
        else if negb hasSpace && PanelSlots.canFreeSlotsWithTandems panelSlots then
          "Requires tandems to free space"
        else if String.eqb (NEC.status necWithEV) "Borderline" then
          "Feasible but borderline capacity"
        else "Add as-is" in
      Some {| EVResult.continuousAmps := continuousAmps;
              EVResult.breakerAmps := breakerAmps;
              EVResult.evWattsEach := evWattsEach;
              EVResult.evWattsTotal := evWattsTotal;
              EVResult.evWatts := evWattsTotal;
              EVResult.chargerCount := count;
              EVResult.slotsNeeded := slotsNeeded;
              EVResult.hasSpace := hasSpace;
              EVResult.canUseTandems := PanelSlots.canFreeSlotsWithTandems panelSlots;
              EVResult.necWithoutEV := necResult;
              EVResult.necWithEV := necWithEV;
              EVResult.recommendation := recommendation;
              EVResult.availableSlots := computedAvailableSlots |}
  end.

(** ** Sample inputs *)

Module Sample.

Definition mkLoad (ident cat : string) (watts hours : Q) : Load :=
  {| id := ident;
     category := cat;
     breaker := {| poles := 1; amps := 15; type := "Standard"; voltageOverride := None |};
     usage := {| assumedWatts := watts; hoursPerDay := hours;
                 includeInServiceCalc := true; includeInBatteryCalc := true |};
     motor := {| isMotor := false; lra := None |} |}.

Definition service_240_200 : Service :=
  {| serviceVoltage := 240; mainBreakerAmps := 200; busRatingAmps := 200 |}.

(** A 40-space panel on which 45 spaces are declared used. *)
Definition panel_40_45 : Panel :=
  {| totalSlots := 40; usedSlots := 45; tandemSlotsUsed := Some 0;
     tandemsAllowed := "Unknown";
     tandemPolicy := {| allowedPositions := "All slots";
                        customMaxTandemSlots := None |} |}.

Definition panel_40_20 : Panel :=
  {| totalSlots := 40; usedSlots := 20; tandemSlotsUsed := Some 0;
     tandemsAllowed := "Allowed";
     tandemPolicy := {| allowedPositions := "Bottom half only";
                        customMaxTandemSlots := None |} |}.

Definition pool : Load := mkLoad "load_1" "Pool Equipment" 1500 2.

Definition range (watts : Q) : Load := mkLoad "load_2" "Range/Oven" watts 1.

Definition lighting (watts : Q) : Load :=
  mkLoad "load_3" "General Lighting/Receptacles" watts 5.

Definition level2 : ChargerOption :=
  {| isCustom := false; continuousAmps := 32; recommendedBreakerAmps := 40 |}.

Definition project_no_charger : Project :=
  {| service := service_240_200; panel := panel_40_20;
     ev := {| chargerOption := None; customContinuousAmps := None;
              chargerCount := Some 1%Q |};
     loads := [pool] |}.

Definition project_level2 : Project :=
  {| service := service_240_200; panel := panel_40_20;
     ev := {| chargerOption := Some level2; customContinuousAmps := None;
              chargerCount := Some 1%Q |};
     loads := [pool] |}.

(** A two-space panel, and projects that differ in the main breaker, the
    panel and the load list. *)
Definition panel_2 (tandems : string) : Panel :=
  {| totalSlots := 2; usedSlots := 1; tandemSlotsUsed := None;
     tandemsAllowed := tandems;
     tandemPolicy := {| allowedPositions := "All slots";
                        customMaxTandemSlots := None |} |}.

Definition mkProject (mainAmps : Q) (p : Panel) (ls : list Load) : Project :=
  {| service := {| serviceVoltage := 240; mainBreakerAmps := mainAmps;
                   busRatingAmps := mainAmps |};
     panel := p;
     ev := {| chargerOption := Some level2; customContinuousAmps := None;
              chargerCount := Some 1%Q |};
     loads := ls |}.

(** A product table with positive ratings.  The table of the
    application lives in [data/loadLibrary]; the figures here only serve
    to run the engine on concrete inputs. *)
Definition specs : BatterySpecs.t :=
  {| BatterySpecs.enphase5P :=
       {| BatterySpec.usableKWh := 5; BatterySpec.continuousKW := 384 # 100;
          BatterySpec.motorStartLRA := 0; BatterySpec.maxUnits := 4;
          BatterySpec.maxLeaders := 0; BatterySpec.maxPerLeader := 0 |};
     BatterySpecs.enphase10C :=
       {| BatterySpec.usableKWh := 10; BatterySpec.continuousKW := 708 # 100;
          BatterySpec.motorStartLRA := 90; BatterySpec.maxUnits := 4;
          BatterySpec.maxLeaders := 0; BatterySpec.maxPerLeader := 0 |};
     BatterySpecs.teslaPW3 :=
       {| BatterySpec.usableKWh := 135 # 10; BatterySpec.continuousKW := 115 # 10;
          BatterySpec.motorStartLRA := 185; BatterySpec.maxUnits := 0;
          BatterySpec.maxLeaders := 4; BatterySpec.maxPerLeader := 0 |};
     BatterySpecs.teslaPW3Expansion :=
       {| BatterySpec.usableKWh := 135 # 10; BatterySpec.continuousKW := 0;
          BatterySpec.motorStartLRA := 0; BatterySpec.maxUnits := 0;
          BatterySpec.maxLeaders := 0; BatterySpec.maxPerLeader := 3 |} |}.

Definition noOptions (solar : Q) : Options :=
  {| includeLoadIds := None; solarOffsetPercent := solar;
     proposedEVLoads := None; partialSelections := None |}.

End Sample.

(** The product table is well formed when every rating the engine divides
    by is positive and the unit caps are not negative. *)
Definition positive_ratings (specs : BatterySpecs.t) : Prop :=
  let e5p := BatterySpecs.enphase5P specs in
  let e10c := BatterySpecs.enphase10C specs in
  let pw3 := BatterySpecs.teslaPW3 specs in
  let pw3exp := BatterySpecs.teslaPW3Expansion specs in
  (0 < BatterySpec.usableKWh e5p)%Q /\ (0 < BatterySpec.continuousKW e5p)%Q
  /\ (0 < BatterySpec.usableKWh e10c)%Q /\ (0 < BatterySpec.continuousKW e10c)%Q
  /\ (0 < BatterySpec.motorStartLRA e10c)%Q
  /\ (0 < BatterySpec.usableKWh pw3)%Q /\ (0 < BatterySpec.continuousKW pw3)%Q
  /\ (0 < BatterySpec.motorStartLRA pw3)%Q
  /\ (0 < BatterySpec.usableKWh pw3exp)%Q
  /\ 0 <= BatterySpec.maxUnits e5p /\ 0 <= BatterySpec.maxUnits e10c
  /\ 0 <= BatterySpec.maxLeaders pw3 /\ 0 <= BatterySpec.maxPerLeader pw3exp.

(** A load list whose running power needs one Powerwall 3 more than the
    product allows while it asks for no energy: a single load of
    [1000 * continuousKW * (maxLeaders + 1)] watts that runs 0 hours a day. *)
Definition overPowerLoads (specs : BatterySpecs.t) : list Load :=
  let pw3 := BatterySpecs.teslaPW3 specs in
  [ Sample.mkLoad "load_9" "Other"
      (1000 * BatterySpec.continuousKW pw3
       * inject_Z (BatterySpec.maxLeaders pw3 + 1))%Q 0 ].

(** ** Raising the watts of one load *)

(** The load [l] with its [usage.assumedWatts] replaced by [w]. *)
Definition setWatts (l : Load) (w : Q) : Load :=
  {| id := id l; category := category l; breaker := breaker l;
     usage := {| assumedWatts := w;
                 hoursPerDay := hoursPerDay (usage l);
                 includeInServiceCalc := includeInServiceCalc (usage l);
                 includeInBatteryCalc := includeInBatteryCalc (usage l) |};
     motor := motor l |}.

(** Raising [l] to [w'] crosses the cooking cliff: [l] is the only cooking
    load, it leaves the flat 8000 VA band (at most 12000 W) and 65% of the new
    watts is still below 8000 VA. *)
Definition crossesCookingCliff (loads : list Load) (l : Load) (w' : Q) : Prop :=
  isCooking l = true
  /\ length (filter isCooking loads) = 1%nat
  /\ (assumedWatts (usage l) <= 12000)%Q
  /\ (12000 < w')%Q
  /\ (w' * (65 # 100) < 8000)%Q.

(** Raising [l] to [w'] leaves the lighting fallback: no positive square
    footage is given, [l] is a general lighting load, the lighting loads
    summed to 0 (so that 4500 VA was assumed), and the raise is positive but
    below 4500 W. *)
Definition leavesLightingFallback
    (loads : list Load) (sqFt : option Q) (l : Load) (w' : Q) : Prop :=
  match sqFt with
  | Some a => JS.ltb 0 a = false
  | None => True
  end
  /\ isLighting l = true
  /\ (sumAssumedWatts (filter isLighting loads) == 0)%Q
  /\ (assumedWatts (usage l) < w')%Q
  /\ (w' - assumedWatts (usage l) < 4500)%Q.

(** ** Breaker-based watts *)

(** [getLoadVoltage(load, serviceVoltage)]: a voltage override that is
    set and not 0 wins; otherwise a single-pole breaker runs at 120 V and any
    other at the service voltage. *)
Definition getLoadVoltage (load : Load) (serviceVoltage : Q) : Q :=
  let byPoles := if poles (breaker load) =? 1 then 120%Q else serviceVoltage in
  match voltageOverride (breaker load) with
  | Some v => if JS.eqb v 0 then byPoles else v
  | None => byPoles
  end.

(** [calculateBreakerWatts(load, serviceVoltage, utilizationFactor = 0.5)];
    the caller that omits the factor passes [1 # 2]. *)
Definition calculateBreakerWatts
    (load : Load) (serviceVoltage utilizationFactor : Q) : Z :=
  let volts := getLoadVoltage load serviceVoltage in
  JS.Math_round (volts * amps (breaker load) * utilizationFactor).

(** ** The battery sections of the project snapshot *)

(** [project.battery.wholeHome] and [project.battery.partialHome], at the
    fields the helpers below read ([includeEV] belongs to the whole-home
    section, [enabled] and [selections] to the partial-home one). *)
Module BatterySection.
Record t := {
  backupMode : option string;
  customDays : option Q;
  includeEV : bool;
  solarOffsetPercent : option Q;
  solarOffsetEnabled : bool;
  enabled : bool;
  selections : option (gmap string Selection.t)
}.
End BatterySection.

(** [batterySection.backupMode || '1']. *)
Definition modeOr1 (mode : option string) : string :=
  match mode with
  | Some m => if String.eqb m "" then "1" else m
  | None => "1"
  end.

(** [getSolarOffset(batterySection, requireCustom = false)]. *)
Definition getSolarOffset (batterySection : BatterySection.t) (requireCustom : bool) : Q :=
  if requireCustom
     && negb (String.eqb (modeOr1 (BatterySection.backupMode batterySection)) "custom")
  then 0%Q
  else if BatterySection.solarOffsetEnabled batterySection
       then JS.or0 (BatterySection.solarOffsetPercent batterySection)
       else 0%Q.

(** The object literal pushed by [buildProposedEVLoads] for charger [i].
    The fields the literal leaves out are absent there; [amps] and [type] are
    not read by the battery engine, and an absent [includeInServiceCalc] is
    falsy. *)
Definition proposedEVLoad (watts : Q) (i : nat) : Load :=
  {| id := "_proposedEV_" ++ pretty (Z.of_nat i);
     category := "EV Charger";
     breaker := {| poles := 2; amps := 0; type := ""; voltageOverride := None |};
     usage := {| assumedWatts := watts; hoursPerDay := 4;
                 includeInServiceCalc := false; includeInBatteryCalc := true |};
     motor := {| isMotor := false; lra := None |} |}.

(** [buildProposedEVLoads(project)]; the whole-home battery section of
    the snapshot is passed beside the project record. *)
Definition buildProposedEVLoads
    (project : Project) (wholeHome : BatterySection.t) : option (list Load) :=
  match chargerOption (ev project) with
  | None => None
  | Some charger =>
      if negb (BatterySection.includeEV wholeHome) then None
      else
        let contAmps :=
          if isCustom charger then JS.or0 (customContinuousAmps (ev project))
          else continuousAmps charger in
        let watts := (contAmps * serviceVoltage (service project))%Q in
        let count := countOr1 (chargerCount (ev project)) in
        Some (map (proposedEVLoad watts) (seq 0 (loopCount count)))
  end.

(** The whole-home sizing call of the summary step and of the exports:
    the solar offset counts only in custom mode, and the proposed chargers
    are appended. *)
Definition wholeHomeOptions (project : Project) (wholeHome : BatterySection.t) : Options :=
  {| includeLoadIds := None;
     solarOffsetPercent := getSolarOffset wholeHome true;
     proposedEVLoads := buildProposedEVLoads project wholeHome;
     partialSelections := None |}.

(** The ids of the selections that are included,
    [Object.entries(selections).filter(([, v]) => v.include).map(([id]) => id)].
    The list is only ever searched with [includes], so its order does not
    matter. *)
Definition selectedIds (selections : gmap string Selection.t) : list string :=
  map fst (filter (fun kv => Selection.include (snd kv)) (map_to_list selections)).

(** The partial-home sizing call of the partial step and of the exports. *)
Definition partialHomeOptions (partialHome : BatterySection.t) : Options :=
  let selections :=
    match BatterySection.selections partialHome with
    | Some selections => selections
    | None => ∅
    end in
  {| includeLoadIds := Some (selectedIds selections);
     solarOffsetPercent := getSolarOffset partialHome false;
     proposedEVLoads := None;
     partialSelections := BatterySection.selections partialHome |}.

(** ** The steps of the wizard *)

(** [setChargerCount(count)] of the EV step, as the update it applies to the
    [ev] section. *)
Definition setChargerCount (count : Q) (ev : EV) : EV :=
  {| chargerOption := chargerOption ev;
     customContinuousAmps := customContinuousAmps ev;
     chargerCount := Some (Qmax 1 (Qmin 4 count)) |}.

(** [maxTandemSlots] of the service step. *)
Definition maxTandemSlots (panel : Panel) : Z :=
  if String.eqb (tandemsAllowed panel) "Allowed" then
    if String.eqb (allowedPositions (tandemPolicy panel)) "All slots"
    then totalSlots panel
    else if String.eqb (allowedPositions (tandemPolicy panel)) "Bottom half only"
         then totalSlots panel / 2
         else JS.or0Z (customMaxTandemSlots (tandemPolicy panel))
  else 0.

(** The validation warnings of the service step, in the order they are
    pushed. *)
Definition warnings (panel : Panel) : list string :=
  (if totalSlots panel <? usedSlots panel
   then ["Used Spaces exceeds Total Panel Spaces. Check panel configuration."]
   else [])
  ++ (if (maxTandemSlots panel <? JS.or0Z (tandemSlotsUsed panel))
         && String.eqb (tandemsAllowed panel) "Allowed"
      then ["Tandem Slots Used ("
            ++ match tandemSlotsUsed panel with
               | Some n => pretty n
               | None => "undefined"
               end
            ++ ") exceeds Max Tandem-Capable Slots (" ++ pretty (maxTandemSlots panel)
            ++ ")."]
      else [])
  ++ (if negb (String.eqb (tandemsAllowed panel) "Allowed")
         && (0 <? JS.or0Z (tandemSlotsUsed panel))
      then ["Tandem breakers are not allowed (or unknown), but Tandem Slots Used is greater than 0."]
      else []).

(** ** Variations of an input *)

(** The options without per-load hour overrides, and without proposed EV
    chargers. *)
Definition withoutSelections (o : Options) : Options :=
  {| includeLoadIds := includeLoadIds o;
     solarOffsetPercent := solarOffsetPercent o;
     proposedEVLoads := proposedEVLoads o;
     partialSelections := None |}.

Definition withoutProposedEV (o : Options) : Options :=
  {| includeLoadIds := includeLoadIds o;
     solarOffsetPercent := solarOffsetPercent o;
     proposedEVLoads := None;
     partialSelections := partialSelections o |}.

(** The project with its [ev] section replaced, [{ ...prev, ev }]. *)
Definition withEV (project : Project) (e : EV) : Project :=
  {| service := service project; panel := panel project; ev := e;
     loads := loads project |}.

(** The load [l] with its [usage.hoursPerDay] replaced by [h],
    [{ ...l, usage: { ...l.usage, hoursPerDay: h } }]. *)
Definition setHours (l : Load) (h : Q) : Load :=
  {| id := id l; category := category l; breaker := breaker l;
     usage := {| assumedWatts := assumedWatts (usage l);
                 hoursPerDay := h;
                 includeInServiceCalc := includeInServiceCalc (usage l);
                 includeInBatteryCalc := includeInBatteryCalc (usage l) |};
     motor := motor l |}.

(** ** Saved projects *)

(** The project snapshot that is saved and loaded: the engine's project
    record together with the metadata and battery sections.  [metadata] is
    optional because the code reads it with [?.]. *)
Record Metadata := {
  projectName : string;
  address : string;
  squareFootage : string
}.

Record Snapshot := {
  metadata : option Metadata;
  base : Project;
  wholeHome : BatterySection.t;
  partialHome : BatterySection.t
}.

(** One entry of the named project list. *)
Module Saved.
Record t := {
  id : string;
  name : string;
  savedAt : string;
  loadCount : Z;
  data : Snapshot
}.
End Saved.

(** The browser's local storage at the two keys the code uses.  A stored
    JSON text is represented by the value it encodes; a key that was never
    written is [None].  Corrupt texts and writes that throw are outside the
    model. *)
Record Storage := {
  currentProject : option Snapshot;
  projectsList : option (list Saved.t)
}.

(** [list.findIndex(p)]; [None] is the result -1. *)
Fixpoint findIndex {A : Type} (p : A -> bool) (l : list A) : option nat :=
  match l with
  | [] => None
  | x :: l' => if p x then Some O else option_map S (findIndex p l')
  end.

(** [saveProjectToLocalStorage], [loadProjectFromLocalStorage]. *)
Definition saveProjectToLocalStorage (project : Snapshot) (st : Storage) : bool * Storage :=
  (true, {| currentProject := Some project; projectsList := projectsList st |}).

Definition loadProjectFromLocalStorage (st : Storage) : option Snapshot :=
  currentProject st.

(** [getSavedProjectsList]. *)
Definition getSavedProjectsList (st : Storage) : list Saved.t :=
  match projectsList st with
  | Some list => list
  | None => []
  end.

(** [project.metadata?.projectName || 'Untitled Project']. *)
Definition savedName (project : Snapshot) : string :=
  match metadata project with
  | Some m => if String.eqb (projectName m) "" then "Untitled Project" else projectName m
  | None => "Untitled Project"
  end.

(** [saveNamedProject(project)]; [now] is the value of [Date.now()] and
    [iso] the text of [new Date().toISOString()] at the call. *)
Definition saveNamedProject
    (now : Z) (iso : string) (project : Snapshot) (st : Storage) : bool * Storage :=
  let list := getSavedProjectsList st in
  let name := savedName project in
  let entry :=
    {| Saved.id := "proj_" ++ pretty now;
       Saved.name := name;
       Saved.savedAt := iso;
       Saved.loadCount := Z.of_nat (length (loads (base project)));
       Saved.data := project |} in
  let list :=
    match findIndex (fun p => String.eqb (Saved.name p) name) list with
    | Some existingIdx => <[existingIdx := entry]> list
    | None => entry :: list
    end in
  saveProjectToLocalStorage project
    {| currentProject := currentProject st; projectsList := Some list |}.

(** [loadNamedProject(id)]; [None] is [null]. *)
Definition loadNamedProject (id : string) (st : Storage) : option Snapshot :=
  match find (fun p => String.eqb (Saved.id p) id) (getSavedProjectsList st) with
  | Some entry => Some (Saved.data entry)
  | None => None
  end.

(** [deleteNamedProject(id)]. *)
Definition deleteNamedProject (id : string) (st : Storage) : bool * Storage :=
  let list := filter (fun p => negb (String.eqb (Saved.id p) id)) (getSavedProjectsList st) in
  (true, {| currentProject := currentProject st; projectsList := Some list |}).

(** Storage before anything was saved, and a snapshot to save. *)
Definition emptyStorage : Storage := {| currentProject := None; projectsList := None |}.

Definition sampleSection : BatterySection.t :=
  {| BatterySection.backupMode := Some "1"; BatterySection.customDays := Some 1%Q;
     BatterySection.includeEV := false; BatterySection.solarOffsetPercent := Some 0%Q;
     BatterySection.solarOffsetEnabled := false; BatterySection.enabled := false;
     BatterySection.selections := None |}.

Definition sampleSnapshot (title : string) : Snapshot :=
  {| metadata := Some {| projectName := title; address := ""; squareFootage := "" |};
     base := Sample.project_level2;
     wholeHome := sampleSection;
     partialHome := sampleSection |}.

(** ** Load entries of the load table *)

(** A load as the load table holds it: the fields the engine reads
    ([load]) and, beside them, the fields the functions below read.  The
    remaining bookkeeping fields of an entry ([circuitNumber],
    [tandemCircuitB], [motor.nameplateKnown], [motor.notes],
    [_wattsManuallySet]) are not modelled. *)
Record LoadEntry := {
  load : Load;
  description : string;
  isNECBaseline : bool;
  sourceTag : string
}.

(** The [overrides] argument of [createLoadEntry], at the keys its callers
    pass; an absent key is [None]. *)
Record Overrides := {
  o_description : option string;
  o_category : option string;
  o_isNECBaseline : option bool;
  o_breaker : option Breaker;
  o_usage : option Usage;
  o_motor : option Motor;
  o_sourceTag : option string
}.

Definition orDefault {A : Type} (d : A) (o : option A) : A :=
  match o with
  | Some v => v
  | None => d
  end.

(** [createLoadEntry(overrides = {})], as a step on the module counter
    [nextLoadId]; [now] is the value of [Date.now()] at the call.  The entry
    is the default object with the overrides spread over it. *)
Definition createLoadEntry
    (now : Z) (overrides : Overrides) (nextLoadId : Z) : LoadEntry * Z :=
  let id := "load_" ++ pretty nextLoadId ++ "_" ++ pretty now in
  ({| load :=
        {| id := id;
           category := orDefault "Other" (o_category overrides);
           breaker :=
             orDefault {| poles := 1; amps := 15; type := "Standard";
                          voltageOverride := None |} (o_breaker overrides);
           usage :=
             orDefault {| assumedWatts := 500; hoursPerDay := 4;
                          includeInServiceCalc := true;
                          includeInBatteryCalc := true |} (o_usage overrides);
           motor := orDefault {| isMotor := false; lra := None |} (o_motor overrides) |};
      description := orDefault "" (o_description overrides);
      isNECBaseline := orDefault false (o_isNECBaseline overrides);
      sourceTag := orDefault "Assumed" (o_sourceTag overrides) |},
   nextLoadId + 1).

Definition baselineOverrides (text cat : string) (a watts hours : Q) : Overrides :=
  {| o_description := Some text;
     o_category := Some cat;
     o_isNECBaseline := Some true;
     o_breaker := Some {| poles := 1; amps := a; type := "Standard";
                          voltageOverride := None |};
     o_usage := Some {| assumedWatts := watts; hoursPerDay := hours;
                        includeInServiceCalc := true; includeInBatteryCalc := true |};
     o_motor := Some {| isMotor := false; lra := None |};
     o_sourceTag := Some "Assumed" |}.

(** [Number(sqFt) || 1500], on the value [Number(sqFt)] takes; [None] is
    [NaN]. *)
Definition sqFtNum (sqFt : option Q) : Q :=
  match sqFt with
  | Some v => if JS.eqb v 0 then 1500%Q else v
  | None => 1500%Q
  end.

(** [createNECBaselineLoads(sqFt)]: the four entries are created from left
    to right, each reading the clock once ([t1] to [t4]). *)
Definition createNECBaselineLoads
    (sqFt : option Q) (t1 t2 t3 t4 : Z) (nextLoadId : Z) : list LoadEntry * Z :=
  let lightingWatts := inject_Z (JS.Math_round (sqFtNum sqFt * 3)) in
  let '(e1, n1) :=
    createLoadEntry t1
      (baselineOverrides "NEC Baseline: General Lighting & Receptacles"
                         "General Lighting/Receptacles" 15 lightingWatts 8) nextLoadId in
  let '(e2, n2) :=
    createLoadEntry t2
      (baselineOverrides "NEC Baseline: Small Appliance Circuit #1" "Other" 20 1500 2) n1 in
  let '(e3, n3) :=
    createLoadEntry t3
      (baselineOverrides "NEC Baseline: Small Appliance Circuit #2" "Other" 20 1500 2) n2 in
  let '(e4, n4) :=
    createLoadEntry t4
      (baselineOverrides "NEC Baseline: Laundry Circuit" "Other" 20 1500 1) n3 in
  ([e1; e2; e3; e4], n4).

(** The loop that keeps the first baseline of each description, four at
    most; the key of an entry is [bl.description || bl.category]. *)
Definition baselineKey (bl : LoadEntry) : string :=
  if String.eqb (description bl) "" then category (load bl) else description bl.

Fixpoint uniqueBaselines
    (seenDescriptions : gset string) (kept : nat) (existingBaselines : list LoadEntry)
    : list LoadEntry :=
  match existingBaselines with
  | [] => []
  | bl :: rest =>
      let key := baselineKey bl in
      if negb (bool_decide (key ∈ seenDescriptions)) && (kept <? 4)%nat
      then bl :: uniqueBaselines ({[ key ]} ∪ seenDescriptions) (S kept) rest
      else uniqueBaselines seenDescriptions kept rest
  end.

(** The effect that the load table runs when it is shown: exactly four
    baselines are left alone, none are created afresh, more than four are
    deduplicated, and one to three are left as they are.  The update is
    applied to the project that the effect read: [prev.loads] is [loads]. *)
Definition reconcileBaselines
    (sqFt : option Q) (t1 t2 t3 t4 : Z) (loads : list LoadEntry) (nextLoadId : Z)
    : list LoadEntry * Z :=
  let existingBaselines := filter isNECBaseline loads in
  if (length existingBaselines =? 4)%nat then (loads, nextLoadId)
  else if (length existingBaselines =? 0)%nat then
    let '(baselines, n) := createNECBaselineLoads sqFt t1 t2 t3 t4 nextLoadId in
    ((baselines ++ filter (fun l => negb (isNECBaseline l)) loads)%list, n)
  else if (4 <? length existingBaselines)%nat then
    ((uniqueBaselines ∅ 0 existingBaselines
      ++ filter (fun l => negb (isNECBaseline l)) loads)%list, nextLoadId)
  else (loads, nextLoadId).

(** [removeLoad(id)] of the load table: nothing happens when the first load
    of that id is a baseline; otherwise every load of that id is filtered
    out.  The update is applied to the project that the callback read. *)
Definition removeLoad (ident : string) (loads : list LoadEntry) : list LoadEntry :=
  match find (fun l => String.eqb (id (load l)) ident) loads with
  | Some l =>
      if isNECBaseline l then loads
      else filter (fun l => negb (String.eqb (id (load l)) ident)) loads
  | None => filter (fun l => negb (String.eqb (id (load l)) ident)) loads
  end.

(** The character ['_'] that separates the parts of a load id. *)
Definition underscore : Ascii.ascii :=
  match "_" with
  | String c _ => c
  | EmptyString => Ascii.zero
  end.

(** Whether a character occurs in a string. *)
Fixpoint hasChar (c : Ascii.ascii) (s : string) : bool :=
  match s with
  | EmptyString => false
  | String a s' => Ascii.eqb a c || hasChar c s'
  end.

(** Five copies of the baseline lighting load, as a project that was
    saved with duplicated baselines holds them. *)
Definition sampleDuplicates : list LoadEntry :=
  let first := firstn 1 (fst (createNECBaselineLoads None 1 2 3 4 1)) in
  (first ++ first ++ first ++ first ++ first)%list.

(** * Properties *)

(** ** Panel slots *)

(** The code of [calculatePanelSlots] subtracts the used spaces only. *)
Lemma calculatePanelSlots_availableSlots (panel : Panel) :
  PanelSlots.availableSlots (calculatePanelSlots panel)
  = totalSlots panel - usedSlots panel.
Proof. reflexivity. Qed.

(** The panel-space figure of the service step is what the specification
    describes: total minus used and tandem spaces, floored at 0. *)
Lemma totalAvailableSlots_spec (panel : Panel) :
  totalAvailableSlots panel
  = Z.max 0 (totalSlots panel - (usedSlots panel + JS.or0Z (tandemSlotsUsed panel)))
  /\ 0 <= totalAvailableSlots panel.
Proof. unfold totalAvailableSlots. split; [reflexivity | lia]. Qed.

(** C1 (fails on the code).  The claim is that the accountant's
    [availableSlots] is [totalSlots - (usedSlots + tandemSlotsUsed)] floored
    at 0, so that 40 total and 45 used spaces give 0.  On that panel
    [calculatePanelSlots] returns -5, while the sibling computation
    [totalAvailableSlots] of the service step returns the claimed 0. *)
Theorem calculatePanelSlots_not_floored :
  PanelSlots.availableSlots (calculatePanelSlots Sample.panel_40_45) = -5
  /\ totalAvailableSlots Sample.panel_40_45 = 0.
Proof. split; reflexivity. Qed.

(** ** EV feasibility *)

(** C10.  When no charger option is set, [calculateEVFeasibility] returns
    [null], whatever the other fields of the project are. *)
Theorem calculateEVFeasibility_no_charger (project : Project) :
  chargerOption (ev project) = None ->
  calculateEVFeasibility project = None.
Proof.
  intros Hnone. unfold calculateEVFeasibility. now rewrite Hnone.
Qed.

Lemma calculateEVFeasibility_no_charger_witness :
  chargerOption (ev Sample.project_no_charger) = None
  /\ calculateEVFeasibility Sample.project_no_charger = None.
Proof.
  split; [reflexivity |].
  apply (calculateEVFeasibility_no_charger Sample.project_no_charger).
  reflexivity.
Defined.

(** The converse: with a charger selected a result is always produced. *)
Lemma calculateEVFeasibility_some (project : Project) (charger : ChargerOption) :
  chargerOption (ev project) = Some charger ->
  exists r, calculateEVFeasibility project = Some r.
Proof.
  intros Hsome. unfold calculateEVFeasibility. rewrite Hsome. eexists. reflexivity.
Qed.

(** C5.  With a charger selected, the recommendation is the first matching
    tier of the fixed order, decided from the project: from the status of the
    demand estimate of the loads with the synthetic charger loads appended,
    from whether twice the charger count fits the slots the load list leaves
    free, and from the tandem check of the panel.  The five tiers are
    characterised by mutually exclusive conditions on these three, so every
    project gets exactly one of them; an Undersized with-EV status always
    gives 'Service upgrade recommended', whatever the panel space is. *)
Theorem calculateEVFeasibility_tiers (project : Project) (charger : ChargerOption) :
  chargerOption (ev project) = Some charger ->
  let count := countOr1 (chargerCount (ev project)) in
  let amps :=
    if isCustom charger then JS.or0 (customContinuousAmps (ev project))
    else continuousAmps charger in
  let evWattsEach := (amps * serviceVoltage (service project))%Q in
  let withEV :=
    calculateNECOptionalMethod
      (loads project ++ repeat (evSyntheticLoad evWattsEach) (loopCount count))%list
      (service project) None in
  let modeledUsedSlots :=
    if 0 <? Z.of_nat (length (loads project)) then calculateModeledSlots (loads project)
    else usedSlots (panel project) in
  let availableSlots := Z.max 0 (totalSlots (panel project) - modeledUsedSlots) in
  let undersized := NEC.status withEV = "Undersized" in
  let borderline := NEC.status withEV = "Borderline" in
  let space := (2 * count <= inject_Z availableSlots)%Q in
  let tandems :=
    PanelSlots.canFreeSlotsWithTandems (calculatePanelSlots (panel project)) = true in
  exists r,
    calculateEVFeasibility project = Some r
    /\ EVResult.necWithEV r = withEV
    /\ EVResult.availableSlots r = availableSlots
    /\ (EVResult.hasSpace r = true <-> space)
    /\ (EVResult.canUseTandems r = true <-> tandems)
    /\ (EVResult.recommendation r = "Service upgrade recommended" <-> undersized)
    /\ (EVResult.recommendation r = "Subpanel recommended"
        <-> ~ undersized /\ ~ space /\ ~ tandems)
    /\ (EVResult.recommendation r = "Requires tandems to free space"
        <-> ~ undersized /\ ~ space /\ tandems)
    /\ (EVResult.recommendation r = "Feasible but borderline capacity"
        <-> ~ undersized /\ space /\ borderline)
    /\ (EVResult.recommendation r = "Add as-is"
        <-> ~ undersized /\ space /\ ~ borderline)
    /\ In (EVResult.recommendation r)
          [ "Service upgrade recommended"; "Subpanel recommended";
            "Requires tandems to free space"; "Feasible but borderline capacity";
            "Add as-is" ].
Proof.
  intros Hsome. cbv zeta. unfold calculateEVFeasibility. rewrite Hsome.
  eexists. split; [reflexivity |]. cbn zeta.
  cbn [EVResult.recommendation EVResult.necWithEV EVResult.hasSpace
       EVResult.canUseTandems EVResult.availableSlots].
  set (st := NEC.status _).
  set (need := (2 * countOr1 _)%Q).
  set (avail := inject_Z _).
  set (td := PanelSlots.canFreeSlotsWithTandems _).
  split; [reflexivity |]. split; [reflexivity |].
  split; [apply Qle_bool_iff |]. split; [tauto |].
  assert (Hsp : JS.leb need avail = true <-> (need <= avail)%Q) by apply Qle_bool_iff.
  destruct (JS.leb need avail);
    [ assert (Hs : (need <= avail)%Q) by (now apply Hsp)
    | assert (Hs : ~ (need <= avail)%Q) by (intros H; apply Hsp in H; discriminate) ];
    clear Hsp;
    destruct (String.eqb_spec st "Undersized") as [Hu | Hu];
    destruct (String.eqb_spec st "Borderline") as [Hb | Hb];
    destruct td; cbn [negb andb];
    try (exfalso; rewrite Hu in Hb; discriminate);
    repeat split; try discriminate; try tauto; try congruence;
    cbn [In]; intuition (try discriminate; try congruence).
Qed.

Lemma calculateEVFeasibility_tiers_witness :
  let project := Sample.mkProject 30 Sample.panel_40_20 [Sample.pool] in
  chargerOption (ev project) = Some Sample.level2
  /\ exists r,
       calculateEVFeasibility project = Some r
       /\ EVResult.recommendation r = "Service upgrade recommended".
Proof.
  cbv zeta. split; [reflexivity |].
  pose proof (calculateEVFeasibility_tiers
                (Sample.mkProject 30 Sample.panel_40_20 [Sample.pool])
                Sample.level2 eq_refl) as H.
  cbv zeta in H. destruct H as (r & Hr & _ & _ & _ & _ & Hupgrade & _).
  exists r. split; [exact Hr |]. apply Hupgrade. vm_compute. reflexivity.
Defined.

(** Each of the five tiers is produced by some project; the first one also
    on a panel without space. *)
Example calculateEVFeasibility_tiers_reachable :
  let rec p := option_map EVResult.recommendation (calculateEVFeasibility p) in
  rec (Sample.mkProject 30 (Sample.panel_2 "Unknown") [Sample.pool])
  = Some "Service upgrade recommended"
  /\ rec (Sample.mkProject 30 Sample.panel_40_20 [Sample.pool])
     = Some "Service upgrade recommended"
  /\ rec (Sample.mkProject 200 (Sample.panel_2 "Unknown") [Sample.pool])
     = Some "Subpanel recommended"
  /\ rec (Sample.mkProject 200 (Sample.panel_2 "Allowed") [Sample.pool])
     = Some "Requires tandems to free space"
  /\ rec (Sample.mkProject 90 Sample.panel_40_20 [Sample.pool])
     = Some "Feasible but borderline capacity"
  /\ rec (Sample.mkProject 200 Sample.panel_40_20 [Sample.pool])
     = Some "Add as-is".
Proof. vm_compute. repeat split. Qed.

(** ** The NEC demand estimate *)

Lemma ltb_lt (x y : Q) : JS.ltb x y = true <-> (x < y)%Q.
Proof.
  unfold JS.ltb. rewrite negb_true_iff, <- not_true_iff_false, Qle_bool_iff.
  split; [apply Qnot_le_lt | apply Qlt_not_le].
Qed.

Lemma ltb_ge (x y : Q) : JS.ltb x y = false <-> (y <= x)%Q.
Proof.
  unfold JS.ltb. rewrite negb_false_iff. apply Qle_bool_iff.
Qed.

Lemma leb_le (x y : Q) : JS.leb x y = true <-> (x <= y)%Q.
Proof. apply Qle_bool_iff. Qed.

Lemma leb_gt (x y : Q) : JS.leb x y = false <-> (y < x)%Q.
Proof.
  unfold JS.leb. rewrite <- not_true_iff_false, Qle_bool_iff.
  split; [apply Qnot_le_lt | apply Qlt_not_le].
Qed.

(** None of the fixed-appliance names contains ['Electric '], so the
    [replace] in the fixed-appliance test changes nothing. *)
Lemma fixedCategories_replace :
  map (fun c => JS.replace c "Electric " "") fixedCategories = fixedCategories.
Proof. reflexivity. Qed.

(** The total is the sum of the seven bucket demands. *)
Lemma totalDemandVA_unfold (loads : list Load) (service : Service) (sqFt : option Q) :
  NEC.totalDemandVA (calculateNECOptionalMethod loads service sqFt)
  = (demandGeneral (generalTotal loads sqFt) + fixedLoadVA loads + cookingDemand loads
     + dryerDemand loads + hvacDemand loads + otherLargeVA loads + evVA loads)%Q.
Proof. reflexivity. Qed.

(** C8.  The general demand factor keeps the first 10,000 VA at 100% and
    takes 40% of the remainder: up to 10,000 the demand is the total itself,
    10000 gives 10000 and 10001 gives 10000.4. *)
Theorem demandGeneral_factor (generalTotal : Q) :
  ((generalTotal <= 10000)%Q -> demandGeneral generalTotal = generalTotal)
  /\ ((10000 < generalTotal)%Q ->
      (demandGeneral generalTotal == 10000 + (generalTotal - 10000) * (4 # 10))%Q)
  /\ (demandGeneral 10000 == 10000)%Q
  /\ (demandGeneral 10001 == 100004 # 10)%Q.
Proof.
  unfold demandGeneral. repeat split.
  - intros Hle. apply leb_le in Hle. now rewrite Hle.
  - intros Hgt. apply leb_gt in Hgt. rewrite Hgt. reflexivity.
Qed.

Lemma demandGeneral_factor_witness :
  (9000 <= 10000)%Q /\ demandGeneral 9000 = 9000%Q.
Proof.
  assert (Hle : (9000 <= 10000)%Q) by (unfold Qle; simpl; lia).
  split; [exact Hle |].
  apply (proj1 (demandGeneral_factor 9000)). exact Hle.
Defined.

(** The same boundary seen through the estimator: a lighting load of 5500 W
    (5501 W) with no square footage makes the general total 10000 (10001). *)
Lemma demandGeneral_boundary_end_to_end :
  (NEC.totalDemandVA
     (calculateNECOptionalMethod [Sample.lighting 5500] Sample.service_240_200 None)
   == 10000)%Q
  /\ (NEC.totalDemandVA
        (calculateNECOptionalMethod [Sample.lighting 5501] Sample.service_240_200 None)
      == 100004 # 10)%Q.
Proof. split; reflexivity. Qed.

(** C9.  240 V service with a 200 A main breaker, 2000 square feet and a
    single 1500 W load whose category falls in no NEC bucket: the total
    demand is 11700 VA (general part 10200, other large loads 1500), the
    service amps round to 48.8, the reported ratio is 24 and the status is
    OK. *)
Theorem nec_scenario_2000_sqft (l : Load) (service : Service) :
  isOtherLarge l = true ->
  assumedWatts (usage l) = 1500%Q ->
  serviceVoltage service = 240%Q ->
  mainBreakerAmps service = 200%Q ->
  let r := calculateNECOptionalMethod [l] service (Some 2000%Q) in
  (generalLoadVA [l] (Some 2000%Q) == 6000)%Q
  /\ (generalTotal [l] (Some 2000%Q) == 10500)%Q
  /\ (demandGeneral (generalTotal [l] (Some 2000%Q)) == 10200)%Q
  /\ (otherLargeVA [l] == 1500)%Q
  /\ (NEC.totalDemandVA r == 11700)%Q
  /\ (NEC.serviceAmps r == 488 # 10)%Q
  /\ NEC.ratio r = 24
  /\ NEC.status r = "OK"
  /\ Breakdown.generalAndSmallAppliance (NEC.breakdown r) = 10200
  /\ Breakdown.otherLarge (NEC.breakdown r) = 1500.
Proof.
  intros Hother Hwatts Hvolt Hmain.
  pose proof Hother as Hbuckets. unfold isOtherLarge in Hbuckets.
  repeat rewrite andb_true_iff in Hbuckets. repeat rewrite negb_true_iff in Hbuckets.
  destruct Hbuckets as [[[[[[Hfix Hcook] Hdry] Hcool] Hheat] Hlight] Hev].
  unfold calculateNECOptionalMethod, generalTotal, generalLoadVA, fixedLoadVA,
    cookingDemand, dryerDemand, hvacDemand, coolingVA, heatingVA, otherLargeVA, evVA.
  cbn [filter]. rewrite Hother, Hfix, Hcook, Hdry, Hcool, Hheat, Hev.
  unfold sumAssumedWatts. cbn [fold_left]. rewrite Hwatts, Hvolt, Hmain.
  cbv zeta. repeat split.
Qed.

Lemma nec_scenario_2000_sqft_witness :
  let r := calculateNECOptionalMethod [Sample.pool] Sample.service_240_200 (Some 2000%Q) in
  (NEC.totalDemandVA r == 11700)%Q /\ (NEC.serviceAmps r == 488 # 10)%Q
  /\ NEC.ratio r = 24 /\ NEC.status r = "OK".
Proof.
  pose proof (nec_scenario_2000_sqft Sample.pool Sample.service_240_200
                eq_refl eq_refl eq_refl eq_refl) as H.
  cbv zeta in H. cbv zeta. tauto.
Defined.

(** ** Battery sizing *)

Lemma positive_ratings_sample : positive_ratings Sample.specs.
Proof. unfold positive_ratings; cbn; repeat split; try reflexivity; discriminate. Qed.

(** The load selection does not look at the solar offset. *)
Lemma filteredLoads_ext (loads : list Load) (o1 o2 : Options) :
  includeLoadIds o1 = includeLoadIds o2 ->
  proposedEVLoads o1 = proposedEVLoads o2 ->
  partialSelections o1 = partialSelections o2 ->
  filteredLoads loads o1 = filteredLoads loads o2.
Proof.
  intros Hids Hev Hsel. unfold filteredLoads. now rewrite Hids, Hev, Hsel.
Qed.

Lemma fold_Qmax_ge {A : Type} (f : A -> Q) (ls : list A) (acc : Q) :
  (acc <= fold_left (fun max l => Qmax max (f l)) ls acc)%Q.
Proof.
  revert acc. induction ls as [| a ls IH]; intros acc; cbn [fold_left].
  - apply Qle_refl.
  - eapply Qle_trans; [apply Q.le_max_l | apply IH].
Qed.

Lemma largestLRA_nonneg (loads : list Load) (options : Options) :
  (0 <= largestLRA loads options)%Q.
Proof. apply fold_Qmax_ge. Qed.

Lemma Qceiling_div_eq0 (x d : Q) : (x == 0)%Q -> Qceiling (x / d) = 0.
Proof.
  intros Hx.
  assert (Hq : (x / d == 0)%Q) by (unfold Qdiv; rewrite Hx; apply Qmult_0_l).
  now rewrite Hq.
Qed.

(** The guarded ceiling [x > 0 ? Math.ceil(x / d) : 0] is the plain ceiling
    as soon as [x] is not negative. *)
Lemma guarded_ceil (x d : Q) :
  (0 <= x)%Q ->
  (if JS.ltb 0 x then JS.Math_ceil (x / d) else 0) = JS.Math_ceil (x / d).
Proof.
  intros Hx. destruct (JS.ltb 0 x) eqn:Hlt; [reflexivity |].
  apply ltb_ge in Hlt. unfold JS.Math_ceil. symmetry. apply Qceiling_div_eq0.
  apply Qle_antisym; assumption.
Qed.



(** The offset does change the energy-bound count: a 1000 W load running
    24 hours needs five Enphase 5P units for energy without solar and three
    with a 50% offset, while the power-bound count stays at one. *)
Example solar_offset_changes_energy_bound :
  let day := [Sample.mkLoad "load_4" "Other" 1000 24] in
  let r1 := calculateBatterySizing Sample.specs day 1 (Sample.noOptions 0) in
  let r2 := calculateBatterySizing Sample.specs day 1 (Sample.noOptions 50) in
  Single.forEnergy (Results.enphase5P r1) = 5
  /\ Single.forEnergy (Results.enphase5P r2) = 3
  /\ Single.forPower (Results.enphase5P r1) = 1
  /\ Single.forPower (Results.enphase5P r2) = 1
  /\ Single.count (Results.enphase5P r1) = 5.
Proof. vm_compute. repeat split. Qed.

(** C7.  In the mixed Enphase configuration the 10C count is the count the
    power and motor-start requirements need (at least 1); the 5P count is the
    ceiling of the energy that remains after the 10C units, divided by the 5P
    usable kWh, and 0 when nothing remains; the total never exceeds the sum of
    the two; and [notFeasible] holds exactly when the total exceeds the sum of
    the two unit caps. *)
Theorem enphase_mixed_sizing
    (specs : BatterySpecs.t) (loads : list Load) (backupDays : Q) (options : Options) :
  let e5p := BatterySpecs.enphase5P specs in
  let e10c := BatterySpecs.enphase10C specs in
  let mixed := Results.enphase_mixed (calculateBatterySizing specs loads backupDays options) in
  let forPower := JS.Math_ceil (peakPowerKW loads options / BatterySpec.continuousKW e10c) in
  let forMotor := JS.Math_ceil (largestLRA loads options / BatterySpec.motorStartLRA e10c) in
  let remaining :=
    Qmax 0 (totalEnergyNeededKWh loads backupDays options
            - inject_Z (Mixed.count10C mixed) * BatterySpec.usableKWh e10c) in
  Mixed.count10C mixed = Z.max (Z.max forPower forMotor) 1
  /\ 1 <= Mixed.count10C mixed
  /\ Mixed.count5P mixed = JS.Math_ceil (remaining / BatterySpec.usableKWh e5p)
  /\ ((remaining == 0)%Q -> Mixed.count5P mixed = 0)
  /\ Mixed.totalUnits mixed = Mixed.count10C mixed + Mixed.count5P mixed
  /\ Mixed.totalUnits mixed
     <= Mixed.count10C mixed + JS.Math_ceil (remaining / BatterySpec.usableKWh e5p)
  /\ (Mixed.notFeasible mixed = true
      <-> BatterySpec.maxUnits e10c + BatterySpec.maxUnits e5p < Mixed.totalUnits mixed).
Proof.
  unfold calculateBatterySizing. cbn zeta.
  cbn [Results.enphase_mixed Mixed.count10C Mixed.count5P Mixed.totalUnits
       Mixed.notFeasible].
  rewrite (guarded_ceil (largestLRA loads options)) by apply largestLRA_nonneg.
  set (units10C := Z.max (Z.max _ _) 1).
  set (remaining := Qmax 0 _).
  assert (Hrem : (0 <= remaining)%Q) by apply Q.le_max_l.
  rewrite (guarded_ceil remaining) by exact Hrem.
  repeat split.
  - subst units10C. lia.
  - intros H0. unfold JS.Math_ceil. now apply Qceiling_div_eq0.
  - lia.
  - rewrite negb_true_iff. apply Z.leb_gt.
  - rewrite negb_true_iff. apply Z.leb_gt.
Qed.

(** A mixed configuration that needs units of both products: 60 kWh of energy
    at 1 kW needs one 10C for power and ten 5P for the remaining 50 kWh,
    which is beyond the combined cap of eight units. *)
Example enphase_mixed_over_cap :
  let long := [Sample.mkLoad "load_5" "Other" 1000 24] in
  let mixed := Results.enphase_mixed
                 (calculateBatterySizing Sample.specs long (5 # 2) (Sample.noOptions 0)) in
  Mixed.count10C mixed = 1 /\ Mixed.count5P mixed = 10
  /\ Mixed.totalUnits mixed = 11 /\ Mixed.notFeasible mixed = true
  /\ Mixed.reason mixed = Some "Exceeds maximum combined unit count".
Proof. vm_compute. repeat split. Qed.

(** *** Single-product configurations *)

Lemma checkFeasibility_spec (count maxUnits : Z) (label : string) :
  (Feasibility.notFeasible (checkFeasibility count maxUnits label) = true
   <-> maxUnits < count)
  /\ (maxUnits < count ->
      Feasibility.reason (checkFeasibility count maxUnits label)
      = Some ("Exceeds maximum configuration (" ++ pretty maxUnits ++ " "
              ++ label ++ " max)"))
  /\ (count <= maxUnits ->
      Feasibility.reason (checkFeasibility count maxUnits label) = None).
Proof.
  unfold checkFeasibility. destruct (Z.ltb_spec maxUnits count) as [Hlt | Hge];
    cbn [Feasibility.notFeasible Feasibility.reason]; repeat split;
    intros; try reflexivity; try lia; try discriminate; assumption.
Qed.

(** The reported count is the required one whether or not it is feasible. *)
Lemma reported_count (count maxUnits : Z) (label : string) :
  (if Feasibility.notFeasible (checkFeasibility count maxUnits label)
   then count else Z.min count maxUnits) = count.
Proof.
  unfold checkFeasibility. destruct (Z.ltb_spec maxUnits count);
    cbn [Feasibility.notFeasible]; lia.
Qed.

(** Enphase 5P: the unit count is the largest of the energy and power
    ceilings and 1; the label is Energy on a tie. *)
Lemma enphase5P_sizing
    (specs : BatterySpecs.t) (loads : list Load) (backupDays : Q) (options : Options) :
  let e5p := BatterySpecs.enphase5P specs in
  let r := Results.enphase5P (calculateBatterySizing specs loads backupDays options) in
  let forEnergy :=
    JS.Math_ceil (totalEnergyNeededKWh loads backupDays options / BatterySpec.usableKWh e5p) in
  let forPower := JS.Math_ceil (peakPowerKW loads options / BatterySpec.continuousKW e5p) in
  Single.forEnergy r = forEnergy /\ Single.forPower r = forPower
  /\ Single.forMotorStart r = None
  /\ Single.count r = Z.max (Z.max forEnergy forPower) 1
  /\ 1 <= Single.count r
  /\ (Single.limitedBy r = "Energy" <-> forPower <= forEnergy)
  /\ (Single.limitedBy r = "Power" <-> forEnergy < forPower)
  /\ (Single.notFeasible r = true <-> BatterySpec.maxUnits e5p < Single.count r)
  /\ (Single.totalKWh r
      = inject_Z (Z.min (Single.count r) (BatterySpec.maxUnits e5p))
        * BatterySpec.usableKWh e5p)%Q
  /\ (Single.totalKW r
      = inject_Z (Z.min (Single.count r) (BatterySpec.maxUnits e5p))
        * BatterySpec.continuousKW e5p)%Q.
Proof.
  unfold calculateBatterySizing. cbn zeta.
  cbn [Results.enphase5P Single.count Single.forEnergy Single.forPower
       Single.forMotorStart Single.limitedBy Single.notFeasible Single.totalKWh
       Single.totalKW].
  rewrite reported_count.
  set (forEnergy := JS.Math_ceil _). set (forPower := JS.Math_ceil _).
  repeat split; try lia; try apply checkFeasibility_spec.
  - destruct (Z.leb_spec forPower forEnergy); [lia | discriminate].
  - intros Hle. apply Z.leb_le in Hle. now rewrite Hle.
  - destruct (Z.leb_spec forPower forEnergy); [discriminate | lia].
  - intros Hlt. apply Z.leb_gt in Hlt. now rewrite Hlt.
Qed.

(** The three-way label of the 10C and Powerwall entries. *)
Lemma limitedBy_three (e p m : Z) :
  let label :=
    if (p <=? e) && (m <=? e) then "Energy"
    else if m <=? p then "Power" else "Motor Start" in
  (label = "Energy" <-> p <= e /\ m <= e)
  /\ (label = "Power" <-> ~ (p <= e /\ m <= e) /\ m <= p)
  /\ (label = "Motor Start" <-> ~ (p <= e /\ m <= e) /\ p < m)
  /\ (label = "Energy" -> e = Z.max (Z.max e p) m)
  /\ (label = "Power" -> p = Z.max (Z.max e p) m)
  /\ (label = "Motor Start" -> m = Z.max (Z.max e p) m).
Proof.
  cbv zeta.
  destruct (Z.leb_spec p e), (Z.leb_spec m e), (Z.leb_spec m p); cbn [andb];
    repeat split; intros; try discriminate; try lia; try reflexivity.
Qed.

(** Enphase 10C: the unit count is the largest of the energy, power and
    motor-start ceilings and 1; ties go to Energy, then Power. *)
Lemma enphase10C_sizing
    (specs : BatterySpecs.t) (loads : list Load) (backupDays : Q) (options : Options) :
  let e10c := BatterySpecs.enphase10C specs in
  let r := Results.enphase10C (calculateBatterySizing specs loads backupDays options) in
  let forEnergy :=
    JS.Math_ceil (totalEnergyNeededKWh loads backupDays options / BatterySpec.usableKWh e10c) in
  let forPower := JS.Math_ceil (peakPowerKW loads options / BatterySpec.continuousKW e10c) in
  let forMotor := JS.Math_ceil (largestLRA loads options / BatterySpec.motorStartLRA e10c) in
  Single.forEnergy r = forEnergy /\ Single.forPower r = forPower
  /\ Single.forMotorStart r = Some forMotor
  /\ Single.count r = Z.max (Z.max (Z.max forEnergy forPower) forMotor) 1
  /\ 1 <= Single.count r
  /\ (Single.limitedBy r = "Energy" <-> forPower <= forEnergy /\ forMotor <= forEnergy)
  /\ (Single.limitedBy r = "Power"
      <-> ~ (forPower <= forEnergy /\ forMotor <= forEnergy) /\ forMotor <= forPower)
  /\ (Single.limitedBy r = "Motor Start"
      <-> ~ (forPower <= forEnergy /\ forMotor <= forEnergy) /\ forPower < forMotor)
  /\ (Single.notFeasible r = true <-> BatterySpec.maxUnits e10c < Single.count r)
  /\ (Single.totalKWh r
      = inject_Z (Z.min (Single.count r) (BatterySpec.maxUnits e10c))
        * BatterySpec.usableKWh e10c)%Q
  /\ (Single.totalKW r
      = inject_Z (Z.min (Single.count r) (BatterySpec.maxUnits e10c))
        * BatterySpec.continuousKW e10c)%Q.
Proof.
  unfold calculateBatterySizing. cbn zeta.
  cbn [Results.enphase10C Single.count Single.forEnergy Single.forPower
       Single.forMotorStart Single.limitedBy Single.notFeasible Single.totalKWh
       Single.totalKW].
  rewrite reported_count.
  rewrite (guarded_ceil (largestLRA loads options)) by apply largestLRA_nonneg.
  set (forEnergy := JS.Math_ceil _). set (forPower := JS.Math_ceil _).
  set (forMotor := JS.Math_ceil _).
  pose proof (limitedBy_three forEnergy forPower forMotor) as Hlabel. cbv zeta in Hlabel.
  destruct Hlabel as (HE & HP & HM & _).
  repeat split; try lia; try apply checkFeasibility_spec;
    try (apply HE; assumption); try (apply HP; assumption);
    try (apply HM; assumption).
  all: try (intros [? ?]; (apply HE || apply HP || apply HM); split; assumption).
Qed.

(** Powerwall 3 without expansions: the power and motor-start counts enter
    the unit count only after they have been capped at [maxLeaders]. *)
Lemma teslaPW3Only_sizing
    (specs : BatterySpecs.t) (loads : list Load) (backupDays : Q) (options : Options) :
  let pw3 := BatterySpecs.teslaPW3 specs in
  let r := Results.teslaPW3Only (calculateBatterySizing specs loads backupDays options) in
  let forEnergy :=
    JS.Math_ceil (totalEnergyNeededKWh loads backupDays options / BatterySpec.usableKWh pw3) in
  let forPower := JS.Math_ceil (peakPowerKW loads options / BatterySpec.continuousKW pw3) in
  let forMotor := JS.Math_ceil (largestLRA loads options / BatterySpec.motorStartLRA pw3) in
  Single.forEnergy r = forEnergy /\ Single.forPower r = forPower
  /\ Single.forMotorStart r = Some forMotor
  /\ Single.count r
     = Z.max forEnergy (Z.min (Z.max (Z.max forPower forMotor) 1) (BatterySpec.maxLeaders pw3))
  /\ (Z.max (Z.max forPower forMotor) 1 <= BatterySpec.maxLeaders pw3 ->
      Single.count r = Z.max (Z.max (Z.max forEnergy forPower) forMotor) 1)
  /\ (Single.limitedBy r = "Energy" <-> forPower <= forEnergy /\ forMotor <= forEnergy)
  /\ (Single.limitedBy r = "Power"
      <-> ~ (forPower <= forEnergy /\ forMotor <= forEnergy) /\ forMotor <= forPower)
  /\ (Single.limitedBy r = "Motor Start"
      <-> ~ (forPower <= forEnergy /\ forMotor <= forEnergy) /\ forPower < forMotor)
  /\ (Single.notFeasible r = true <-> BatterySpec.maxLeaders pw3 < Single.count r)
  /\ (Single.notFeasible r = true <-> BatterySpec.maxLeaders pw3 < forEnergy)
  /\ (Single.totalKWh r
      = inject_Z (Z.min (Single.count r) (BatterySpec.maxLeaders pw3))
        * BatterySpec.usableKWh pw3)%Q
  /\ (Single.totalKW r
      = inject_Z (Z.min (Single.count r) (BatterySpec.maxLeaders pw3))
        * BatterySpec.continuousKW pw3)%Q.
Proof.
  unfold calculateBatterySizing. cbn zeta.
  cbn [Results.teslaPW3Only Single.count Single.forEnergy Single.forPower
       Single.forMotorStart Single.limitedBy Single.notFeasible Single.totalKWh
       Single.totalKW].
  rewrite reported_count.
  rewrite (guarded_ceil (largestLRA loads options)) by apply largestLRA_nonneg.
  set (forEnergy := JS.Math_ceil _). set (forPower := JS.Math_ceil _).
  set (forMotor := JS.Math_ceil _).
  pose proof (limitedBy_three forEnergy forPower forMotor) as Hlabel. cbv zeta in Hlabel.
  destruct Hlabel as (HE & HP & HM & _).
  set (count := Z.max forEnergy _).
  pose proof (checkFeasibility_spec count (BatterySpec.maxLeaders (BatterySpecs.teslaPW3 specs))
                "PW3") as (Hflag & _ & _).
  repeat split; try (subst count; lia); try apply Hflag;
    try (apply HE; assumption); try (apply HP; assumption);
    try (apply HM; assumption).
  all: try (intros [? ?]; (apply HE || apply HP || apply HM); split; assumption).
  - intros Hnf. apply Hflag in Hnf. subst count. lia.
  - intros Hlt. apply Hflag. subst count. lia.
Qed.

(** With a cap of at least one leader the Powerwall entry, too, never
    reports less than one unit. *)
Lemma teslaPW3Only_at_least_one
    (specs : BatterySpecs.t) (loads : list Load) (backupDays : Q) (options : Options) :
  1 <= BatterySpec.maxLeaders (BatterySpecs.teslaPW3 specs) ->
  1 <= Single.count
         (Results.teslaPW3Only (calculateBatterySizing specs loads backupDays options)).
Proof.
  intros Hcap.
  pose proof (teslaPW3Only_sizing specs loads backupDays options) as Hsz.
  cbv zeta in Hsz. destruct Hsz as (_ & _ & _ & Hcount & _).
  rewrite Hcount. lia.
Qed.

(** An empty load list gets one unit of every single product. *)
Example single_product_empty_load_list :
  let res := calculateBatterySizing Sample.specs [] 1 (Sample.noOptions 0) in
  Single.count (Results.enphase5P res) = 1
  /\ Single.count (Results.enphase10C res) = 1
  /\ Single.count (Results.teslaPW3Only res) = 1
  /\ Single.limitedBy (Results.enphase5P res) = "Energy"
  /\ Single.limitedBy (Results.enphase10C res) = "Energy"
  /\ Single.limitedBy (Results.teslaPW3Only res) = "Energy".
Proof. vm_compute. repeat split. Qed.

Lemma Qceiling_inject_Z (z : Z) : Qceiling (inject_Z z) = z.
Proof. unfold Qceiling. rewrite <- inject_Z_opp, Qfloor_Z. lia. Qed.

(** The load list [overPowerLoads] asks for no energy, no motor start, and
    for [maxLeaders + 1] Powerwalls of running power. *)
Lemma overPowerLoads_requirements (specs : BatterySpecs.t) :
  let pw3 := BatterySpecs.teslaPW3 specs in
  let o := Sample.noOptions 0 in
  (0 < BatterySpec.continuousKW pw3)%Q ->
  (totalEnergyNeededKWh (overPowerLoads specs) 1 o == 0)%Q
  /\ (peakPowerKW (overPowerLoads specs) o / BatterySpec.continuousKW pw3
      == inject_Z (BatterySpec.maxLeaders pw3 + 1))%Q
  /\ largestLRA (overPowerLoads specs) o = 0%Q.
Proof.
  cbv zeta. intros Hc. repeat split.
  - unfold totalEnergyNeededKWh, overPowerLoads, calculatePracticalLoad, filteredLoads.
    cbn [Sample.noOptions includeLoadIds proposedEVLoads partialSelections
         solarOffsetPercent filter Sample.mkLoad usage includeInBatteryCalc negb
         fold_left Practical.totalDailyKWh assumedWatts hoursPerDay].
    change (JS.ltb 0 0) with false. cbv iota.
    set (w := (1000 * _ * _)%Q).
    assert (H0 : ((0 + w * 0) / 1000 * 1 == 0)%Q) by field.
    rewrite H0. reflexivity.
  - unfold peakPowerKW, overPowerLoads, calculatePracticalLoad, filteredLoads,
      sumAssumedWatts.
    cbn [Sample.noOptions includeLoadIds proposedEVLoads partialSelections
         filter Sample.mkLoad usage includeInBatteryCalc negb
         fold_left Practical.totalRunningKW assumedWatts].
    field. intros H0. rewrite H0 in Hc. discriminate.
Qed.

Lemma overPowerLoads_ceilings (specs : BatterySpecs.t) :
  let pw3 := BatterySpecs.teslaPW3 specs in
  let o := Sample.noOptions 0 in
  positive_ratings specs ->
  JS.Math_ceil (totalEnergyNeededKWh (overPowerLoads specs) 1 o / BatterySpec.usableKWh pw3) = 0
  /\ JS.Math_ceil (peakPowerKW (overPowerLoads specs) o / BatterySpec.continuousKW pw3)
     = BatterySpec.maxLeaders pw3 + 1
  /\ JS.Math_ceil (largestLRA (overPowerLoads specs) o / BatterySpec.motorStartLRA pw3) = 0.
Proof.
  cbv zeta. intros Hpos.
  assert (Hc : (0 < BatterySpec.continuousKW (BatterySpecs.teslaPW3 specs))%Q)
    by apply Hpos.
  destruct (overPowerLoads_requirements specs Hc) as (HE & HP & HL).
  unfold JS.Math_ceil. split; [| split].
  - now apply Qceiling_div_eq0.
  - rewrite HP. apply Qceiling_inject_Z.
  - rewrite HL. now apply Qceiling_div_eq0.
Qed.

(** C3 (fails on the code).  The claim is that every single-product
    configuration reports [max(ceil(energy/usableKWh), ceil(power/continuousKW),
    ceil(LRA/motorStartLRA), 1)] units.  The two Enphase entries do
    ([enphase5P_sizing], [enphase10C_sizing]); the Powerwall 3 entry takes the
    power and motor-start counts capped at [maxLeaders], so on a load list
    that needs [maxLeaders + 1] units of power and no energy it reports
    [maxLeaders] units, which is less than the claimed maximum, while its
    label still names Power as the binding constraint. *)
Theorem teslaPW3Only_count_below_power_need (specs : BatterySpecs.t) :
  positive_ratings specs ->
  let pw3 := BatterySpecs.teslaPW3 specs in
  let o := Sample.noOptions 0 in
  let loads := overPowerLoads specs in
  let r := Results.teslaPW3Only (calculateBatterySizing specs loads 1 o) in
  let claimed :=
    Z.max (Z.max (Z.max
      (JS.Math_ceil (totalEnergyNeededKWh loads 1 o / BatterySpec.usableKWh pw3))
      (JS.Math_ceil (peakPowerKW loads o / BatterySpec.continuousKW pw3)))
      (JS.Math_ceil (largestLRA loads o / BatterySpec.motorStartLRA pw3))) 1 in
  Single.forEnergy r = 0
  /\ Single.forPower r = BatterySpec.maxLeaders pw3 + 1
  /\ Single.forMotorStart r = Some 0
  /\ claimed = BatterySpec.maxLeaders pw3 + 1
  /\ Single.count r = BatterySpec.maxLeaders pw3
  /\ Single.count r < claimed
  /\ Single.limitedBy r = "Power".
Proof.
  intros Hpos. cbv zeta.
  pose proof (teslaPW3Only_sizing specs (overPowerLoads specs) 1 (Sample.noOptions 0))
    as Hsz. cbv zeta in Hsz.
  destruct (overPowerLoads_ceilings specs Hpos) as (HE & HP & HM).
  rewrite HE, HP, HM in *.
  destruct Hsz as (H1 & H2 & H3 & H4 & _ & _ & H7 & _).
  assert (Hmax : 0 <= BatterySpec.maxLeaders (BatterySpecs.teslaPW3 specs))
    by apply Hpos.
  rewrite H1, H2, H3, H4. repeat split; try lia.
  apply H7. lia.
Qed.

Lemma teslaPW3Only_count_below_power_need_witness :
  positive_ratings Sample.specs
  /\ let r := Results.teslaPW3Only
                (calculateBatterySizing Sample.specs (overPowerLoads Sample.specs) 1
                                        (Sample.noOptions 0)) in
     Single.forPower r = 5 /\ Single.count r = 4.
Proof.
  split; [exact positive_ratings_sample |].
  pose proof (teslaPW3Only_count_below_power_need Sample.specs positive_ratings_sample)
    as H.
  cbv zeta in H. cbv zeta. tauto.
Defined.

(** The same shortfall with everyday figures: a 60 kW load that runs half an
    hour a day needs six Powerwalls for power and three for energy; the entry
    reports four units, labelled Power, and is not flagged. *)
Example teslaPW3Only_sample_shortfall :
  let r := Results.teslaPW3Only
             (calculateBatterySizing Sample.specs
                [Sample.mkLoad "load_6" "Other" 60000 (1 # 2)] 1 (Sample.noOptions 0)) in
  Single.forEnergy r = 3 /\ Single.forPower r = 6 /\ Single.forMotorStart r = Some 0
  /\ Single.count r = 4 /\ Single.limitedBy r = "Power"
  /\ Single.notFeasible r = false.
Proof. vm_compute. repeat split. Qed.

(** On the same load list the Enphase 10C entry, which takes the plain
    maximum, reports the required count and flags it. *)
Example enphase10C_sample_flagged :
  let r := Results.enphase10C
             (calculateBatterySizing Sample.specs
                [Sample.mkLoad "load_6" "Other" 60000 (1 # 2)] 1 (Sample.noOptions 0)) in
  Single.forEnergy r = 3 /\ Single.forPower r = 9
  /\ Single.count r = 9 /\ Single.notFeasible r = true
  /\ Single.reason r = Some "Exceeds maximum configuration (4 units max)"
  /\ (Single.totalKWh r == 40)%Q.
Proof. vm_compute. repeat split. Qed.

(** *** Feasibility *)

(** In each single-product entry the flag is raised exactly when the count
    handed to [checkFeasibility] exceeds the cap, the reason string is present
    exactly then, and the count field keeps the count unclamped. *)
Lemma single_product_reason
    (specs : BatterySpecs.t) (loads : list Load) (backupDays : Q) (options : Options) :
  let res := calculateBatterySizing specs loads backupDays options in
  let reasonOf (r : Single.t) (cap : Z) (label : string) :=
    Single.reason r
    = if Single.notFeasible r
      then Some ("Exceeds maximum configuration (" ++ pretty cap ++ " " ++ label ++ " max)")
      else None in
  reasonOf (Results.enphase5P res)
           (BatterySpec.maxUnits (BatterySpecs.enphase5P specs)) "units"
  /\ reasonOf (Results.enphase10C res)
              (BatterySpec.maxUnits (BatterySpecs.enphase10C specs)) "units"
  /\ reasonOf (Results.teslaPW3Only res)
              (BatterySpec.maxLeaders (BatterySpecs.teslaPW3 specs)) "PW3".
Proof.
  unfold calculateBatterySizing, checkFeasibility. cbn zeta.
  cbn [Results.enphase5P Results.enphase10C Results.teslaPW3Only Single.reason
       Single.notFeasible].
  repeat split;
    match goal with
    | |- context [?a <? ?b] => destruct (a <? b); reflexivity
    end.
Qed.

(** C4 (fails on the code).  The claim is that a configuration is flagged
    [notFeasible], with a reason and the unclamped count, exactly when its
    required unit count exceeds the product maximum.  The Enphase entries
    behave so ([enphase5P_sizing], [enphase10C_sizing],
    [single_product_reason]).  The Powerwall 3 entry is flagged only when the
    energy count exceeds [maxLeaders]: on a load list whose running power
    needs [maxLeaders + 1] units it raises no flag, gives no reason, reports
    [maxLeaders] units, and delivers less power than the loads draw. *)
Theorem teslaPW3Only_not_flagged_on_power (specs : BatterySpecs.t) :
  positive_ratings specs ->
  let pw3 := BatterySpecs.teslaPW3 specs in
  let o := Sample.noOptions 0 in
  let loads := overPowerLoads specs in
  let r := Results.teslaPW3Only (calculateBatterySizing specs loads 1 o) in
  let required :=
    Z.max (Z.max (Z.max
      (JS.Math_ceil (totalEnergyNeededKWh loads 1 o / BatterySpec.usableKWh pw3))
      (JS.Math_ceil (peakPowerKW loads o / BatterySpec.continuousKW pw3)))
      (JS.Math_ceil (largestLRA loads o / BatterySpec.motorStartLRA pw3))) 1 in
  BatterySpec.maxLeaders pw3 < required
  /\ Single.notFeasible r = false
  /\ Single.reason r = None
  /\ Single.count r = BatterySpec.maxLeaders pw3
  /\ Single.count r < required
  /\ (Single.totalKW r < peakPowerKW loads o)%Q.
Proof.
  intros Hpos. cbv zeta.
  pose proof (teslaPW3Only_sizing specs (overPowerLoads specs) 1 (Sample.noOptions 0))
    as Hsz. cbv zeta in Hsz.
  pose proof (single_product_reason specs (overPowerLoads specs) 1 (Sample.noOptions 0))
    as Hrs. cbv zeta in Hrs. destruct Hrs as (_ & _ & Hreason).
  destruct (overPowerLoads_ceilings specs Hpos) as (HE & HP & HM).
  rewrite HE, HP, HM in *.
  destruct Hsz as (_ & _ & _ & H4 & _ & _ & _ & _ & _ & Hflag & _ & HkW).
  assert (Hmax : 0 <= BatterySpec.maxLeaders (BatterySpecs.teslaPW3 specs))
    by apply Hpos.
  assert (Hc : (0 < BatterySpec.continuousKW (BatterySpecs.teslaPW3 specs))%Q)
    by apply Hpos.
  assert (Hnf : Single.notFeasible
                  (Results.teslaPW3Only
                     (calculateBatterySizing specs (overPowerLoads specs) 1
                        (Sample.noOptions 0))) = false).
  { apply not_true_is_false. intros Hnf. apply Hflag in Hnf. lia. }
  rewrite Hnf in Hreason.
  repeat split; try assumption; try lia.
  rewrite HkW, H4.
  replace (Z.min _ _) with (BatterySpec.maxLeaders (BatterySpecs.teslaPW3 specs)) by lia.
  unfold peakPowerKW, overPowerLoads, calculatePracticalLoad, filteredLoads,
    sumAssumedWatts.
  cbn [Sample.noOptions includeLoadIds proposedEVLoads partialSelections
       filter Sample.mkLoad usage includeInBatteryCalc negb
       fold_left Practical.totalRunningKW assumedWatts].
  rewrite inject_Z_plus.
  set (c := BatterySpec.continuousKW _) in *.
  set (m := inject_Z (BatterySpec.maxLeaders _)).
  assert (Heq : ((0 + 1000 * c * (m + inject_Z 1)) / 1000 == m * c + c)%Q) by field.
  rewrite Heq. lra.
Qed.

Lemma teslaPW3Only_not_flagged_on_power_witness :
  positive_ratings Sample.specs
  /\ let r := Results.teslaPW3Only
                (calculateBatterySizing Sample.specs (overPowerLoads Sample.specs) 1
                                        (Sample.noOptions 0)) in
     Single.notFeasible r = false /\ Single.count r = 4.
Proof.
  split; [exact positive_ratings_sample |].
  pose proof (teslaPW3Only_not_flagged_on_power Sample.specs positive_ratings_sample)
    as H.
  cbv zeta in H. cbv zeta. tauto.
Defined.

(** ** Monotonicity of the demand estimate *)

(** C2 (fails on the code).  Raising the watts of one load can lower the
    total demand.  A single range raised from 12000 W to 12001 W leaves the
    flat 8000 VA band and is then counted at 65%, 7800.65 VA.  A lighting load
    raised from 0 W to 100 W, with no square footage, replaces the 4500 VA
    fallback by 100 VA. *)
Lemma nec_demand_not_monotone :
  (assumedWatts (usage (Sample.range 12000)) <= 12001)%Q
  /\ (NEC.totalDemandVA
        (calculateNECOptionalMethod [setWatts (Sample.range 12000) 12001]
                                    Sample.service_240_200 None)
      < NEC.totalDemandVA
          (calculateNECOptionalMethod [Sample.range 12000] Sample.service_240_200 None))%Q
  /\ (assumedWatts (usage (Sample.lighting 0)) <= 100)%Q
  /\ (NEC.totalDemandVA
        (calculateNECOptionalMethod [setWatts (Sample.lighting 0) 100]
                                    Sample.service_240_200 None)
      < NEC.totalDemandVA
          (calculateNECOptionalMethod [Sample.lighting 0] Sample.service_240_200 None))%Q.
Proof. repeat split; discriminate. Qed.

(** The two totals of the cooking counterexample. *)
Example nec_demand_range_values :
  (NEC.totalDemandVA
     (calculateNECOptionalMethod [Sample.range 12000] Sample.service_240_200 None)
   == 17000)%Q
  /\ (NEC.totalDemandVA
        (calculateNECOptionalMethod [Sample.range 12001] Sample.service_240_200 None)
      == 1680065 # 100)%Q.
Proof. split; reflexivity. Qed.

Lemma fold_sum_acc (ls : list Load) (acc : Q) :
  (fold_left (fun sum l => sum + assumedWatts (usage l)) ls acc
   == acc + sumAssumedWatts ls)%Q.
Proof.
  unfold sumAssumedWatts. revert acc.
  induction ls as [| a ls IH]; intros acc; cbn [fold_left].
  - ring.
  - rewrite IH, (IH (0 + _)%Q). ring.
Qed.

Lemma sumAssumedWatts_cons (l : Load) (ls : list Load) :
  (sumAssumedWatts (l :: ls) == assumedWatts (usage l) + sumAssumedWatts ls)%Q.
Proof.
  unfold sumAssumedWatts at 1. cbn [fold_left]. rewrite fold_sum_acc. ring.
Qed.

Lemma sumAssumedWatts_app (a b : list Load) :
  (sumAssumedWatts (a ++ b) == sumAssumedWatts a + sumAssumedWatts b)%Q.
Proof.
  induction a as [| x a IH]; cbn [app].
  - unfold sumAssumedWatts at 2. cbn [fold_left]. ring.
  - rewrite !sumAssumedWatts_cons, IH. ring.
Qed.

Section Raise.

Variables (pre post : list Load) (l : Load) (w' : Q).

(** A bucket test that does not look at the watts selects the same
    positions before and after the raise. *)
Lemma filter_raise_length (p : Load -> bool) :
  p (setWatts l w') = p l ->
  length (filter p (pre ++ setWatts l w' :: post))
  = length (filter p (pre ++ l :: post)).
Proof.
  intros Hp. rewrite !filter_app. cbn [filter].
  rewrite Hp. destruct (p l); rewrite !length_app; reflexivity.
Qed.

Lemma filter_raise_sum (p : Load -> bool) :
  p (setWatts l w') = p l ->
  (sumAssumedWatts (filter p (pre ++ setWatts l w' :: post))
   == sumAssumedWatts (filter p (pre ++ l :: post))
      + (if p l then w' - assumedWatts (usage l) else 0))%Q.
Proof.
  intros Hp. rewrite !filter_app. cbn [filter].
  rewrite Hp. destruct (p l).
  - rewrite !sumAssumedWatts_app, !sumAssumedWatts_cons.
    cbn [setWatts usage assumedWatts]. ring.
  - rewrite !sumAssumedWatts_app. ring.
Qed.

Lemma filter_raise_sum_le (p : Load -> bool) :
  p (setWatts l w') = p l ->
  (assumedWatts (usage l) <= w')%Q ->
  (sumAssumedWatts (filter p (pre ++ l :: post))
   <= sumAssumedWatts (filter p (pre ++ setWatts l w' :: post)))%Q.
Proof.
  intros Hp Hd. rewrite (filter_raise_sum p Hp). destruct (p l); lra.
Qed.

(** When [l] is the only load a test selects, the selected sum is the
    watts of [l]. *)
Lemma filter_single_sum (p : Load -> bool) :
  p l = true ->
  length (filter p (pre ++ l :: post)) = 1%nat ->
  (sumAssumedWatts (filter p (pre ++ l :: post)) == assumedWatts (usage l))%Q.
Proof.
  intros Hp Hlen. rewrite filter_app in *. cbn [filter] in *.
  rewrite Hp in *. rewrite length_app in Hlen. cbn [length] in Hlen.
  destruct (filter p pre) as [| x xs]; [| cbn [length] in Hlen; lia].
  destruct (filter p post) as [| y ys]; [| cbn [length] in Hlen; lia].
  unfold sumAssumedWatts. cbn [app fold_left]. ring.
Qed.

End Raise.

Lemma demandGeneral_mono (g1 g2 : Q) :
  (g1 <= g2)%Q -> (demandGeneral g1 <= demandGeneral g2)%Q.
Proof.
  intros Hle. unfold demandGeneral.
  destruct (JS.leb g1 10000) eqn:H1, (JS.leb g2 10000) eqn:H2;
    try apply leb_le in H1; try apply leb_le in H2;
    try apply leb_gt in H1; try apply leb_gt in H2; lra.
Qed.

Section RaiseBuckets.

Variables (pre post : list Load) (l : Load) (w' : Q).

Hypothesis raised : (assumedWatts (usage l) <= w')%Q.

Lemma generalLoadVA_raise (sqFt : option Q) :
  ~ leavesLightingFallback (pre ++ l :: post) sqFt l w' ->
  (generalLoadVA (pre ++ l :: post) sqFt
   <= generalLoadVA (pre ++ setWatts l w' :: post) sqFt)%Q.
Proof.
  intros Hno.
  assert (Hfallback :
            (match sqFt with Some a => JS.ltb 0 a = false | None => True end) ->
            ((let v := sumAssumedWatts (filter isLighting (pre ++ l :: post)) in
              if JS.eqb v 0 then 4500 else v)
             <= (let v := sumAssumedWatts
                            (filter isLighting (pre ++ setWatts l w' :: post)) in
                 if JS.eqb v 0 then 4500 else v))%Q).
  { intros Hsq. cbv zeta.
    pose proof (filter_raise_sum pre post l w' isLighting eq_refl) as Hsum.
    set (v := sumAssumedWatts (filter isLighting (pre ++ l :: post))) in *.
    set (v' := sumAssumedWatts (filter isLighting (pre ++ setWatts l w' :: post))) in *.
    unfold JS.eqb.
    destruct (Qeq_bool v 0) eqn:Hv, (Qeq_bool v' 0) eqn:Hv'.
    - lra.
    - apply Qeq_bool_iff in Hv. apply Qeq_bool_neq in Hv'.
      destruct (isLighting l) eqn:Hl.
      + destruct (Qlt_le_dec (w' - assumedWatts (usage l)) 4500) as [Hlt | Hge];
          [| lra].
        exfalso. apply Hno. unfold leavesLightingFallback.
        repeat split; try assumption.
        destruct (Qlt_le_dec (assumedWatts (usage l)) w') as [? | Hle];
          [assumption |].
        exfalso. apply Hv'. lra.
      + exfalso. apply Hv'. lra.
    - apply Qeq_bool_iff in Hv'. destruct (isLighting l); lra.
    - destruct (isLighting l); lra. }
  unfold generalLoadVA. destruct sqFt as [a |].
  - destruct (JS.ltb 0 a) eqn:Ha; [lra | now apply Hfallback].
  - now apply Hfallback.
Qed.

Lemma fixedLoadVA_raise :
  (fixedLoadVA (pre ++ l :: post) <= fixedLoadVA (pre ++ setWatts l w' :: post))%Q.
Proof.
  unfold fixedLoadVA. cbv zeta.
  pose proof (filter_raise_sum_le pre post l w' isFixed eq_refl raised) as Hsum.
  rewrite (filter_raise_length pre post l w' isFixed eq_refl).
  destruct (4 <=? _); lra.
Qed.

Lemma cookingDemand_raise :
  ~ crossesCookingCliff (pre ++ l :: post) l w' ->
  (cookingDemand (pre ++ l :: post) <= cookingDemand (pre ++ setWatts l w' :: post))%Q.
Proof.
  intros Hno. unfold cookingDemand in *. cbv zeta.
  pose proof (filter_raise_sum pre post l w' isCooking eq_refl) as Hsum.
  rewrite (filter_raise_length pre post l w' isCooking eq_refl).
  set (n := length (filter isCooking (pre ++ l :: post))) in *.
  set (s := sumAssumedWatts (filter isCooking (pre ++ l :: post))) in *.
  set (s' := sumAssumedWatts (filter isCooking (pre ++ setWatts l w' :: post))) in *.
  destruct (0 <? Z.of_nat n); [| lra].
  destruct (Z.eqb_spec (Z.of_nat n) 1) as [Hone | Hmany]; cbn [andb].
  - destruct (JS.leb s 12000) eqn:Hs, (JS.leb s' 12000) eqn:Hs';
      try apply leb_le in Hs; try apply leb_le in Hs';
      try apply leb_gt in Hs; try apply leb_gt in Hs'.
    + lra.
    + destruct (isCooking l) eqn:Hl; [| lra].
      assert (Hn : n = 1%nat) by lia.
      pose proof (filter_single_sum pre post l isCooking Hl Hn) as Hw.
      fold s in Hw.
      destruct (Qlt_le_dec (w' * (65 # 100)) 8000) as [Hlt | Hge]; [| lra].
      exfalso. apply Hno. unfold crossesCookingCliff.
      repeat split; try assumption; lra.
    + destruct (isCooking l); lra.
    + destruct (isCooking l); lra.
  - destruct (isCooking l); lra.
Qed.

Lemma dryerDemand_raise :
  (dryerDemand (pre ++ l :: post) <= dryerDemand (pre ++ setWatts l w' :: post))%Q.
Proof.
  unfold dryerDemand. cbv zeta.
  pose proof (filter_raise_sum_le pre post l w' isDryer eq_refl raised) as Hsum.
  rewrite (filter_raise_length pre post l w' isDryer eq_refl).
  destruct (0 <? _); [| lra].
  apply Q.max_le_compat_l. exact Hsum.
Qed.

Lemma hvacDemand_raise :
  (hvacDemand (pre ++ l :: post) <= hvacDemand (pre ++ setWatts l w' :: post))%Q.
Proof.
  unfold hvacDemand, coolingVA, heatingVA.
  apply Q.max_le_compat.
  - exact (filter_raise_sum_le pre post l w' isCooling eq_refl raised).
  - exact (filter_raise_sum_le pre post l w' isHeating eq_refl raised).
Qed.

Lemma otherLargeVA_raise :
  (otherLargeVA (pre ++ l :: post)
   <= otherLargeVA (pre ++ setWatts l w' :: post))%Q.
Proof. exact (filter_raise_sum_le pre post l w' isOtherLarge eq_refl raised). Qed.

Lemma evVA_raise :
  (evVA (pre ++ l :: post) <= evVA (pre ++ setWatts l w' :: post))%Q.
Proof. exact (filter_raise_sum_le pre post l w' isEV eq_refl raised). Qed.

End RaiseBuckets.

(** C2, amended.  Raising the assumed watts of one load, everything else
    fixed, does not lower the total demand, unless the raise crosses the
    cooking cliff or leaves the lighting fallback. *)
Theorem nec_demand_monotone_outside_cliffs
    (pre post : list Load) (l : Load) (w' : Q) (service : Service) (sqFt : option Q) :
  (assumedWatts (usage l) <= w')%Q ->
  ~ crossesCookingCliff (pre ++ l :: post) l w' ->
  ~ leavesLightingFallback (pre ++ l :: post) sqFt l w' ->
  (NEC.totalDemandVA (calculateNECOptionalMethod (pre ++ l :: post) service sqFt)
   <= NEC.totalDemandVA
        (calculateNECOptionalMethod (pre ++ setWatts l w' :: post) service sqFt))%Q.
Proof.
  intros Hraise Hcook Hlight. rewrite !totalDemandVA_unfold.
  pose proof (generalLoadVA_raise pre post l w' Hraise sqFt Hlight) as Hgen.
  assert (Hdg : (demandGeneral (generalTotal (pre ++ l :: post) sqFt)
                 <= demandGeneral (generalTotal (pre ++ setWatts l w' :: post) sqFt))%Q).
  { apply demandGeneral_mono. unfold generalTotal. lra. }
  pose proof (fixedLoadVA_raise pre post l w' Hraise).
  pose proof (cookingDemand_raise pre post l w' Hraise Hcook).
  pose proof (dryerDemand_raise pre post l w' Hraise).
  pose proof (hvacDemand_raise pre post l w' Hraise).
  pose proof (otherLargeVA_raise pre post l w' Hraise).
  pose proof (evVA_raise pre post l w' Hraise).
  lra.
Qed.

Lemma nec_demand_monotone_outside_cliffs_witness :
  (NEC.totalDemandVA
     (calculateNECOptionalMethod [Sample.range 12000] Sample.service_240_200 None)
   <= NEC.totalDemandVA
        (calculateNECOptionalMethod [setWatts (Sample.range 12000) 13000]
                                    Sample.service_240_200 None))%Q.
Proof.
  apply (nec_demand_monotone_outside_cliffs [] [] (Sample.range 12000) 13000
           Sample.service_240_200 None).
  - discriminate.
  - intros (_ & _ & _ & _ & Hlow). vm_compute in Hlow. discriminate Hlow.
  - intros (_ & Hlighting & _). vm_compute in Hlighting. discriminate Hlighting.
Defined.

(** The two exceptions are exactly the raises that lower the demand. *)

Lemma filter_raise_unselected
    (pre post : list Load) (l : Load) (w' : Q) (p : Load -> bool) :
  p (setWatts l w') = p l ->
  p l = false ->
  filter p (pre ++ setWatts l w' :: post) = filter p (pre ++ l :: post).
Proof.
  intros Hp Hl. rewrite !filter_app. cbn [filter]. rewrite Hp, Hl. reflexivity.
Qed.

Lemma cooking_only_bucket (l : Load) :
  isCooking l = true ->
  isLighting l = false /\ isFixed l = false /\ isDryer l = false
  /\ isCooling l = false /\ isHeating l = false /\ isOtherLarge l = false
  /\ isEV l = false.
Proof.
  unfold isCooking. rewrite orb_true_iff, !String.eqb_eq. intros Hcat.
  unfold isOtherLarge, isLighting, isFixed, isDryer, isCooling, isHeating, isCooking,
    isEV.
  destruct Hcat as [Hcat | Hcat]; rewrite Hcat; repeat split; reflexivity.
Qed.

Lemma lighting_only_bucket (l : Load) :
  isLighting l = true ->
  isCooking l = false /\ isFixed l = false /\ isDryer l = false
  /\ isCooling l = false /\ isHeating l = false /\ isOtherLarge l = false
  /\ isEV l = false.
Proof.
  unfold isLighting. rewrite String.eqb_eq. intros Hcat.
  unfold isOtherLarge, isCooking, isFixed, isDryer, isCooling, isHeating, isLighting,
    isEV.
  rewrite Hcat; repeat split; reflexivity.
Qed.

Lemma cooking_cliff_lowers_demand
    (pre post : list Load) (l : Load) (w' : Q) (service : Service) (sqFt : option Q) :
  crossesCookingCliff (pre ++ l :: post) l w' ->
  (NEC.totalDemandVA
     (calculateNECOptionalMethod (pre ++ setWatts l w' :: post) service sqFt)
   < NEC.totalDemandVA (calculateNECOptionalMethod (pre ++ l :: post) service sqFt))%Q.
Proof.
  intros (Hl & Hlen & Hold & Hnew & Hlow).
  destruct (cooking_only_bucket l Hl) as (H1 & H2 & H3 & H4 & H5 & H6 & H7).
  rewrite !totalDemandVA_unfold.
  unfold generalTotal, generalLoadVA, fixedLoadVA, dryerDemand, hvacDemand, coolingVA,
    heatingVA, otherLargeVA, evVA.
  rewrite (filter_raise_unselected pre post l w' isLighting eq_refl H1),
    (filter_raise_unselected pre post l w' isFixed eq_refl H2),
    (filter_raise_unselected pre post l w' isDryer eq_refl H3),
    (filter_raise_unselected pre post l w' isCooling eq_refl H4),
    (filter_raise_unselected pre post l w' isHeating eq_refl H5),
    (filter_raise_unselected pre post l w' isOtherLarge eq_refl H6),
    (filter_raise_unselected pre post l w' isEV eq_refl H7).
  assert (Hcook : (cookingDemand (pre ++ setWatts l w' :: post)
                   < cookingDemand (pre ++ l :: post))%Q).
  { unfold cookingDemand. cbv zeta.
    pose proof (filter_raise_sum pre post l w' isCooking eq_refl) as Hsum.
    rewrite Hl in Hsum.
    pose proof (filter_single_sum pre post l isCooking Hl Hlen) as Hw.
    rewrite (filter_raise_length pre post l w' isCooking eq_refl), Hlen.
    change (0 <? Z.of_nat 1) with true. change (Z.of_nat 1 =? 1) with true.
    cbn [andb].
    set (s := sumAssumedWatts (filter isCooking (pre ++ l :: post))) in *.
    set (s' := sumAssumedWatts (filter isCooking (pre ++ setWatts l w' :: post))) in *.
    destruct (JS.leb s' 12000) eqn:Hs'; [apply leb_le in Hs'; lra |].
    destruct (JS.leb s 12000) eqn:Hs; [| apply leb_gt in Hs; lra].
    lra. }
  lra.
Qed.

Lemma lighting_fallback_lowers_demand
    (pre post : list Load) (l : Load) (w' : Q) (service : Service) (sqFt : option Q) :
  leavesLightingFallback (pre ++ l :: post) sqFt l w' ->
  (NEC.totalDemandVA
     (calculateNECOptionalMethod (pre ++ setWatts l w' :: post) service sqFt)
   < NEC.totalDemandVA (calculateNECOptionalMethod (pre ++ l :: post) service sqFt))%Q.
Proof.
  intros (Hsq & Hl & Hzero & Hup & Hsmall).
  destruct (lighting_only_bucket l Hl) as (H1 & H2 & H3 & H4 & H5 & H6 & H7).
  rewrite !totalDemandVA_unfold.
  unfold cookingDemand, fixedLoadVA, dryerDemand, hvacDemand, coolingVA,
    heatingVA, otherLargeVA, evVA.
  rewrite (filter_raise_unselected pre post l w' isCooking eq_refl H1),
    (filter_raise_unselected pre post l w' isFixed eq_refl H2),
    (filter_raise_unselected pre post l w' isDryer eq_refl H3),
    (filter_raise_unselected pre post l w' isCooling eq_refl H4),
    (filter_raise_unselected pre post l w' isHeating eq_refl H5),
    (filter_raise_unselected pre post l w' isOtherLarge eq_refl H6),
    (filter_raise_unselected pre post l w' isEV eq_refl H7).
  pose proof (filter_raise_sum pre post l w' isLighting eq_refl) as Hsum.
  rewrite Hl in Hsum.
  assert (Hold : (generalLoadVA (pre ++ l :: post) sqFt == 4500)%Q).
  { unfold generalLoadVA. cbv zeta. apply Qeq_bool_iff in Hzero. unfold JS.eqb.
    destruct sqFt as [a |]; [rewrite Hsq |]; rewrite Hzero; reflexivity. }
  assert (Hnew : (generalLoadVA (pre ++ setWatts l w' :: post) sqFt
                  == w' - assumedWatts (usage l))%Q).
  { unfold generalLoadVA. cbv zeta. unfold JS.eqb.
    destruct (Qeq_bool (sumAssumedWatts
                          (filter isLighting (pre ++ setWatts l w' :: post))) 0) eqn:Hv.
    - apply Qeq_bool_iff in Hv. lra.
    - destruct sqFt as [a |]; [rewrite Hsq |]; lra. }
  assert (Hdg : (demandGeneral (generalTotal (pre ++ setWatts l w' :: post) sqFt)
                 < demandGeneral (generalTotal (pre ++ l :: post) sqFt))%Q).
  { unfold demandGeneral, generalTotal, smallApplianceVA, laundryVA.
    set (g := generalLoadVA (pre ++ l :: post) sqFt) in *.
    set (g' := generalLoadVA (pre ++ setWatts l w' :: post) sqFt) in *.
    destruct (JS.leb (g' + 3000 + 1500) 10000) eqn:Ha; [| apply leb_gt in Ha; lra].
    destruct (JS.leb (g + 3000 + 1500) 10000) eqn:Hb; [| apply leb_gt in Hb; lra].
    lra. }
  lra.
Qed.

(** * Further properties of the engine *)

(** ** What a battery configuration delivers *)

Lemma ceil_covers (x d : Q) (n : Z) :
  (0 < d)%Q -> JS.Math_ceil (x / d) <= n -> (x <= inject_Z n * d)%Q.
Proof.
  intros Hd Hn. unfold JS.Math_ceil in Hn.
  assert (Hx : (x / d <= inject_Z n)%Q).
  { eapply Qle_trans; [apply Qle_ceiling |]. rewrite <- Zle_Qle. exact Hn. }
  assert (Hxd : (x == x / d * d)%Q) by (field; lra).
  rewrite Hxd. apply Qmult_le_compat_r; lra.
Qed.

Lemma ceil_nonneg (x d : Q) : (0 <= x)%Q -> (0 < d)%Q -> 0 <= JS.Math_ceil (x / d).
Proof.
  intros Hx Hd. unfold JS.Math_ceil.
  assert (Hq : (0 <= x / d)%Q).
  { unfold Qdiv. apply Qmult_le_0_compat; [exact Hx |].
    apply Qlt_le_weak, Qinv_lt_0_compat, Hd. }
  rewrite Zle_Qle. eapply Qle_trans; [exact Hq | apply Qle_ceiling].
Qed.

Lemma inject_Z_mult_le (a b : Z) (d : Q) :
  (0 <= d)%Q -> a <= b -> (inject_Z a * d <= inject_Z b * d)%Q.
Proof.
  intros Hd Hab. apply Qmult_le_compat_r; [| exact Hd]. now rewrite <- Zle_Qle.
Qed.

(** An Enphase 5P entry that is not flagged delivers the energy that is
    needed and the peak power of the selected loads. *)
Theorem enphase5P_feasible_covers
    (specs : BatterySpecs.t) (loads : list Load) (backupDays : Q) (options : Options) :
  let e5p := BatterySpecs.enphase5P specs in
  let r := Results.enphase5P (calculateBatterySizing specs loads backupDays options) in
  (0 < BatterySpec.usableKWh e5p)%Q ->
  (0 < BatterySpec.continuousKW e5p)%Q ->
  Single.notFeasible r = false ->
  (totalEnergyNeededKWh loads backupDays options <= Single.totalKWh r)%Q
  /\ (peakPowerKW loads options <= Single.totalKW r)%Q.
Proof.
  cbv zeta. intros Hu Hc Hnf.
  pose proof (enphase5P_sizing specs loads backupDays options) as Hsz.
  cbv zeta in Hsz.
  destruct Hsz as (_ & _ & _ & Hcount & _ & _ & _ & Hflag & HkWh & HkW).
  set (r := Results.enphase5P _) in *.
  assert (Hcap : Single.count r <= BatterySpec.maxUnits (BatterySpecs.enphase5P specs)).
  { destruct (Z.le_gt_cases (Single.count r)
                (BatterySpec.maxUnits (BatterySpecs.enphase5P specs))) as [? | Hgt];
      [assumption |].
    apply Hflag in Hgt. congruence. }
  rewrite HkWh, HkW, Z.min_l by exact Hcap.
  split; apply ceil_covers; try assumption; rewrite Hcount; lia.
Qed.

Lemma enphase5P_feasible_covers_witness :
  let r := Results.enphase5P
             (calculateBatterySizing Sample.specs [Sample.pool] 1 (Sample.noOptions 0)) in
  (totalEnergyNeededKWh [Sample.pool] 1 (Sample.noOptions 0) <= Single.totalKWh r)%Q
  /\ (peakPowerKW [Sample.pool] (Sample.noOptions 0) <= Single.totalKW r)%Q.
Proof.
  apply (enphase5P_feasible_covers Sample.specs [Sample.pool] 1 (Sample.noOptions 0));
    reflexivity.
Defined.

(** An Enphase 10C entry that is not flagged delivers the energy, the peak
    power and the motor-start current that are needed. *)
Theorem enphase10C_feasible_covers
    (specs : BatterySpecs.t) (loads : list Load) (backupDays : Q) (options : Options) :
  let e10c := BatterySpecs.enphase10C specs in
  let r := Results.enphase10C (calculateBatterySizing specs loads backupDays options) in
  (0 < BatterySpec.usableKWh e10c)%Q ->
  (0 < BatterySpec.continuousKW e10c)%Q ->
  (0 < BatterySpec.motorStartLRA e10c)%Q ->
  Single.notFeasible r = false ->
  (totalEnergyNeededKWh loads backupDays options <= Single.totalKWh r)%Q
  /\ (peakPowerKW loads options <= Single.totalKW r)%Q
  /\ (largestLRA loads options
      <= inject_Z (Single.count r) * BatterySpec.motorStartLRA e10c)%Q.
Proof.
  cbv zeta. intros Hu Hc Hm Hnf.
  pose proof (enphase10C_sizing specs loads backupDays options) as Hsz.
  cbv zeta in Hsz.
  destruct Hsz as (_ & _ & _ & Hcount & _ & _ & _ & _ & Hflag & HkWh & HkW).
  set (r := Results.enphase10C _) in *.
  assert (Hcap : Single.count r <= BatterySpec.maxUnits (BatterySpecs.enphase10C specs)).
  { destruct (Z.le_gt_cases (Single.count r)
                (BatterySpec.maxUnits (BatterySpecs.enphase10C specs))) as [? | Hgt];
      [assumption |].
    apply Hflag in Hgt. congruence. }
  rewrite HkWh, HkW, Z.min_l by exact Hcap.
  repeat split; apply ceil_covers; try assumption; rewrite Hcount; lia.
Qed.

Lemma enphase10C_feasible_covers_witness :
  let r := Results.enphase10C
             (calculateBatterySizing Sample.specs [Sample.pool] 1 (Sample.noOptions 0)) in
  (totalEnergyNeededKWh [Sample.pool] 1 (Sample.noOptions 0) <= Single.totalKWh r)%Q
  /\ (peakPowerKW [Sample.pool] (Sample.noOptions 0) <= Single.totalKW r)%Q.
Proof.
  pose proof (enphase10C_feasible_covers Sample.specs [Sample.pool] 1 (Sample.noOptions 0)
                eq_refl eq_refl eq_refl eq_refl) as H.
  cbv zeta in H. cbv zeta. tauto.
Defined.

(** The mixed Enphase configuration always delivers the energy, the peak
    power and the motor-start current that are needed, flagged or not: its
    totals are computed from the uncapped unit counts. *)
Theorem enphase_mixed_covers
    (specs : BatterySpecs.t) (loads : list Load) (backupDays : Q) (options : Options) :
  let e5p := BatterySpecs.enphase5P specs in
  let e10c := BatterySpecs.enphase10C specs in
  let mixed := Results.enphase_mixed (calculateBatterySizing specs loads backupDays options) in
  (0 < BatterySpec.usableKWh e5p)%Q ->
  (0 <= BatterySpec.continuousKW e5p)%Q ->
  (0 < BatterySpec.continuousKW e10c)%Q ->
  (0 < BatterySpec.motorStartLRA e10c)%Q ->
  0 <= Mixed.count5P mixed
  /\ (totalEnergyNeededKWh loads backupDays options <= Mixed.totalKWh mixed)%Q
  /\ (peakPowerKW loads options <= Mixed.totalKW mixed)%Q
  /\ (largestLRA loads options
      <= inject_Z (Mixed.count10C mixed) * BatterySpec.motorStartLRA e10c)%Q.
Proof.
  cbv zeta. intros Hu5 Hc5 Hc10 Hm10.
  unfold calculateBatterySizing. cbn zeta.
  cbn [Results.enphase_mixed Mixed.count10C Mixed.count5P Mixed.totalKWh Mixed.totalKW].
  rewrite (guarded_ceil (largestLRA loads options)) by apply largestLRA_nonneg.
  set (E := totalEnergyNeededKWh loads backupDays options).
  set (forPower := JS.Math_ceil (peakPowerKW loads options / _)).
  set (forMotor := JS.Math_ceil (largestLRA loads options / _)).
  set (n10 := Z.max (Z.max forPower forMotor) 1).
  set (remaining := Qmax 0 _).
  assert (Hrem : (0 <= remaining)%Q) by apply Q.le_max_l.
  rewrite (guarded_ceil remaining) by exact Hrem.
  set (n5 := JS.Math_ceil (remaining / _)).
  assert (Hn5 : 0 <= n5) by (apply ceil_nonneg; assumption).
  assert (Hn5q : (0 <= inject_Z n5)%Q) by (now rewrite <- (Zle_Qle 0)).
  assert (Hcover5 : (remaining <= inject_Z n5 * BatterySpec.usableKWh
                                               (BatterySpecs.enphase5P specs))%Q)
    by (apply ceil_covers; [assumption | subst n5; lia]).
  assert (Hrem' : (E - inject_Z n10 * BatterySpec.usableKWh
                                        (BatterySpecs.enphase10C specs) <= remaining)%Q)
    by apply Q.le_max_r.
  assert (HP : (peakPowerKW loads options
                <= inject_Z n10 * BatterySpec.continuousKW
                                    (BatterySpecs.enphase10C specs))%Q)
    by (apply ceil_covers; [assumption | fold forPower; lia]).
  assert (Hextra : (0 <= inject_Z n5 * BatterySpec.continuousKW
                                         (BatterySpecs.enphase5P specs))%Q)
    by (apply Qmult_le_0_compat; assumption).
  repeat split; try lra; try assumption.
  apply ceil_covers; [assumption | fold forMotor; lia].
Qed.

Lemma enphase_mixed_covers_witness :
  let o := Sample.noOptions 0 in
  let day := [Sample.mkLoad "load_4" "Other" 1000 24] in
  let mixed := Results.enphase_mixed (calculateBatterySizing Sample.specs day 3 o) in
  Mixed.notFeasible mixed = true
  /\ (totalEnergyNeededKWh day 3 o <= Mixed.totalKWh mixed)%Q
  /\ (peakPowerKW day o <= Mixed.totalKW mixed)%Q.
Proof.
  cbv zeta. split; [reflexivity |].
  assert (H5 : (0 <= BatterySpec.continuousKW (BatterySpecs.enphase5P Sample.specs))%Q)
    by discriminate.
  pose proof (enphase_mixed_covers Sample.specs [Sample.mkLoad "load_4" "Other" 1000 24]
                3 (Sample.noOptions 0) eq_refl H5 eq_refl eq_refl) as H.
  cbv zeta in H. tauto.
Defined.

(** A Powerwall-only entry that is not flagged stays within the leader
    cap and delivers the energy that is needed; it delivers the peak power
    and motor-start current as well when their own counts fit the cap. *)
Theorem teslaPW3Only_feasible_covers
    (specs : BatterySpecs.t) (loads : list Load) (backupDays : Q) (options : Options) :
  let pw3 := BatterySpecs.teslaPW3 specs in
  let r := Results.teslaPW3Only (calculateBatterySizing specs loads backupDays options) in
  (0 < BatterySpec.usableKWh pw3)%Q ->
  (0 < BatterySpec.continuousKW pw3)%Q ->
  (0 < BatterySpec.motorStartLRA pw3)%Q ->
  Single.notFeasible r = false ->
  Single.count r <= BatterySpec.maxLeaders pw3
  /\ (totalEnergyNeededKWh loads backupDays options <= Single.totalKWh r)%Q
  /\ (Z.max (Single.forPower r)
            (JS.Math_ceil (largestLRA loads options / BatterySpec.motorStartLRA pw3))
      <= BatterySpec.maxLeaders pw3 ->
      (peakPowerKW loads options <= Single.totalKW r)%Q
      /\ (largestLRA loads options
          <= inject_Z (Single.count r) * BatterySpec.motorStartLRA pw3)%Q).
Proof.
  cbv zeta. intros Hu Hc Hm Hnf.
  pose proof (teslaPW3Only_sizing specs loads backupDays options) as Hsz.
  cbv zeta in Hsz.
  destruct Hsz as (_ & HfP & _ & Hcount & _ & _ & _ & _ & Hflag & _ & HkWh & HkW).
  set (r := Results.teslaPW3Only _) in *.
  assert (Hcap : Single.count r <= BatterySpec.maxLeaders (BatterySpecs.teslaPW3 specs)).
  { destruct (Z.le_gt_cases (Single.count r)
                (BatterySpec.maxLeaders (BatterySpecs.teslaPW3 specs))) as [? | Hgt];
      [assumption |].
    apply Hflag in Hgt. congruence. }
  rewrite HkWh, HkW, Z.min_l by exact Hcap.
  split; [exact Hcap |]. split.
  - apply ceil_covers; [assumption | rewrite Hcount; lia].
  - rewrite HfP. intros Hfit.
    split; apply ceil_covers; try assumption; rewrite Hcount; lia.
Qed.

Lemma teslaPW3Only_feasible_covers_witness :
  let o := Sample.noOptions 0 in
  let r := Results.teslaPW3Only (calculateBatterySizing Sample.specs [Sample.pool] 1 o) in
  Single.count r <= 4
  /\ (totalEnergyNeededKWh [Sample.pool] 1 o <= Single.totalKWh r)%Q.
Proof.
  pose proof (teslaPW3Only_feasible_covers Sample.specs [Sample.pool] 1 (Sample.noOptions 0)
                eq_refl eq_refl eq_refl eq_refl) as H.
  cbv zeta in H. cbv zeta. tauto.
Defined.

Lemma lt_ceil (x : Q) (n : Z) : n < Qceiling x -> (inject_Z n < x)%Q.
Proof.
  intros Hn. eapply Qle_lt_trans; [| apply Qceiling_lt].
  rewrite <- Zle_Qle. lia.
Qed.

Lemma lt_div_mult (a b c : Q) : (0 < c)%Q -> (a < b / c)%Q -> (a * c < b)%Q.
Proof.
  intros Hc Hlt.
  assert (Hb : (b == b / c * c)%Q) by (field; lra).
  rewrite Hb. apply Qmult_lt_compat_r; assumption.
Qed.

(** Powerwall 3 with expansions: the leader and expansion counts always
    respect their caps, and the entry is flagged exactly when the capped
    system holds less energy than is needed. *)
Theorem teslaPW3WithExpansions_caps
    (specs : BatterySpecs.t) (loads : list Load) (backupDays : Q) (options : Options) :
  let pw3 := BatterySpecs.teslaPW3 specs in
  let pw3exp := BatterySpecs.teslaPW3Expansion specs in
  let r := Results.teslaPW3WithExpansions
             (calculateBatterySizing specs loads backupDays options) in
  (0 < BatterySpec.usableKWh pw3exp)%Q ->
  1 <= BatterySpec.maxLeaders pw3 ->
  0 <= BatterySpec.maxPerLeader pw3exp ->
  1 <= WithExpansions.leaders r <= BatterySpec.maxLeaders pw3
  /\ 0 <= WithExpansions.expansions r
        <= WithExpansions.leaders r * BatterySpec.maxPerLeader pw3exp
  /\ WithExpansions.totalUnits r = WithExpansions.leaders r + WithExpansions.expansions r
  /\ WithExpansions.exceedsMax r = WithExpansions.notFeasible r
  /\ (WithExpansions.notFeasible r = true
      <-> (WithExpansions.totalKWh r < totalEnergyNeededKWh loads backupDays options)%Q)
  /\ (WithExpansions.notFeasible r = true <-> WithExpansions.reason r <> None).
Proof.
  cbv zeta. intros Hu Hcap Hmpl.
  unfold calculateBatterySizing. cbn zeta.
  cbn [Results.teslaPW3WithExpansions WithExpansions.leaders WithExpansions.expansions
       WithExpansions.totalUnits WithExpansions.exceedsMax WithExpansions.notFeasible
       WithExpansions.totalKWh WithExpansions.reason].
  set (E := totalEnergyNeededKWh loads backupDays options).
  set (leaders := Z.min _ (BatterySpec.maxLeaders _)).
  assert (Hleaders : 1 <= leaders <= BatterySpec.maxLeaders (BatterySpecs.teslaPW3 specs))
    by (subst leaders; lia).
  set (remaining := Qmax 0 _).
  assert (Hrem : (0 <= remaining)%Q) by apply Q.le_max_l.
  rewrite (guarded_ceil remaining) by exact Hrem.
  set (need := JS.Math_ceil (remaining / _)).
  assert (Hneed : 0 <= need) by (apply ceil_nonneg; assumption).
  set (cap := leaders * BatterySpec.maxPerLeader _).
  assert (Hcap0 : 0 <= cap) by (subst cap; nia).
  split; [exact Hleaders |]. split; [lia |]. split; [reflexivity |].
  split; [reflexivity |].
  assert (Hrem' : (E - inject_Z leaders * BatterySpec.usableKWh
                                            (BatterySpecs.teslaPW3 specs) <= remaining)%Q)
    by apply Q.le_max_r.
  destruct (Z.ltb_spec cap need) as [Hlt | Hge].
  - rewrite Z.min_r by lia. split; split; try discriminate; try reflexivity.
    intros _.
    assert (Hshort : (inject_Z cap < remaining / BatterySpec.usableKWh
                                         (BatterySpecs.teslaPW3Expansion specs))%Q)
      by (apply lt_ceil; exact Hlt).
    assert (Hpos : (0 < remaining)%Q).
    { apply Qnot_le_lt. intros Hle.
      assert (H0 : (remaining == 0)%Q) by lra.
      unfold need, JS.Math_ceil in Hlt. rewrite (Qceiling_div_eq0 _ _ H0) in Hlt. lia. }
    assert (Hexact : (remaining == E - inject_Z leaders * BatterySpec.usableKWh
                                         (BatterySpecs.teslaPW3 specs))%Q).
    { unfold remaining in *. destruct (Q.max_spec 0 (E - inject_Z leaders
                * BatterySpec.usableKWh (BatterySpecs.teslaPW3 specs))) as [[_ Hm] | [_ Hm]];
        [exact Hm | rewrite Hm in Hpos; lra]. }
    apply lt_div_mult in Hshort; [| exact Hu]. lra.
  - rewrite Z.min_l by lia. split; split; try discriminate; try congruence.
    intros Hshort. exfalso.
    assert (Hcover : (remaining <= inject_Z need * BatterySpec.usableKWh
                                     (BatterySpecs.teslaPW3Expansion specs))%Q)
      by (apply ceil_covers; [assumption | subst need; lia]).
    lra.
Qed.

Lemma teslaPW3WithExpansions_caps_witness :
  let o := Sample.noOptions 0 in
  let day := [Sample.mkLoad "load_4" "Other" 1000 24] in
  let r := Results.teslaPW3WithExpansions (calculateBatterySizing Sample.specs day 3 o) in
  WithExpansions.leaders r = 1 /\ WithExpansions.expansions r = 3
  /\ WithExpansions.notFeasible r = true
  /\ (WithExpansions.totalKWh r < totalEnergyNeededKWh day 3 o)%Q.
Proof.
  cbv zeta. do 3 (split; [reflexivity |]).
  apply (teslaPW3WithExpansions_caps Sample.specs [Sample.mkLoad "load_4" "Other" 1000 24]
           3 (Sample.noOptions 0)); try reflexivity; discriminate.
Defined.

(** ** What the power-bound sizing depends on *)

Lemma fold_left_map_ext {A B : Type} (f g : B -> A -> B) (h : A -> A) (ls : list A) :
  (forall acc a, f acc (h a) = g acc a) ->
  forall acc, fold_left f (map h ls) acc = fold_left g ls acc.
Proof.
  intros Hfg. induction ls as [| a ls IH]; intros acc; cbn [map fold_left].
  - reflexivity.
  - rewrite Hfg. apply IH.
Qed.

Lemma filter_map_ext {A : Type} (p : A -> bool) (h : A -> A) (ls : list A) :
  (forall a, p (h a) = p a) ->
  filter p (map h ls) = map h (filter p ls).
Proof.
  intros Hp. induction ls as [| a ls IH]; cbn [map filter]; [reflexivity |].
  rewrite Hp. destruct (p a); cbn [map]; now rewrite IH.
Qed.

Lemma existsb_map_ext {A : Type} (p q : A -> bool) (h : A -> A) (ls : list A) :
  (forall a, p (h a) = q a) ->
  existsb p (map h ls) = existsb q ls.
Proof.
  intros Hpq. induction ls as [| a ls IH]; cbn [map existsb]; [reflexivity |].
  now rewrite Hpq, IH.
Qed.

(** The hour override of a selection, as applied by the load selection. *)
Lemma filteredLoads_selections (loads : list Load) (o : Options) :
  exists h : Load -> Load,
    (forall l, assumedWatts (usage (h l)) = assumedWatts (usage l)
               /\ motor (h l) = motor l /\ id (h l) = id l
               /\ category (h l) = category l)
    /\ filteredLoads loads o = map h (filteredLoads loads (withoutSelections o)).
Proof.
  unfold filteredLoads, withoutSelections.
  cbn [includeLoadIds proposedEVLoads partialSelections].
  destruct (partialSelections o) as [selections |].
  - eexists. split; [| reflexivity].
    intros l. cbv beta. destruct (selections !! id l); repeat split.
  - exists (fun l => l). split; [repeat split |]. now rewrite map_id.
Qed.

(** Peak power, the largest locked-rotor current, the missing-rating flag
    and the number of selected loads do not depend on the hour overrides. *)
Lemma power_inputs_selections (loads : list Load) (o : Options) :
  peakPowerKW loads o = peakPowerKW loads (withoutSelections o)
  /\ largestLRA loads o = largestLRA loads (withoutSelections o)
  /\ hasUnknownMotorLRA loads o = hasUnknownMotorLRA loads (withoutSelections o)
  /\ length (filteredLoads loads o)
     = length (filteredLoads loads (withoutSelections o)).
Proof.
  destruct (filteredLoads_selections loads o) as (h & Hh & Hfl).
  unfold peakPowerKW, largestLRA, hasUnknownMotorLRA, motorLoads, calculatePracticalLoad.
  cbn [Practical.totalRunningKW]. rewrite Hfl.
  assert (Hmotor : forall a, isMotor (motor (h a)) = isMotor (motor a))
    by (intros a; now destruct (Hh a) as (_ & -> & _)).
  rewrite (filter_map_ext (fun l => isMotor (motor l)) h _ Hmotor).
  repeat split.
  - unfold sumAssumedWatts. f_equal. apply fold_left_map_ext.
    intros acc a. now destruct (Hh a) as (-> & _).
  - apply fold_left_map_ext. intros acc a. now destruct (Hh a) as (_ & -> & _).
  - apply existsb_map_ext. intros a. unfold noLRA.
    now destruct (Hh a) as (_ & -> & _).
  - now rewrite length_map.
Qed.

(** The power-bound and motor-start-bound unit counts of every
    configuration depend only on which loads are selected: two runs with the
    same load list, the same include list and the same proposed chargers agree
    on them whatever the backup duration, the solar offset and the per-load
    hour overrides are. *)
Theorem power_counts_depend_on_selection_only
    (specs : BatterySpecs.t) (loads : list Load) (days1 days2 : Q) (o1 o2 : Options) :
  includeLoadIds o1 = includeLoadIds o2 ->
  proposedEVLoads o1 = proposedEVLoads o2 ->
  let r1 := calculateBatterySizing specs loads days1 o1 in
  let r2 := calculateBatterySizing specs loads days2 o2 in
  Single.forPower (Results.enphase5P r1) = Single.forPower (Results.enphase5P r2)
  /\ Single.forPower (Results.enphase10C r1) = Single.forPower (Results.enphase10C r2)
  /\ Single.forMotorStart (Results.enphase10C r1)
     = Single.forMotorStart (Results.enphase10C r2)
  /\ Single.forPower (Results.teslaPW3Only r1) = Single.forPower (Results.teslaPW3Only r2)
  /\ Single.forMotorStart (Results.teslaPW3Only r1)
     = Single.forMotorStart (Results.teslaPW3Only r2)
  /\ Mixed.count10C (Results.enphase_mixed r1) = Mixed.count10C (Results.enphase_mixed r2)
  /\ WithExpansions.leaders (Results.teslaPW3WithExpansions r1)
     = WithExpansions.leaders (Results.teslaPW3WithExpansions r2)
  /\ WithExpansions.totalKW (Results.teslaPW3WithExpansions r1)
     = WithExpansions.totalKW (Results.teslaPW3WithExpansions r2)
  /\ Summary.loadCount (Results.summary r1) = Summary.loadCount (Results.summary r2)
  /\ Summary.hasUnknownMotorLRA (Results.summary r1)
     = Summary.hasUnknownMotorLRA (Results.summary r2).
Proof.
  intros Hids Hev.
  assert (Hfl : filteredLoads loads (withoutSelections o1)
                = filteredLoads loads (withoutSelections o2))
    by (apply filteredLoads_ext; [exact Hids | exact Hev | reflexivity]).
  destruct (power_inputs_selections loads o1) as (Hp1 & Hl1 & Hu1 & Hn1).
  destruct (power_inputs_selections loads o2) as (Hp2 & Hl2 & Hu2 & Hn2).
  assert (Hpeak : peakPowerKW loads o1 = peakPowerKW loads o2)
    by (rewrite Hp1, Hp2; unfold peakPowerKW; now rewrite Hfl).
  assert (Hlra : largestLRA loads o1 = largestLRA loads o2)
    by (rewrite Hl1, Hl2; unfold largestLRA, motorLoads; now rewrite Hfl).
  assert (Hunk : hasUnknownMotorLRA loads o1 = hasUnknownMotorLRA loads o2)
    by (rewrite Hu1, Hu2; unfold hasUnknownMotorLRA, motorLoads; now rewrite Hfl).
  unfold calculateBatterySizing. cbn zeta.
  cbn [Single.forPower Single.forMotorStart Results.enphase5P Results.enphase10C
       Results.teslaPW3Only Results.enphase_mixed Results.teslaPW3WithExpansions
       Results.summary Mixed.count10C WithExpansions.leaders WithExpansions.totalKW
       Summary.loadCount Summary.hasUnknownMotorLRA].
  rewrite Hpeak, Hlra, Hunk, Hn1, Hn2, Hfl. repeat split; reflexivity.
Qed.

Lemma power_counts_depend_on_selection_only_witness :
  let hours := Some ({[ "load_1" := {| Selection.include := true;
                                       Selection.hoursPerDay := 24 |} ]}
                     : gmap string Selection.t) in
  let o2 := {| includeLoadIds := None; solarOffsetPercent := 50;
               proposedEVLoads := None; partialSelections := hours |} in
  let r1 := calculateBatterySizing Sample.specs [Sample.pool] 1 (Sample.noOptions 0) in
  let r2 := calculateBatterySizing Sample.specs [Sample.pool] 3 o2 in
  Single.forPower (Results.enphase5P r1) = Single.forPower (Results.enphase5P r2)
  /\ Single.forPower (Results.teslaPW3Only r1) = Single.forPower (Results.teslaPW3Only r2).
Proof.
  cbv zeta.
  pose proof (power_counts_depend_on_selection_only Sample.specs [Sample.pool] 1 3
                (Sample.noOptions 0)
                {| includeLoadIds := None; solarOffsetPercent := 50;
                   proposedEVLoads := None;
                   partialSelections :=
                     Some {[ "load_1" := {| Selection.include := true;
                                            Selection.hoursPerDay := 24 |} ]} |}
                eq_refl eq_refl) as H.
  cbv zeta in H. tauto.
Defined.

(** ** Proposed EV chargers *)

Lemma EV_category_buckets (l : Load) :
  category l = "EV Charger" ->
  isEV l = true
  /\ isLighting l = false /\ isFixed l = false /\ isCooking l = false
  /\ isDryer l = false /\ isCooling l = false /\ isHeating l = false
  /\ isOtherLarge l = false.
Proof.
  intros Hcat.
  unfold isOtherLarge, isEV, isLighting, isFixed, isCooking, isDryer, isCooling, isHeating.
  rewrite Hcat. repeat split; reflexivity.
Qed.

Lemma filter_none {A : Type} (p : A -> bool) (ls : list A) :
  Forall (fun a => p a = false) ls -> filter p ls = [].
Proof.
  induction 1 as [| a ls Ha _ IH]; cbn [filter]; [reflexivity |]. now rewrite Ha.
Qed.

Lemma filter_all {A : Type} (p : A -> bool) (ls : list A) :
  Forall (fun a => p a = true) ls -> filter p ls = ls.
Proof.
  induction 1 as [| a ls Ha _ IH]; cbn [filter]; [reflexivity |]. now rewrite Ha, IH.
Qed.

Lemma filter_app_ev_none (p : Load -> bool) (loads evs : list Load) :
  Forall (fun l => category l = "EV Charger") evs ->
  (forall l, category l = "EV Charger" -> p l = false) ->
  filter p (loads ++ evs) = filter p loads.
Proof.
  intros Hev Hp. rewrite filter_app, (filter_none p evs), app_nil_r; [reflexivity |].
  eapply Forall_impl; [| exact Hev]. exact Hp.
Qed.

Lemma filter_app_ev_all (loads evs : list Load) :
  Forall (fun l => category l = "EV Charger") evs ->
  filter isEV (loads ++ evs) = (filter isEV loads ++ evs)%list.
Proof.
  intros Hev. rewrite filter_app, (filter_all isEV evs); [reflexivity |].
  eapply Forall_impl; [| exact Hev]. intros l Hl. apply (EV_category_buckets l Hl).
Qed.

(** Splits the demand of [loads ++ evs] into the buckets of [loads] and the
    watts of [evs], given [Hev] that [evs] are EV charger loads. *)
Ltac split_ev_buckets loads evs Hev :=
  rewrite !totalDemandVA_unfold;
  unfold generalTotal, generalLoadVA, fixedLoadVA, cookingDemand, dryerDemand,
    hvacDemand, coolingVA, heatingVA, otherLargeVA, evVA;
  rewrite (filter_app_ev_none isLighting loads evs Hev),
    (filter_app_ev_none isFixed loads evs Hev),
    (filter_app_ev_none isCooking loads evs Hev),
    (filter_app_ev_none isDryer loads evs Hev),
    (filter_app_ev_none isCooling loads evs Hev),
    (filter_app_ev_none isHeating loads evs Hev),
    (filter_app_ev_none isOtherLarge loads evs Hev)
    by (intros l Hl; apply (EV_category_buckets l Hl));
  rewrite (filter_app_ev_all loads evs Hev), sumAssumedWatts_app.

(** Loads of the EV charger category are counted at full value and touch no
    other bucket: appending them to a load list raises the total demand by
    exactly the sum of their watts. *)
Theorem nec_demand_append_ev
    (loads evs : list Load) (service : Service) (sqFt : option Q) :
  Forall (fun l => category l = "EV Charger") evs ->
  (NEC.totalDemandVA (calculateNECOptionalMethod (loads ++ evs) service sqFt)
   == NEC.totalDemandVA (calculateNECOptionalMethod loads service sqFt)
      + sumAssumedWatts evs)%Q.
Proof.
  intros Hev. split_ev_buckets loads evs Hev. ring.
Qed.

Lemma nec_demand_append_ev_witness :
  (NEC.totalDemandVA
     (calculateNECOptionalMethod ([Sample.pool] ++ [evSyntheticLoad 7680])
                                 Sample.service_240_200 None)
   == NEC.totalDemandVA
        (calculateNECOptionalMethod [Sample.pool] Sample.service_240_200 None)
      + sumAssumedWatts [evSyntheticLoad 7680])%Q.
Proof.
  apply (nec_demand_append_ev [Sample.pool] [evSyntheticLoad 7680]).
  repeat constructor.
Defined.

Lemma sumAssumedWatts_repeat (l : Load) (n : nat) :
  (sumAssumedWatts (repeat l n) == inject_Z (Z.of_nat n) * assumedWatts (usage l))%Q.
Proof.
  induction n as [| n IH].
  - cbn [repeat]. unfold sumAssumedWatts. cbn [fold_left]. change (inject_Z 0) with 0%Q. ring.
  - cbn [repeat]. rewrite sumAssumedWatts_cons, IH, Nat2Z.inj_succ.
    unfold Z.succ. rewrite inject_Z_plus. change (inject_Z 1) with 1%Q. ring.
Qed.

Lemma sumAssumedWatts_proposed (watts : Q) (n start : nat) :
  (sumAssumedWatts (map (proposedEVLoad watts) (seq start n))
   == inject_Z (Z.of_nat n) * watts)%Q.
Proof.
  revert start. induction n as [| n IH]; intros start.
  - cbn [seq map]. unfold sumAssumedWatts. cbn [fold_left].
    change (inject_Z 0) with 0%Q. ring.
  - cbn [seq map]. rewrite sumAssumedWatts_cons, IH, Nat2Z.inj_succ.
    unfold Z.succ. rewrite inject_Z_plus. change (inject_Z 1) with 1%Q.
    cbn [proposedEVLoad usage assumedWatts]. ring.
Qed.

Lemma status_unfold (loads : list Load) (service : Service) (sqFt : option Q) :
  NEC.status (calculateNECOptionalMethod loads service sqFt)
  = let ratio :=
      (NEC.totalDemandVA (calculateNECOptionalMethod loads service sqFt)
       / serviceVoltage service / mainBreakerAmps service)%Q in
    if JS.ltb 1 ratio then "Undersized"
    else if JS.ltb (8 # 10) ratio then "Borderline"
    else "OK".
Proof. reflexivity. Qed.

Lemma div_le_compat (x y d : Q) : (0 < d)%Q -> (x <= y)%Q -> (x / d <= y / d)%Q.
Proof.
  intros Hd Hxy. unfold Qdiv. apply Qmult_le_compat_r; [exact Hxy |].
  apply Qlt_le_weak, Qinv_lt_0_compat, Hd.
Qed.

(** The closed form of the loop: round [i] runs exactly when [i < count]. *)
Lemma loopCount_iterations (count : Q) (i : nat) :
  (i < loopCount count)%nat <-> (inject_Z (Z.of_nat i) < count)%Q.
Proof.
  unfold loopCount. split.
  - intros Hi. apply lt_ceil. lia.
  - intros Hi.
    assert (Hc : Z.of_nat i < Qceiling count).
    { rewrite Zlt_Qlt. eapply Qlt_le_trans; [exact Hi | apply Qle_ceiling]. }
    lia.
Qed.

(** For a whole count that is not negative the loop runs [count] times. *)
Lemma loopCount_whole (count : Q) (n : Z) :
  0 <= n -> (count == inject_Z n)%Q -> Z.of_nat (loopCount count) = n.
Proof.
  intros Hn Hcount. unfold loopCount. rewrite Hcount, Qceiling_inject_Z. lia.
Qed.

(** The loop never runs fewer times than the count. *)
Lemma loopCount_ge (count : Q) : (count <= inject_Z (Z.of_nat (loopCount count)))%Q.
Proof.
  unfold loopCount. eapply Qle_trans; [apply Qle_ceiling |].
  rewrite <- Zle_Qle. lia.
Qed.

Lemma loopCount_nonneg (count : Q) : (0 <= inject_Z (Z.of_nat (loopCount count)))%Q.
Proof. rewrite <- (Zle_Qle 0). lia. Qed.

(** What the feasibility check adds to the demand of the existing loads is
    the watts of one charger times the number of synthetic loads it pushes,
    which is the charger count rounded up.  For a whole count this is
    [evWattsTotal]; for a count such as 2.5, which the EV step can store, it
    is more than [evWattsTotal] when the charger draws power.  On a service
    with positive voltage and main breaker, and for a charger that draws no
    negative current, existing loads that are Undersized on their own always
    lead to 'Service upgrade recommended'. *)
Theorem ev_demand_is_existing_plus_charger (project : Project) (charger : ChargerOption) :
  chargerOption (ev project) = Some charger ->
  exists r,
    calculateEVFeasibility project = Some r
    /\ EVResult.chargerCount r = countOr1 (chargerCount (ev project))
    /\ (EVResult.evWattsTotal r
        == EVResult.continuousAmps r * serviceVoltage (service project)
           * EVResult.chargerCount r)%Q
    /\ (NEC.totalDemandVA (EVResult.necWithEV r)
        == NEC.totalDemandVA (EVResult.necWithoutEV r)
           + EVResult.evWattsEach r
             * inject_Z (Z.of_nat (loopCount (EVResult.chargerCount r))))%Q
    /\ (forall n : Z,
           0 <= n -> (EVResult.chargerCount r == inject_Z n)%Q ->
           (NEC.totalDemandVA (EVResult.necWithEV r)
            == NEC.totalDemandVA (EVResult.necWithoutEV r) + EVResult.evWattsTotal r)%Q)
    /\ ((0 <= EVResult.evWattsEach r)%Q ->
        (NEC.totalDemandVA (EVResult.necWithoutEV r) + EVResult.evWattsTotal r
         <= NEC.totalDemandVA (EVResult.necWithEV r))%Q)
    /\ ((0 < EVResult.evWattsEach r)%Q ->
        (EVResult.chargerCount r
         < inject_Z (Z.of_nat (loopCount (EVResult.chargerCount r))))%Q ->
        (NEC.totalDemandVA (EVResult.necWithoutEV r) + EVResult.evWattsTotal r
         < NEC.totalDemandVA (EVResult.necWithEV r))%Q)
    /\ ((0 < serviceVoltage (service project))%Q ->
        (0 < mainBreakerAmps (service project))%Q ->
        (0 <= EVResult.continuousAmps r)%Q ->
        NEC.status (EVResult.necWithoutEV r) = "Undersized" ->
        EVResult.recommendation r = "Service upgrade recommended").
Proof.
  intros Hsome. unfold calculateEVFeasibility. rewrite Hsome.
  eexists. split; [reflexivity |]. cbn zeta.
  cbn [EVResult.evWattsTotal EVResult.evWattsEach EVResult.continuousAmps
       EVResult.chargerCount EVResult.necWithEV EVResult.necWithoutEV
       EVResult.recommendation].
  set (amps := if isCustom charger then _ else _).
  set (count := countOr1 _) in *.
  set (each := (amps * serviceVoltage (service project))%Q).
  pose proof (loopCount_ge count) as Hge.
  pose proof (loopCount_nonneg count) as Hrounds.
  assert (Hsum : (NEC.totalDemandVA
                    (calculateNECOptionalMethod
                       (loads project ++ repeat (evSyntheticLoad each) (loopCount count))
                       (service project) None)
                  == NEC.totalDemandVA
                       (calculateNECOptionalMethod (loads project) (service project) None)
                     + each * inject_Z (Z.of_nat (loopCount count)))%Q).
  { assert (Hev : Forall (fun l => category l = "EV Charger")
                     (repeat (evSyntheticLoad each) (loopCount count))).
    { apply Forall_forall. intros l Hl. apply repeat_spec in Hl. now subst l. }
    split_ev_buckets (loads project) (repeat (evSyntheticLoad each) (loopCount count)) Hev.
    rewrite sumAssumedWatts_repeat.
    cbn [evSyntheticLoad usage assumedWatts]. ring. }
  set (withEV := calculateNECOptionalMethod (_ ++ _) _ _) in *.
  set (without := calculateNECOptionalMethod (loads project) _ _) in *.
  set (rounds := inject_Z (Z.of_nat (loopCount count))) in *.
  split; [reflexivity |]. split; [reflexivity |]. split; [exact Hsum |].
  split; [| split; [| split]].
  - intros n Hn Hcount. rewrite Hsum. unfold rounds.
    rewrite (loopCount_whole count n Hn Hcount), Hcount. reflexivity.
  - intros Heach. rewrite Hsum.
    assert (each * count <= each * rounds)%Q; [| lra].
    rewrite !(Qmult_comm each). now apply Qmult_le_compat_r.
  - intros Heach Hfrac. rewrite Hsum.
    assert (each * count < each * rounds)%Q; [| lra].
    rewrite !(Qmult_comm each). now apply Qmult_lt_compat_r.
  - intros HV HA Hamps Hunder.
    assert (Hst : NEC.status withEV = "Undersized").
    { assert (Hratio : JS.ltb 1 (NEC.totalDemandVA without
                                 / serviceVoltage (service project)
                                 / mainBreakerAmps (service project)) = true).
      { unfold without in Hunder. rewrite status_unfold in Hunder. cbv zeta in Hunder.
        fold without in Hunder.
        destruct (JS.ltb 1 _); [reflexivity |].
        destruct (JS.ltb (8 # 10) _); discriminate. }
      apply ltb_lt in Hratio.
      assert (Hmore : (NEC.totalDemandVA without <= NEC.totalDemandVA withEV)%Q).
      { rewrite Hsum.
        assert (0 <= each * rounds)%Q; [| lra].
        apply Qmult_le_0_compat; [| exact Hrounds].
        unfold each. apply Qmult_le_0_compat; lra. }
      assert (Hratio' : (1 < NEC.totalDemandVA withEV / serviceVoltage (service project)
                            / mainBreakerAmps (service project))%Q).
      { eapply Qlt_le_trans; [exact Hratio |].
        apply div_le_compat; [exact HA |]. apply div_le_compat; assumption. }
      apply ltb_lt in Hratio'.
      unfold withEV at 1. rewrite status_unfold. cbv zeta. fold withEV.
      now rewrite Hratio'. }
    now rewrite Hst.
Qed.

Lemma ev_demand_is_existing_plus_charger_witness :
  let project :=
    withEV (Sample.mkProject 200 Sample.panel_40_20 [Sample.pool])
           {| chargerOption := Some Sample.level2; customContinuousAmps := None;
              chargerCount := Some (5 # 2)%Q |} in
  exists r,
    calculateEVFeasibility project = Some r
    /\ (EVResult.evWattsTotal r == 19200)%Q
    /\ (NEC.totalDemandVA (EVResult.necWithEV r)
        == NEC.totalDemandVA (EVResult.necWithoutEV r) + 23040)%Q.
Proof.
  cbv zeta.
  destruct (ev_demand_is_existing_plus_charger
              (withEV (Sample.mkProject 200 Sample.panel_40_20 [Sample.pool])
                      {| chargerOption := Some Sample.level2;
                         customContinuousAmps := None;
                         chargerCount := Some (5 # 2)%Q |}) Sample.level2 eq_refl)
    as (r & Hr & _ & Htotal & Hsum & _).
  exists r. split; [exact Hr |].
  injection Hr as <-. split.
  - eapply Qeq_trans; [exact Htotal |]. vm_compute. reflexivity.
  - eapply Qeq_trans; [exact Hsum |]. vm_compute. reflexivity.
Defined.

(** [buildProposedEVLoads] hands the battery engine as many charger loads
    as the feasibility check pushes, the charger count rounded up, each of
    the EV charger category and of the watts of one charger: their total is
    what the feasibility check adds to the demand, it is [evWattsTotal] for a
    whole count, and it is what the whole-home sizing adds to the peak
    power. *)
Theorem proposed_ev_loads_power
    (project : Project) (wholeHome : BatterySection.t) (charger : ChargerOption) :
  chargerOption (ev project) = Some charger ->
  BatterySection.includeEV wholeHome = true ->
  exists r evs,
    calculateEVFeasibility project = Some r
    /\ buildProposedEVLoads project wholeHome = Some evs
    /\ length evs = loopCount (EVResult.chargerCount r)
    /\ Forall (fun l => category l = "EV Charger"
                        /\ assumedWatts (usage l) = EVResult.evWattsEach r
                        /\ isMotor (motor l) = false
                        /\ includeInBatteryCalc (usage l) = true) evs
    /\ (sumAssumedWatts evs
        == EVResult.evWattsEach r * inject_Z (Z.of_nat (length evs)))%Q
    /\ (NEC.totalDemandVA (EVResult.necWithEV r)
        == NEC.totalDemandVA (EVResult.necWithoutEV r) + sumAssumedWatts evs)%Q
    /\ (forall n : Z,
           0 <= n -> (EVResult.chargerCount r == inject_Z n)%Q ->
           Z.of_nat (length evs) = n
           /\ (sumAssumedWatts evs == EVResult.evWattsTotal r)%Q)
    /\ (peakPowerKW (loads project) (wholeHomeOptions project wholeHome)
        == peakPowerKW (loads project)
                       (withoutProposedEV (wholeHomeOptions project wholeHome))
           + sumAssumedWatts evs / 1000)%Q.
Proof.
  intros Hsome Hinc.
  unfold wholeHomeOptions, withoutProposedEV, calculateEVFeasibility, buildProposedEVLoads.
  cbn [includeLoadIds solarOffsetPercent proposedEVLoads partialSelections].
  rewrite Hsome, Hinc. cbn [negb].
  eexists. eexists. split; [reflexivity |]. split; [reflexivity |]. cbn zeta.
  cbn [EVResult.chargerCount EVResult.evWattsEach EVResult.evWattsTotal
       EVResult.necWithEV EVResult.necWithoutEV].
  set (amps := if isCustom charger then _ else _).
  set (count := countOr1 _) in *.
  set (each := (amps * serviceVoltage (service project))%Q).
  assert (Hlen : length (map (proposedEVLoad each) (seq 0 (loopCount count)))
                 = loopCount count) by now rewrite length_map, length_seq.
  assert (Hsum : (sumAssumedWatts (map (proposedEVLoad each) (seq 0 (loopCount count)))
                  == each * inject_Z (Z.of_nat (loopCount count)))%Q).
  { rewrite sumAssumedWatts_proposed. ring. }
  split; [exact Hlen |].
  split; [apply Forall_forall; intros l Hl; apply in_map_iff in Hl;
          destruct Hl as (i & <- & _); repeat split |].
  split; [rewrite Hlen; exact Hsum |].
  split; [| split].
  - rewrite Hsum.
    assert (Hev : Forall (fun l => category l = "EV Charger")
                     (repeat (evSyntheticLoad each) (loopCount count))).
    { apply Forall_forall. intros l Hl. apply repeat_spec in Hl. now subst l. }
    split_ev_buckets (loads project) (repeat (evSyntheticLoad each) (loopCount count)) Hev.
    rewrite sumAssumedWatts_repeat.
    cbn [evSyntheticLoad usage assumedWatts]. ring.
  - intros n Hn Hcount. rewrite Hlen, Hsum.
    rewrite (loopCount_whole count n Hn Hcount), Hcount. split; reflexivity.
  - unfold peakPowerKW, calculatePracticalLoad, filteredLoads.
    cbn [includeLoadIds proposedEVLoads partialSelections Practical.totalRunningKW].
    destruct (0 <? Z.of_nat (length (map (proposedEVLoad each) (seq 0 (loopCount count)))))
      eqn:Hpos.
    + rewrite sumAssumedWatts_app. field.
    + apply Z.ltb_ge in Hpos.
      destruct (map (proposedEVLoad each) (seq 0 (loopCount count))) as [| x xs] eqn:Hevs;
        [| cbn [length] in Hpos; lia].
      change (sumAssumedWatts []) with 0%Q. field.
Qed.

Lemma proposed_ev_loads_power_witness :
  let wholeHome :=
    {| BatterySection.backupMode := Some "1"; BatterySection.customDays := Some 1%Q;
       BatterySection.includeEV := true; BatterySection.solarOffsetPercent := Some 0%Q;
       BatterySection.solarOffsetEnabled := false; BatterySection.enabled := false;
       BatterySection.selections := None |} in
  let project :=
    withEV Sample.project_level2
           {| chargerOption := Some Sample.level2; customContinuousAmps := None;
              chargerCount := Some (5 # 2)%Q |} in
  exists evs,
    buildProposedEVLoads project wholeHome = Some evs
    /\ length evs = 3%nat
    /\ (sumAssumedWatts evs == 23040)%Q.
Proof.
  cbv zeta.
  destruct (proposed_ev_loads_power
              (withEV Sample.project_level2
                      {| chargerOption := Some Sample.level2;
                         customContinuousAmps := None;
                         chargerCount := Some (5 # 2)%Q |})
              {| BatterySection.backupMode := Some "1";
                 BatterySection.customDays := Some 1%Q;
                 BatterySection.includeEV := true;
                 BatterySection.solarOffsetPercent := Some 0%Q;
                 BatterySection.solarOffsetEnabled := false;
                 BatterySection.enabled := false;
                 BatterySection.selections := None |} Sample.level2 eq_refl eq_refl)
    as (r & evs & Hr & Hevs & Hlen & _ & Hsum & _).
  exists evs. split; [exact Hevs |].
  injection Hr as <-. split.
  - rewrite Hlen. reflexivity.
  - eapply Qeq_trans; [exact Hsum |]. rewrite Hlen. vm_compute. reflexivity.
Defined.

(** ** Service status and breaker sizing *)

Lemma lt_div_iff (x y d : Q) : (0 < d)%Q -> (x < y / d)%Q <-> (x * d < y)%Q.
Proof.
  intros Hd. split; [now apply lt_div_mult | now apply Qlt_shift_div_l].
Qed.

(** On a service with positive voltage and main breaker the status compares
    the total demand with the capacity [serviceVoltage * mainBreakerAmps]:
    Undersized above it, Borderline above 80% of it, OK otherwise. *)
Theorem nec_status_thresholds (loads : list Load) (service : Service) (sqFt : option Q) :
  (0 < serviceVoltage service)%Q ->
  (0 < mainBreakerAmps service)%Q ->
  let r := calculateNECOptionalMethod loads service sqFt in
  let capacity := (serviceVoltage service * mainBreakerAmps service)%Q in
  (NEC.status r = "Undersized" <-> (capacity < NEC.totalDemandVA r)%Q)
  /\ (NEC.status r = "Borderline"
      <-> ((8 # 10) * capacity < NEC.totalDemandVA r)%Q
          /\ (NEC.totalDemandVA r <= capacity)%Q)
  /\ (NEC.status r = "OK" <-> (NEC.totalDemandVA r <= (8 # 10) * capacity)%Q).
Proof.
  intros HV HA. cbv zeta. rewrite status_unfold. cbv zeta.
  set (total := NEC.totalDemandVA _).
  assert (H1 : forall x, (x < total / serviceVoltage service / mainBreakerAmps service)%Q
                         <-> (x * (serviceVoltage service * mainBreakerAmps service)
                              < total)%Q).
  { intros x. rewrite (lt_div_iff _ _ _ HA), (lt_div_iff _ _ _ HV).
    assert (Heq : (x * mainBreakerAmps service * serviceVoltage service
                   == x * (serviceVoltage service * mainBreakerAmps service))%Q) by ring.
    now rewrite Heq. }
  assert (Hcap : (0 < serviceVoltage service * mainBreakerAmps service)%Q)
    by (apply Qmult_lt_0_compat; assumption).
  set (capacity := (serviceVoltage service * mainBreakerAmps service)%Q) in *.
  pose proof (H1 1%Q) as Hone. pose proof (H1 (8 # 10)) as Hhigh.
  destruct (JS.ltb 1 _) eqn:Hu; [apply ltb_lt in Hu | apply ltb_ge in Hu];
    [| destruct (JS.ltb (8 # 10) _) eqn:Hb; [apply ltb_lt in Hb | apply ltb_ge in Hb]].
  - apply Hone in Hu.
    repeat split; intros; repeat match goal with H : _ /\ _ |- _ => destruct H end;
      try discriminate; try reflexivity; lra.
  - apply Hhigh in Hb.
    assert (Hnu : (total <= 1 * capacity)%Q)
      by (apply Qnot_lt_le; intros Hc; apply Hone in Hc; lra).
    repeat split; intros; repeat match goal with H : _ /\ _ |- _ => destruct H end;
      try discriminate; try reflexivity; lra.
  - assert (Hnb : (total <= (8 # 10) * capacity)%Q)
      by (apply Qnot_lt_le; intros Hc; apply Hhigh in Hc; lra).
    repeat split; intros; repeat match goal with H : _ /\ _ |- _ => destruct H end;
      try discriminate; try reflexivity; lra.
Qed.

Lemma nec_status_thresholds_witness :
  NEC.status (calculateNECOptionalMethod [Sample.pool] Sample.service_240_200 None) = "OK".
Proof.
  apply (nec_status_thresholds [Sample.pool] Sample.service_240_200 None);
    [reflexivity | reflexivity | discriminate].
Defined.

Lemma ceil_lt_succ (x : Q) : (inject_Z (Qceiling x) < x + 1)%Q.
Proof.
  pose proof (Qceiling_lt x) as Hlt.
  assert (Heq : (inject_Z (Qceiling x) == inject_Z (Qceiling x - 1) + 1)%Q).
  { change 1%Q with (inject_Z 1). rewrite <- inject_Z_plus.
    replace (Qceiling x - 1 + 1) with (Qceiling x) by lia. reflexivity. }
  rewrite Heq. lra.
Qed.

(** For a custom charger the required breaker is a multiple of 5 A, at least
    125% of the continuous amps and less than 5 A above that. *)
Theorem custom_charger_breaker (project : Project) (charger : ChargerOption) :
  chargerOption (ev project) = Some charger ->
  isCustom charger = true ->
  exists r,
    calculateEVFeasibility project = Some r
    /\ EVResult.continuousAmps r = JS.or0 (customContinuousAmps (ev project))
    /\ (exists k : Z, EVResult.breakerAmps r = (inject_Z k * 5)%Q)
    /\ (EVResult.continuousAmps r * (125 # 100) <= EVResult.breakerAmps r)%Q
    /\ (EVResult.breakerAmps r < EVResult.continuousAmps r * (125 # 100) + 5)%Q.
Proof.
  intros Hsome Hcustom. unfold calculateEVFeasibility. rewrite Hsome, Hcustom.
  eexists. split; [reflexivity |]. cbn zeta.
  cbn [EVResult.continuousAmps EVResult.breakerAmps].
  set (amps := JS.or0 _). unfold JS.Math_ceil.
  pose proof (Qle_ceiling (amps * (125 # 100) / 5)) as Hle.
  pose proof (ceil_lt_succ (amps * (125 # 100) / 5)) as Hlt.
  set (k := Qceiling _) in *.
  assert (Hx : (amps * (125 # 100) == amps * (125 # 100) / 5 * 5)%Q) by field.
  split; [reflexivity |]. split; [now exists k |]. split; lra.
Qed.

Lemma custom_charger_breaker_witness :
  let project :=
    {| service := Sample.service_240_200; panel := Sample.panel_40_20;
       ev := {| chargerOption := Some {| isCustom := true; continuousAmps := 0;
                                         recommendedBreakerAmps := 0 |};
                customContinuousAmps := Some 30%Q; chargerCount := Some 1%Q |};
       loads := [Sample.pool] |} in
  exists r, calculateEVFeasibility project = Some r /\ (EVResult.breakerAmps r == 40)%Q.
Proof.
  cbv zeta.
  destruct (custom_charger_breaker
              {| service := Sample.service_240_200; panel := Sample.panel_40_20;
                 ev := {| chargerOption := Some {| isCustom := true; continuousAmps := 0;
                                                   recommendedBreakerAmps := 0 |};
                          customContinuousAmps := Some 30%Q; chargerCount := Some 1%Q |};
                 loads := [Sample.pool] |}
              {| isCustom := true; continuousAmps := 0; recommendedBreakerAmps := 0 |}
              eq_refl eq_refl) as (r & Hr & _).
  exists r. split; [exact Hr |]. injection Hr as <-. reflexivity.
Defined.

(** The charger count set in the EV step is clamped to 1..4, so the
    feasibility check that follows needs between 2 and 8 slots, twice the
    count; a count that is already in range is kept, and clamping twice
    changes nothing. *)
Theorem setChargerCount_bounds (project : Project) (count : Q) (charger : ChargerOption) :
  chargerOption (ev project) = Some charger ->
  setChargerCount count (setChargerCount count (ev project))
  = setChargerCount count (ev project)
  /\ exists r,
       calculateEVFeasibility (withEV project (setChargerCount count (ev project)))
       = Some r
       /\ (1 <= EVResult.chargerCount r <= 4)%Q
       /\ ((1 <= count <= 4)%Q -> (EVResult.chargerCount r == count)%Q)
       /\ EVResult.slotsNeeded r = (2 * EVResult.chargerCount r)%Q
       /\ (2 <= EVResult.slotsNeeded r <= 8)%Q
       /\ (1 <= loopCount (EVResult.chargerCount r) <= 4)%nat.
Proof.
  intros Hsome. split; [reflexivity |].
  unfold calculateEVFeasibility, withEV, setChargerCount.
  cbn [ev chargerOption customContinuousAmps chargerCount service panel loads].
  rewrite Hsome. eexists. split; [reflexivity |]. cbn zeta.
  cbn [EVResult.chargerCount EVResult.slotsNeeded]. unfold countOr1.
  assert (Hclamp : (1 <= Qmax 1 (Qmin 4 count) <= 4)%Q
                   /\ ((1 <= count <= 4)%Q -> (Qmax 1 (Qmin 4 count) == count)%Q)).
  { destruct (Q.min_spec 4 count) as [[Hlt Hmin] | [Hle Hmin]];
      destruct (Q.max_spec 1 (Qmin 4 count)) as [[Hlt' Hmax] | [Hle' Hmax]];
      revert Hmax; try revert Hlt'; try revert Hle'; revert Hmin;
      generalize (Qmax 1 (Qmin 4 count)); generalize (Qmin 4 count);
      intros m M Hmin; intros; split; try split; try intros [? ?]; lra. }
  destruct Hclamp as [[Hlo Hhi] Hkeep].
  assert (Hnz : JS.eqb (Qmax 1 (Qmin 4 count)) 0 = false).
  { unfold JS.eqb. apply not_true_is_false. intros Hz. apply Qeq_bool_iff in Hz. lra. }
  rewrite Hnz.
  split; [split; assumption |]. split; [exact Hkeep |]. split; [reflexivity |].
  split; [split; lra |].
  unfold loopCount.
  assert (H1 : 1 <= Qceiling (Qmax 1 (Qmin 4 count))).
  { rewrite Zle_Qle. eapply Qle_trans; [exact Hlo | apply Qle_ceiling]. }
  assert (H4 : Qceiling (Qmax 1 (Qmin 4 count)) <= 4).
  { change 4 with (Qceiling (inject_Z 4)). now apply Qceiling_resp_le. }
  lia.
Qed.

Lemma setChargerCount_bounds_witness :
  exists r,
    calculateEVFeasibility
      (withEV Sample.project_level2 (setChargerCount 9 (ev Sample.project_level2)))
    = Some r
    /\ (2 <= EVResult.slotsNeeded r <= 8)%Q.
Proof.
  destruct (setChargerCount_bounds Sample.project_level2 9 Sample.level2 eq_refl)
    as (_ & r & Hr & _ & _ & _ & Hslots & _).
  exists r. split; assumption.
Defined.

(** ** Slots occupied by the load list *)

Lemma modeledSlots_acc (ls : list Load) (acc : Z) :
  fold_left
    (fun modeledSlots load =>
       if String.eqb (type (breaker load)) "Tandem" then modeledSlots + 1
       else modeledSlots + (if poles (breaker load) =? 2 then 2 else 1))
    ls acc
  = acc + calculateModeledSlots ls.
Proof.
  unfold calculateModeledSlots. revert acc.
  induction ls as [| l ls IH]; intros acc; cbn [fold_left]; [lia |].
  rewrite IH, (IH (if _ : bool then _ else _)).
  destruct (String.eqb _ _), (poles (breaker l) =? 2); lia.
Qed.

(** The modeled slot count is additive over concatenated load lists and
    lies between the number of loads and twice that number: every load takes
    one slot or, for a non-tandem two-pole breaker, two. *)
Theorem calculateModeledSlots_bounds (a b : list Load) :
  calculateModeledSlots (a ++ b) = calculateModeledSlots a + calculateModeledSlots b
  /\ Z.of_nat (length a) <= calculateModeledSlots a <= 2 * Z.of_nat (length a).
Proof.
  split.
  - unfold calculateModeledSlots at 1. rewrite fold_left_app.
    fold (calculateModeledSlots a). apply modeledSlots_acc.
  - induction a as [| l a IH]; [cbn; lia |].
    unfold calculateModeledSlots. cbn [fold_left]. rewrite modeledSlots_acc.
    cbn [length]. rewrite Nat2Z.inj_succ.
    destruct (String.eqb _ _), (poles (breaker l) =? 2); lia.
Qed.

(** ** The largest motor *)

Lemma fold_Qmax_upper {A : Type} (f : A -> Q) (ls : list A) (acc : Q) (a : A) :
  In a ls -> (f a <= fold_left (fun max l => Qmax max (f l)) ls acc)%Q.
Proof.
  revert acc. induction ls as [| x ls IH]; intros acc Hin; [destruct Hin |].
  cbn [fold_left]. destruct Hin as [-> | Hin].
  - eapply Qle_trans; [apply Q.le_max_r | apply fold_Qmax_ge].
  - now apply IH.
Qed.

Lemma fold_Qmax_attained {A : Type} (f : A -> Q) (ls : list A) (acc : Q) :
  let m := fold_left (fun max l => Qmax max (f l)) ls acc in
  (m == acc)%Q \/ exists a, In a ls /\ (m == f a)%Q.
Proof.
  cbv zeta. revert acc. induction ls as [| x ls IH]; intros acc; cbn [fold_left].
  - left. reflexivity.
  - destruct (IH (Qmax acc (f x))) as [Heq | (a & Hin & Heq)].
    + destruct (Q.max_spec acc (f x)) as [[_ Hm] | [_ Hm]].
      * right. exists x. split; [now left |]. now rewrite Heq, Hm.
      * left. now rewrite Heq, Hm.
    + right. exists a. split; [now right | exact Heq].
Qed.

(** The largest locked-rotor current reported by the practical load model
    is a true maximum: it bounds the rating of every motor load, counting a
    missing rating as 0, and it is either 0 or the rating of one of the motor
    loads. *)
Theorem largestMotorLRA_is_maximum (loads : list Load) :
  let r := calculatePracticalLoad loads None in
  (forall l, In l loads -> isMotor (motor l) = true ->
             (JS.or0 (lra (motor l)) <= Practical.largestMotorLRA r)%Q)
  /\ ((Practical.largestMotorLRA r == 0)%Q
      \/ exists l, In l loads /\ isMotor (motor l) = true
                   /\ (Practical.largestMotorLRA r == JS.or0 (lra (motor l)))%Q)
  /\ (0 <= Practical.largestMotorLRA r)%Q
  /\ 0 <= Practical.motorLoads r <= Z.of_nat (length loads).
Proof.
  cbv zeta. unfold calculatePracticalLoad.
  cbn [Practical.largestMotorLRA Practical.motorLoads].
  split; [| split; [| split]].
  - intros l Hin Hm.
    apply (fold_Qmax_upper (fun l => JS.or0 (lra (motor l)))). apply filter_In. now split.
  - destruct (fold_Qmax_attained (fun l => JS.or0 (lra (motor l)))
                (filter (fun l => isMotor (motor l)) loads) 0) as [H0 | (l & Hin & Hl)].
    + now left.
    + right. exists l. apply filter_In in Hin. destruct Hin. now repeat split.
  - apply fold_Qmax_ge.
  - split; [lia |]. apply Nat2Z.inj_le.
    induction loads as [| l ls IH]; cbn [filter length]; [lia |].
    destruct (isMotor (motor l)); cbn [length]; lia.
Qed.

(** ** Partial-home sizing *)

Lemma selectedIds_includes (selections : gmap string Selection.t) (i : string) :
  existsb (String.eqb i) (selectedIds selections)
  = match selections !! i with
    | Some sel => Selection.include sel
    | None => false
    end.
Proof.
  apply eq_true_iff_eq. rewrite existsb_exists. unfold selectedIds. split.
  - intros (x & Hin & Heq). apply String.eqb_eq in Heq. subst x.
    apply in_map_iff in Hin. destruct Hin as ([k sel] & Hk & Hin). cbn in Hk. subst k.
    apply filter_In in Hin. destruct Hin as (Hin & Hinc). cbn in Hinc.
    apply list_elem_of_In, elem_of_map_to_list in Hin. now rewrite Hin.
  - destruct (selections !! i) as [sel |] eqn:Hsel; [| discriminate].
    intros Hinc. exists i. split; [| apply String.eqb_refl].
    apply in_map_iff. exists (i, sel). split; [reflexivity |].
    apply filter_In. split; [| exact Hinc].
    apply list_elem_of_In, elem_of_map_to_list. exact Hsel.
Qed.

(** In the partial-home sizing call the selected loads are exactly the
    loads whose selection is marked included, each running the hours of its
    selection; a load without an included selection is left out whatever its
    own battery flag says, and a selected load is kept even when that flag is
    off. *)
Theorem partialHome_selected_loads
    (loads : list Load) (partialHome : BatterySection.t)
    (selections : gmap string Selection.t) :
  BatterySection.selections partialHome = Some selections ->
  filteredLoads loads (partialHomeOptions partialHome)
  = flat_map
      (fun l =>
         match selections !! id l with
         | Some sel =>
             if Selection.include sel then [setHours l (Selection.hoursPerDay sel)]
             else []
         | None => []
         end) loads.
Proof.
  intros Hsel. unfold filteredLoads, partialHomeOptions.
  cbn [includeLoadIds proposedEVLoads partialSelections]. rewrite Hsel.
  induction loads as [| l ls IH]; [reflexivity |].
  cbn [filter flat_map]. rewrite selectedIds_includes.
  destruct (selections !! id l) as [sel |] eqn:Hl; [| exact IH].
  destruct (Selection.include sel); [| exact IH].
  cbn [map app]. rewrite Hl. f_equal. exact IH.
Qed.

Lemma partialHome_selected_loads_witness :
  let off := {| id := "load_7"; category := "Other";
                breaker := {| poles := 1; amps := 15; type := "Standard";
                              voltageOverride := None |};
                usage := {| assumedWatts := 800; hoursPerDay := 4;
                            includeInServiceCalc := true;
                            includeInBatteryCalc := false |};
                motor := {| isMotor := false; lra := None |} |} in
  let selections : gmap string Selection.t :=
    {[ "load_7" := {| Selection.include := true; Selection.hoursPerDay := 6 |} ]} in
  let partialHome :=
    {| BatterySection.backupMode := Some "1"; BatterySection.customDays := None;
       BatterySection.includeEV := false; BatterySection.solarOffsetPercent := None;
       BatterySection.solarOffsetEnabled := false; BatterySection.enabled := true;
       BatterySection.selections := Some selections |} in
  filteredLoads [Sample.pool; off] (partialHomeOptions partialHome) = [setHours off 6].
Proof.
  intros off selections partialHome.
  rewrite (partialHome_selected_loads [Sample.pool; off] partialHome selections eq_refl).
  vm_compute. reflexivity.
Defined.

(** ** The service step and the panel engine *)

(** For the three tandem positions the service step offers, its
    [maxTandemSlots] is the engine's [tandemCapableSlots]. *)
Theorem maxTandemSlots_agrees (panel : Panel) :
  In (allowedPositions (tandemPolicy panel)) ["All slots"; "Bottom half only"; "Custom"] ->
  maxTandemSlots panel = PanelSlots.tandemCapableSlots (calculatePanelSlots panel).
Proof.
  intros Hpos. unfold maxTandemSlots, calculatePanelSlots.
  cbn [PanelSlots.tandemCapableSlots].
  destruct (String.eqb (tandemsAllowed panel) "Allowed"); [| reflexivity].
  cbn [In] in Hpos. destruct Hpos as [<- | [<- | [<- | []]]]; reflexivity.
Qed.

Lemma maxTandemSlots_agrees_witness :
  maxTandemSlots Sample.panel_40_20
  = PanelSlots.tandemCapableSlots (calculatePanelSlots Sample.panel_40_20)
  /\ maxTandemSlots Sample.panel_40_20 = 20.
Proof.
  split; [| reflexivity].
  apply (maxTandemSlots_agrees Sample.panel_40_20). cbn. tauto.
Defined.

(** With any other position string the two differ: the service step falls
    back to the custom figure, the engine to 0. *)
Example maxTandemSlots_differs :
  let panel :=
    {| totalSlots := 40; usedSlots := 20; tandemSlotsUsed := Some 0;
       tandemsAllowed := "Allowed";
       tandemPolicy := {| allowedPositions := "Top half only";
                          customMaxTandemSlots := Some 6 |} |} in
  maxTandemSlots panel = 6
  /\ PanelSlots.tandemCapableSlots (calculatePanelSlots panel) = 0.
Proof. split; reflexivity. Qed.

(** The service step shows no warning exactly when the used spaces fit the
    panel and the tandem slots in use fit the tandem-capable slots (none, when
    tandems are not allowed); the engine's [availableSlots] is then not
    negative. *)
Theorem warnings_empty_iff (panel : Panel) :
  (warnings panel = []
   <-> usedSlots panel <= totalSlots panel
       /\ JS.or0Z (tandemSlotsUsed panel) <= maxTandemSlots panel)
  /\ (warnings panel = [] ->
      0 <= PanelSlots.availableSlots (calculatePanelSlots panel)
      /\ totalAvailableSlots panel
         = Z.max 0 (PanelSlots.availableSlots (calculatePanelSlots panel)
                    - JS.or0Z (tandemSlotsUsed panel))).
Proof.
  assert (Hiff : warnings panel = []
                 <-> usedSlots panel <= totalSlots panel
                     /\ JS.or0Z (tandemSlotsUsed panel) <= maxTandemSlots panel).
  { unfold warnings, maxTandemSlots.
    destruct (Z.ltb_spec (totalSlots panel) (usedSlots panel)) as [Hu | Hu];
      [split; [discriminate | lia] |].
    cbn [app].
    destruct (String.eqb (tandemsAllowed panel) "Allowed"); cbn [negb andb].
    - rewrite andb_true_r.
      match goal with
      | |- context [?m <? JS.or0Z _] =>
          destruct (Z.ltb_spec m (JS.or0Z (tandemSlotsUsed panel)))
      end; cbn [app]; split; try discriminate; try reflexivity; lia.
    - rewrite andb_false_r. cbn [app].
      destruct (Z.ltb_spec 0 (JS.or0Z (tandemSlotsUsed panel)));
        split; try discriminate; try reflexivity; lia. }
  split; [exact Hiff |].
  intros Hw. apply Hiff in Hw. unfold totalAvailableSlots, calculatePanelSlots.
  cbn [PanelSlots.availableSlots]. split; [lia | f_equal; lia].
Qed.

Lemma warnings_empty_iff_witness :
  warnings Sample.panel_40_20 = []
  /\ 0 <= PanelSlots.availableSlots (calculatePanelSlots Sample.panel_40_20).
Proof.
  split; [reflexivity |].
  apply (proj2 (warnings_empty_iff Sample.panel_40_20)). reflexivity.
Defined.

(** ** Breaker-based watts *)

(** The breaker-based estimate of a single-pole breaker, and of any breaker
    with a voltage override that is not 0, does not depend on the service
    voltage; an override of 0 counts as no override. *)
Theorem calculateBreakerWatts_service_independent
    (load : Load) (v1 v2 utilizationFactor : Q) :
  poles (breaker load) = 1
  \/ (exists v, voltageOverride (breaker load) = Some v /\ ~ (v == 0)%Q) ->
  calculateBreakerWatts load v1 utilizationFactor
  = calculateBreakerWatts load v2 utilizationFactor.
Proof.
  intros Hcase. unfold calculateBreakerWatts, getLoadVoltage. cbv zeta.
  destruct Hcase as [Hp | (v & Hv & Hnz)].
  - rewrite Hp. reflexivity.
  - rewrite Hv. unfold JS.eqb.
    destruct (Qeq_bool v 0) eqn:Hz; [| reflexivity].
    apply Qeq_bool_iff in Hz. contradiction.
Qed.

Lemma calculateBreakerWatts_service_independent_witness :
  calculateBreakerWatts Sample.pool 240 (1 # 2) = calculateBreakerWatts Sample.pool 208 (1 # 2)
  /\ calculateBreakerWatts Sample.pool 240 (1 # 2) = 900.
Proof.
  split; [| reflexivity].
  apply (calculateBreakerWatts_service_independent Sample.pool 240 208 (1 # 2)).
  left. reflexivity.
Defined.

(** ** The energy requirement *)

Lemma ceil_div_mono (x y d : Q) :
  (0 < d)%Q -> (x <= y)%Q -> JS.Math_ceil (x / d) <= JS.Math_ceil (y / d).
Proof.
  intros Hd Hxy. unfold JS.Math_ceil. apply Qceiling_resp_le. now apply div_le_compat.
Qed.

(** When the selected loads need no negative energy, a larger solar offset
    never raises the energy requirement, nor the energy-bound unit count of
    any single product; an offset of 100% or more brings the requirement to
    0. *)
Theorem solar_offset_monotone
    (specs : BatterySpecs.t) (loads : list Load) (backupDays : Q) (o1 o2 : Options) :
  includeLoadIds o1 = includeLoadIds o2 ->
  proposedEVLoads o1 = proposedEVLoads o2 ->
  partialSelections o1 = partialSelections o2 ->
  (0 <= Practical.totalDailyKWh (calculatePracticalLoad (filteredLoads loads o1) None)
        * backupDays)%Q ->
  (solarOffsetPercent o1 <= solarOffsetPercent o2)%Q ->
  let r1 := calculateBatterySizing specs loads backupDays o1 in
  let r2 := calculateBatterySizing specs loads backupDays o2 in
  (0 <= totalEnergyNeededKWh loads backupDays o2
     <= totalEnergyNeededKWh loads backupDays o1)%Q
  /\ ((100 <= solarOffsetPercent o2)%Q ->
      (totalEnergyNeededKWh loads backupDays o2 == 0)%Q)
  /\ ((0 < BatterySpec.usableKWh (BatterySpecs.enphase5P specs))%Q ->
      Single.forEnergy (Results.enphase5P r2) <= Single.forEnergy (Results.enphase5P r1))
  /\ ((0 < BatterySpec.usableKWh (BatterySpecs.enphase10C specs))%Q ->
      Single.forEnergy (Results.enphase10C r2) <= Single.forEnergy (Results.enphase10C r1))
  /\ ((0 < BatterySpec.usableKWh (BatterySpecs.teslaPW3 specs))%Q ->
      Single.forEnergy (Results.teslaPW3Only r2)
      <= Single.forEnergy (Results.teslaPW3Only r1)).
Proof.
  intros Hids Hev Hsel Hbase Hoff. cbv zeta.
  pose proof (filteredLoads_ext loads o1 o2 Hids Hev Hsel) as Hfl.
  assert (HE : (0 <= totalEnergyNeededKWh loads backupDays o2
                  <= totalEnergyNeededKWh loads backupDays o1)%Q
               /\ ((100 <= solarOffsetPercent o2)%Q ->
                   (totalEnergyNeededKWh loads backupDays o2 == 0)%Q)).
  { unfold totalEnergyNeededKWh. cbv zeta. rewrite <- Hfl.
    set (base := (Practical.totalDailyKWh _ * backupDays)%Q) in *.
    set (s1 := solarOffsetPercent o1) in *. set (s2 := solarOffsetPercent o2) in *.
    clearbody base s1 s2.
    assert (Hscale : forall s, (base * (1 - s / 100) == base - base * s * (1 # 100))%Q)
      by (intros s; field).
    assert (Hprod : forall s, (0 <= s)%Q -> (0 <= base * s)%Q)
      by (intros s Hs; apply Qmult_le_0_compat; assumption).
    assert (Hprod2 : (s1 <= s2)%Q -> (base * s1 <= base * s2)%Q).
    { intros Hle. rewrite (Qmult_comm base s1), (Qmult_comm base s2).
      apply Qmult_le_compat_r; assumption. }
    assert (Hlin : forall b p1 p2 : Q,
               (p1 <= p2)%Q -> (b - p2 * (1 # 100) <= b - p1 * (1 # 100))%Q)
      by (intros; lra).
    assert (Hfull : forall s, (100 <= s)%Q -> (base - base * s * (1 # 100) <= 0)%Q).
    { intros s Hs.
      assert (Hb : (base * 100 <= base * s)%Q).
      { rewrite (Qmult_comm base 100), (Qmult_comm base s).
        apply Qmult_le_compat_r; assumption. }
      generalize dependent (base * s)%Q. intros p Hp. lra. }
    assert (Hdown : forall s, (0 <= s)%Q -> (base - base * s * (1 # 100) <= base)%Q).
    { intros s Hs. pose proof (Hprod s Hs) as Hp.
      generalize dependent (base * s)%Q. intros p Hp. lra. }
    destruct (JS.ltb 0 s1) eqn:H1, (JS.ltb 0 s2) eqn:H2;
      try apply ltb_lt in H1; try apply ltb_lt in H2;
      try apply ltb_ge in H1; try apply ltb_ge in H2.
    - split.
      + split; [apply Q.le_max_l |]. apply Q.max_le_compat_l.
        rewrite (Hscale s1), (Hscale s2). apply Hlin, Hprod2, Hoff.
      + intros H100. apply Q.max_l. rewrite (Hscale s2). now apply Hfull.
    - lra.
    - split.
      + split; [apply Q.le_max_l |]. apply Q.max_le_compat_l.
        rewrite (Hscale s2). apply Hdown. lra.
      + intros H100. apply Q.max_l. rewrite (Hscale s2). now apply Hfull.
    - split; [split; [apply Q.le_max_l | apply Qle_refl] | intros; lra]. }
  destruct HE as (HE & H100).
  split; [exact HE |]. split; [exact H100 |].
  unfold calculateBatterySizing. cbn zeta.
  cbn [Results.enphase5P Results.enphase10C Results.teslaPW3Only Single.forEnergy].
  repeat split; intros Hu; apply ceil_div_mono; try assumption; apply HE.
Qed.

Lemma solar_offset_monotone_witness :
  let day := [Sample.mkLoad "load_4" "Other" 1000 24] in
  let r1 := calculateBatterySizing Sample.specs day 1 (Sample.noOptions 0) in
  let r2 := calculateBatterySizing Sample.specs day 1 (Sample.noOptions 50) in
  Single.forEnergy (Results.enphase5P r2) <= Single.forEnergy (Results.enphase5P r1).
Proof.
  cbv zeta.
  apply (solar_offset_monotone Sample.specs [Sample.mkLoad "load_4" "Other" 1000 24] 1
           (Sample.noOptions 0) (Sample.noOptions 50));
    try reflexivity; discriminate.
Defined.

(** In the whole-home sizing call the solar offset counts only in custom
    backup mode: in any other mode the energy requirement is the daily energy
    times the backup days, whatever offset is stored and enabled. *)
Theorem wholeHome_offset_needs_custom_mode
    (project : Project) (wholeHome : BatterySection.t) (backupDays : Q) :
  modeOr1 (BatterySection.backupMode wholeHome) <> "custom" ->
  solarOffsetPercent (wholeHomeOptions project wholeHome) = 0%Q
  /\ totalEnergyNeededKWh (loads project) backupDays (wholeHomeOptions project wholeHome)
     = Qmax 0 (Practical.totalDailyKWh
                 (calculatePracticalLoad
                    (filteredLoads (loads project) (wholeHomeOptions project wholeHome))
                    None)
               * backupDays)%Q.
Proof.
  intros Hmode.
  assert (Hoff : solarOffsetPercent (wholeHomeOptions project wholeHome) = 0%Q).
  { unfold wholeHomeOptions, getSolarOffset. cbn [solarOffsetPercent andb].
    destruct (String.eqb_spec (modeOr1 (BatterySection.backupMode wholeHome)) "custom");
      [contradiction | reflexivity]. }
  split; [exact Hoff |].
  unfold totalEnergyNeededKWh. cbv zeta. rewrite Hoff. reflexivity.
Qed.

Lemma wholeHome_offset_needs_custom_mode_witness :
  let wholeHome :=
    {| BatterySection.backupMode := Some "2"; BatterySection.customDays := Some 1%Q;
       BatterySection.includeEV := false; BatterySection.solarOffsetPercent := Some 50%Q;
       BatterySection.solarOffsetEnabled := true; BatterySection.enabled := false;
       BatterySection.selections := None |} in
  solarOffsetPercent (wholeHomeOptions Sample.project_level2 wholeHome) = 0%Q.
Proof.
  intros wholeHome.
  apply (wholeHome_offset_needs_custom_mode Sample.project_level2 wholeHome 2).
  discriminate.
Defined.

(** ** Bounds on the demand estimate *)

Lemma sumAssumedWatts_nonneg (ls : list Load) :
  Forall (fun l => (0 <= assumedWatts (usage l))%Q) ls -> (0 <= sumAssumedWatts ls)%Q.
Proof.
  induction 1 as [| l ls Hl _ IH].
  - unfold sumAssumedWatts. cbn [fold_left]. lra.
  - rewrite sumAssumedWatts_cons. lra.
Qed.

Lemma Forall_filter_keep {A : Type} (P : A -> Prop) (p : A -> bool) (ls : list A) :
  Forall P ls -> Forall P (filter p ls).
Proof.
  induction 1 as [| a ls Ha _ IH]; cbn [filter]; [constructor |].
  destruct (p a); [constructor; assumption | assumption].
Qed.

(** With no negative watts in the load list, every bucket of the estimate
    is non-negative and the total demand is at least the 4500 VA of the
    small-appliance and laundry allowance; the total is also at least the full
    watts of the EV chargers and of the other large loads. *)
Theorem nec_demand_lower_bound (loads : list Load) (service : Service) (sqFt : option Q) :
  Forall (fun l => (0 <= assumedWatts (usage l))%Q) loads ->
  (4500 <= demandGeneral (generalTotal loads sqFt))%Q
  /\ (0 <= fixedLoadVA loads)%Q /\ (0 <= cookingDemand loads)%Q
  /\ (0 <= dryerDemand loads)%Q /\ (0 <= hvacDemand loads)%Q
  /\ (4500 + evVA loads + otherLargeVA loads
      <= NEC.totalDemandVA (calculateNECOptionalMethod loads service sqFt))%Q.
Proof.
  intros Hpos.
  assert (Hsum : forall p, (0 <= sumAssumedWatts (filter p loads))%Q)
    by (intros p; apply sumAssumedWatts_nonneg, Forall_filter_keep, Hpos).
  assert (Hgen : (4500 <= demandGeneral (generalTotal loads sqFt))%Q).
  { assert (Hg : (0 <= generalLoadVA loads sqFt)%Q).
    { unfold generalLoadVA. cbv zeta. pose proof (Hsum isLighting) as Hl.
      assert (Hfrom : (0 <= (if JS.eqb (sumAssumedWatts (filter isLighting loads)) 0
                             then 4500 else sumAssumedWatts (filter isLighting loads)))%Q)
        by (destruct (JS.eqb _ 0); lra).
      destruct sqFt as [a |]; [| exact Hfrom].
      destruct (JS.ltb 0 a) eqn:Ha; [apply ltb_lt in Ha; lra | exact Hfrom]. }
    eapply Qle_trans; [| apply (demandGeneral_mono 4500)].
    - change (demandGeneral 4500) with 4500%Q. lra.
    - unfold generalTotal, smallApplianceVA, laundryVA. lra. }
  assert (Hfix : (0 <= fixedLoadVA loads)%Q).
  { unfold fixedLoadVA. cbv zeta. pose proof (Hsum isFixed). destruct (4 <=? _); lra. }
  assert (Hcook : (0 <= cookingDemand loads)%Q).
  { unfold cookingDemand. cbv zeta. pose proof (Hsum isCooking).
    destruct (0 <? _); [| lra]. destruct (_ && _); lra. }
  assert (Hdry : (0 <= dryerDemand loads)%Q).
  { unfold dryerDemand. cbv zeta. destruct (0 <? _); [| lra].
    eapply Qle_trans; [| apply Q.le_max_l]. lra. }
  assert (Hhvac : (0 <= hvacDemand loads)%Q).
  { unfold hvacDemand, coolingVA. eapply Qle_trans; [| apply Q.le_max_l]. apply Hsum. }
  repeat split; try assumption.
  rewrite totalDemandVA_unfold. lra.
Qed.

Lemma nec_demand_lower_bound_witness :
  (4500 + evVA [Sample.pool] + otherLargeVA [Sample.pool]
   <= NEC.totalDemandVA
        (calculateNECOptionalMethod [Sample.pool] Sample.service_240_200 None))%Q.
Proof.
  apply (nec_demand_lower_bound [Sample.pool] Sample.service_240_200 None).
  repeat constructor. discriminate.
Defined.

(** A load list with a negative entry can push the estimate below the
    allowance: the bound needs its hypothesis. *)
Example nec_demand_negative_watts :
  (NEC.totalDemandVA
     (calculateNECOptionalMethod [Sample.mkLoad "load_8" "Other" (-9000) 1]
                                 Sample.service_240_200 None)
   == 0)%Q.
Proof. reflexivity. Qed.

Lemma filter_filter_sub {A : Type} (p q : A -> bool) (ls : list A) :
  (forall a, p a = true -> q a = true) ->
  filter p (filter q ls) = filter p ls.
Proof.
  intros Hpq. induction ls as [| a ls IH]; cbn [filter]; [reflexivity |].
  destruct (q a) eqn:Hq; cbn [filter].
  - now rewrite IH.
  - destruct (p a) eqn:Hp; [| exact IH]. apply Hpq in Hp. congruence.
Qed.

(** When a positive square footage is passed, the general lighting loads of
    the list play no part: the whole result is the same as for the list with
    them removed, and the general part is 3 VA per square foot plus the 4500 VA
    allowance. *)
Theorem nec_square_footage_replaces_lighting
    (loads : list Load) (service : Service) (area : Q) :
  (0 < area)%Q ->
  calculateNECOptionalMethod loads service (Some area)
  = calculateNECOptionalMethod (filter (fun l => negb (isLighting l)) loads) service
                               (Some area)
  /\ (generalTotal loads (Some area) == area * 3 + 4500)%Q.
Proof.
  intros Harea. apply ltb_lt in Harea.
  assert (Hkeep : forall p : Load -> bool,
             (forall l, isLighting l = true -> p l = false) ->
             filter p (filter (fun l => negb (isLighting l)) loads) = filter p loads).
  { intros p Hp. apply filter_filter_sub. intros a Ha.
    destruct (isLighting a) eqn:Hl; [| reflexivity].
    apply Hp in Hl. congruence. }
  split.
  - unfold calculateNECOptionalMethod, generalTotal, generalLoadVA, fixedLoadVA,
      cookingDemand, dryerDemand, hvacDemand, coolingVA, heatingVA, otherLargeVA, evVA.
    rewrite Harea.
    rewrite (Hkeep isFixed), (Hkeep isCooking), (Hkeep isDryer), (Hkeep isCooling),
      (Hkeep isHeating), (Hkeep isOtherLarge), (Hkeep isEV);
      try (intros l Hl; apply (lighting_only_bucket l Hl)).
    reflexivity.
  - unfold generalTotal, generalLoadVA, smallApplianceVA, laundryVA. rewrite Harea. ring.
Qed.

Lemma nec_square_footage_replaces_lighting_witness :
  calculateNECOptionalMethod [Sample.lighting 9000; Sample.pool] Sample.service_240_200
                             (Some 2000%Q)
  = calculateNECOptionalMethod [Sample.pool] Sample.service_240_200 (Some 2000%Q).
Proof.
  apply (nec_square_footage_replaces_lighting [Sample.lighting 9000; Sample.pool]
           Sample.service_240_200 2000).
  reflexivity.
Defined.

(** ** Saved projects *)

Lemma findIndex_Some {A : Type} (p : A -> bool) (l : list A) (i : nat) :
  findIndex p l = Some i ->
  exists x, l !! i = Some x /\ p x = true /\ forall j y, (j < i)%nat -> l !! j = Some y -> p y = false.
Proof.
  revert i. induction l as [| a l IH]; intros i; cbn [findIndex]; [discriminate |].
  destruct (p a) eqn:Ha.
  - intros [= <-]. exists a. repeat split; [exact Ha |]. intros j y Hj. lia.
  - destruct (findIndex p l) as [k |] eqn:Hk; cbn [option_map]; [| discriminate].
    intros [= <-]. destruct (IH k eq_refl) as (x & Hx & Hpx & Hbefore).
    exists x. repeat split; [exact Hx | exact Hpx |].
    intros [| j] y Hj Hy; cbn in Hy.
    + now injection Hy as <-.
    + apply (Hbefore j y); [lia | exact Hy].
Qed.

Lemma findIndex_None {A : Type} (p : A -> bool) (l : list A) :
  findIndex p l = None -> Forall (fun x => p x = false) l.
Proof.
  induction l as [| a l IH]; cbn [findIndex]; [constructor |].
  destruct (p a) eqn:Ha; [discriminate |].
  destruct (findIndex p l); cbn [option_map]; [discriminate |].
  intros _. constructor; [exact Ha | now apply IH].
Qed.

Lemma find_insert_fresh {A : Type} (p : A -> bool) (l : list A) (i : nat) (x : A) :
  (i < length l)%nat -> p x = true -> Forall (fun y => p y = false) l ->
  find p (<[i := x]> l) = Some x.
Proof.
  revert i. induction l as [| a l IH]; intros i Hi Hx Hall; cbn [length] in Hi; [lia |].
  inversion Hall as [| ? ? Ha Hl]; subst.
  destruct i as [| i]; cbn [find].
  - change (<[0%nat := x]> (a :: l)) with (x :: l). cbn [find]. now rewrite Hx.
  - change (<[S i := x]> (a :: l)) with (a :: <[i := x]> l). cbn [find].
    rewrite Ha. apply IH; [lia | exact Hx | exact Hl].
Qed.

(** Saving a project under a fresh id and loading that id again returns the
    project, whether the save replaced an entry of the same name or added a
    new one; the project also becomes the current one. *)
Theorem saveNamedProject_then_load
    (now : Z) (iso : string) (project : Snapshot) (st : Storage) :
  Forall (fun e => Saved.id e <> "proj_" ++ pretty now) (getSavedProjectsList st) ->
  let st' := snd (saveNamedProject now iso project st) in
  fst (saveNamedProject now iso project st) = true
  /\ loadNamedProject ("proj_" ++ pretty now) st' = Some project
  /\ loadProjectFromLocalStorage st' = Some project.
Proof.
  intros Hfresh. cbv zeta. unfold saveNamedProject, saveProjectToLocalStorage.
  cbn [fst snd]. split; [reflexivity |]. split; [| reflexivity].
  unfold loadNamedProject, getSavedProjectsList at 1. cbn [projectsList].
  set (list := getSavedProjectsList st) in *.
  set (entry := {| Saved.id := _ |}).
  set (p := fun q : Saved.t => String.eqb (Saved.id q) ("proj_" ++ pretty now)).
  assert (Hp : p entry = true) by apply String.eqb_refl.
  assert (Hall : Forall (fun y => p y = false) list).
  { eapply Forall_impl; [| exact Hfresh]. intros e He. now apply String.eqb_neq. }
  destruct (findIndex _ list) as [i |] eqn:Hidx.
  - apply findIndex_Some in Hidx. destruct Hidx as (x & Hx & _).
    rewrite (find_insert_fresh p list i entry); [reflexivity | | exact Hp | exact Hall].
    eapply lookup_lt_Some, Hx.
  - cbn [find]. fold (p entry). now rewrite Hp.
Qed.

Lemma saveNamedProject_then_load_witness :
  let st := snd (saveNamedProject 1000 "t0" (sampleSnapshot "Oak St") emptyStorage) in
  let st' := snd (saveNamedProject 2000 "t1" (sampleSnapshot "Oak St") st) in
  loadNamedProject "proj_2000" st' = Some (sampleSnapshot "Oak St").
Proof.
  cbv zeta.
  apply (saveNamedProject_then_load 2000 "t1" (sampleSnapshot "Oak St")
           (snd (saveNamedProject 1000 "t0" (sampleSnapshot "Oak St") emptyStorage))).
  repeat constructor. discriminate.
Defined.

Lemma map_insert_same {A B : Type} (f : A -> B) (l : list A) (i : nat) (x y : A) :
  l !! i = Some y -> f x = f y -> map f (<[i := x]> l) = map f l.
Proof.
  revert i. induction l as [| a l IH]; intros i Hi Hf; [reflexivity |].
  destruct i as [| i].
  - cbn in Hi. injection Hi as ->.
    change (<[0%nat := x]> (y :: l)) with (x :: l). cbn [map]. now rewrite Hf.
  - change (<[S i := x]> (a :: l)) with (a :: <[i := x]> l). cbn [map].
    f_equal. now apply IH.
Qed.

Lemma saveNamedProject_list (now : Z) (iso : string) (project : Snapshot) (st : Storage) :
  getSavedProjectsList (snd (saveNamedProject now iso project st))
  = let list := getSavedProjectsList st in
    let entry :=
      {| Saved.id := "proj_" ++ pretty now;
         Saved.name := savedName project;
         Saved.savedAt := iso;
         Saved.loadCount := Z.of_nat (length (loads (base project)));
         Saved.data := project |} in
    match findIndex (fun p => String.eqb (Saved.name p) (savedName project)) list with
    | Some existingIdx => <[existingIdx := entry]> list
    | None => entry :: list
    end.
Proof. reflexivity. Qed.

(** Saving keeps the names of the list pairwise distinct: a project whose
    name is already there replaces that entry in place, leaving the length and
    every entry of another name as they were; a project with a new name goes to
    the front. *)
Theorem saveNamedProject_names_unique
    (now : Z) (iso : string) (project : Snapshot) (st : Storage) :
  NoDup (map Saved.name (getSavedProjectsList st)) ->
  let before := getSavedProjectsList st in
  let after := getSavedProjectsList (snd (saveNamedProject now iso project st)) in
  NoDup (map Saved.name after)
  /\ In (savedName project) (map Saved.name after)
  /\ (In (savedName project) (map Saved.name before) ->
      length after = length before /\ map Saved.name after = map Saved.name before)
  /\ (~ In (savedName project) (map Saved.name before) ->
      exists entry, after = entry :: before /\ Saved.data entry = project)
  /\ (forall e, In e before -> Saved.name e <> savedName project -> In e after).
Proof.
  intros Hnodup. cbv zeta. rewrite saveNamedProject_list. cbv zeta.
  set (list := getSavedProjectsList st) in *.
  set (entry := {| Saved.id := _ |}).
  set (name := savedName project) in *.
  destruct (findIndex _ list) as [i |] eqn:Hidx.
  - apply findIndex_Some in Hidx. destruct Hidx as (x & Hx & Hname & _).
    apply String.eqb_eq in Hname.
    assert (Hmap : map Saved.name (<[i := entry]> list) = map Saved.name list)
      by (apply (map_insert_same Saved.name list i entry x Hx); now rewrite Hname).
    assert (Hin : In name (map Saved.name list)).
    { apply in_map_iff. exists x. split; [exact Hname |].
      apply list_elem_of_In. eapply list_elem_of_lookup_2, Hx. }
    rewrite Hmap. repeat split; try assumption.
    + now rewrite length_insert.
    + intros Hnot. contradiction.
    + intros e He Hne. apply list_elem_of_In in He.
      apply list_elem_of_lookup_1 in He. destruct He as (j & Hj).
      apply list_elem_of_In, list_elem_of_lookup. exists j.
      rewrite list_lookup_insert_ne; [exact Hj |].
      intros ->. rewrite Hx in Hj. injection Hj as ->. contradiction.
  - apply findIndex_None in Hidx.
    assert (Hnot : ~ In name (map Saved.name list)).
    { intros Hin. apply in_map_iff in Hin. destruct Hin as (x & Hname & Hin).
      rewrite Forall_forall in Hidx. specialize (Hidx x Hin).
      apply String.eqb_neq in Hidx. contradiction. }
    cbn [map]. repeat split.
    + constructor; assumption.
    + now left.
    + contradiction.
    + contradiction.
    + intros _. exists entry. split; reflexivity.
    + intros e He _. now right.
Qed.

Lemma saveNamedProject_names_unique_witness :
  let st := snd (saveNamedProject 1000 "t0" (sampleSnapshot "Oak St") emptyStorage) in
  let st' := snd (saveNamedProject 2000 "t1" (sampleSnapshot "Oak St") st) in
  NoDup (map Saved.name (getSavedProjectsList st'))
  /\ length (getSavedProjectsList st') = 1%nat.
Proof.
  cbv zeta. split; [| reflexivity].
  apply (saveNamedProject_names_unique 2000 "t1" (sampleSnapshot "Oak St")
           (snd (saveNamedProject 1000 "t0" (sampleSnapshot "Oak St") emptyStorage))).
  repeat constructor. intros [].
Defined.

Lemma find_filter_negb {A : Type} (p : A -> bool) (l : list A) :
  find p (filter (fun x => negb (p x)) l) = None.
Proof.
  induction l as [| a l IH]; cbn [filter find]; [reflexivity |].
  destruct (p a) eqn:Ha; cbn [negb find]; [exact IH | now rewrite Ha].
Qed.

Lemma find_filter_other {A : Type} (p q : A -> bool) (l : list A) :
  (forall x, p x = true -> q x = true) ->
  find p (filter q l) = find p l.
Proof.
  intros Hpq. induction l as [| a l IH]; cbn [filter find]; [reflexivity |].
  destruct (q a) eqn:Hq; cbn [find].
  - destruct (p a); [reflexivity | exact IH].
  - destruct (p a) eqn:Hp; [apply Hpq in Hp; congruence | exact IH].
Qed.

(** After a deletion the deleted id loads nothing, every other id loads
    what it loaded before, and the current project is untouched. *)
Theorem deleteNamedProject_then_load (id other : string) (st : Storage) :
  other <> id ->
  let st' := snd (deleteNamedProject id st) in
  fst (deleteNamedProject id st) = true
  /\ loadNamedProject id st' = None
  /\ loadNamedProject other st' = loadNamedProject other st
  /\ loadProjectFromLocalStorage st' = loadProjectFromLocalStorage st
  /\ (length (getSavedProjectsList st') <= length (getSavedProjectsList st))%nat.
Proof.
  intros Hne. cbv zeta.
  assert (Hlist : getSavedProjectsList (snd (deleteNamedProject id st))
                  = filter (fun p => negb (String.eqb (Saved.id p) id))
                           (getSavedProjectsList st)) by reflexivity.
  unfold loadNamedProject. rewrite Hlist.
  split; [reflexivity |]. split; [| split; [| split; [reflexivity |]]].
  - now rewrite (find_filter_negb (fun p => String.eqb (Saved.id p) id)).
  - rewrite find_filter_other; [reflexivity |].
    intros x Hx. apply String.eqb_eq in Hx. apply negb_true_iff, String.eqb_neq.
    now rewrite Hx.
  - clear Hlist.
    induction (getSavedProjectsList st) as [| a l IH]; cbn [filter length]; [lia |].
    destruct (negb _); cbn [length]; lia.
Qed.

Lemma deleteNamedProject_then_load_witness :
  let st := snd (saveNamedProject 1000 "t0" (sampleSnapshot "Oak St") emptyStorage) in
  let st' := snd (deleteNamedProject "proj_1000" st) in
  loadNamedProject "proj_1000" st = Some (sampleSnapshot "Oak St")
  /\ loadNamedProject "proj_1000" st' = None.
Proof.
  cbv zeta. split; [reflexivity |].
  apply (deleteNamedProject_then_load "proj_1000" "proj_0"
           (snd (saveNamedProject 1000 "t0" (sampleSnapshot "Oak St") emptyStorage))).
  discriminate.
Defined.

(** ** Load ids *)

Lemma pretty_N_go_no_underscore (x : N) (s : string) :
  hasChar underscore s = false -> hasChar underscore (pretty_N_go x s) = false.
Proof.
  revert s. induction (N.lt_wf_0 x) as [x _ IH]. intros s Hs.
  assert (Hx : (x = 0 \/ 0 < x)%N) by lia. destruct Hx as [-> | Hpos].
  - now rewrite pretty_N_go_0.
  - rewrite pretty_N_go_step by exact Hpos. apply IH.
    + now apply N.div_lt.
    + cbn [hasChar]. rewrite Hs, orb_false_r.
      unfold pretty_N_char. repeat case_match; reflexivity.
Qed.

Lemma pretty_Z_no_underscore (z : Z) : hasChar underscore (pretty z) = false.
Proof.
  assert (HN : forall n : N, hasChar underscore (pretty n) = false).
  { intros n. unfold pretty, pretty_N. destruct (decide (n = 0%N)); [reflexivity |].
    now apply pretty_N_go_no_underscore. }
  destruct z as [| p | p]; unfold pretty, pretty_Z.
  - reflexivity.
  - apply (HN (Npos p)).
  - change (hasChar underscore (String.append "-" (pretty (Npos p))) = false).
    change (String.append "-" (pretty (Npos p)))
      with (String (match "-" with String c _ => c | EmptyString => Ascii.zero end)
                   (pretty (Npos p))).
    cbn [hasChar]. rewrite (HN (Npos p)). reflexivity.
Qed.

Lemma split_at_underscore (a b c d : string) :
  hasChar underscore a = false -> hasChar underscore c = false ->
  a ++ String underscore b = c ++ String underscore d -> a = c /\ b = d.
Proof.
  revert c. induction a as [| x a IH]; intros c Ha Hc Heq.
  - destruct c as [| y c]; cbn in Heq.
    + injection Heq as ->. now split.
    + injection Heq as <- _. cbn in Hc. discriminate.
  - destruct c as [| y c]; cbn in Heq.
    + injection Heq as -> _. cbn in Ha. discriminate.
    + injection Heq as -> Heq. cbn [hasChar] in Ha, Hc.
      apply orb_false_iff in Ha. apply orb_false_iff in Hc.
      destruct (IH c) as [-> ->]; [apply Ha | apply Hc | exact Heq |]. now split.
Qed.

(** The id of a fresh entry determines the counter value and the clock
    reading it was made from. *)
Lemma load_id_inj (n1 t1 n2 t2 : Z) :
  "load_" ++ pretty n1 ++ "_" ++ pretty t1 = "load_" ++ pretty n2 ++ "_" ++ pretty t2 ->
  n1 = n2 /\ t1 = t2.
Proof.
  intros Heq. apply (inj (String.append "load_")) in Heq.
  apply split_at_underscore in Heq; try apply pretty_Z_no_underscore.
  destruct Heq as [Hn Ht]. split; [apply (inj pretty), Hn | apply (inj pretty), Ht].
Qed.

(** Four fresh baseline loads: all marked as baseline, with pairwise
    distinct ids whatever the clock reads, one lighting load whose watts are
    3 VA per square foot rounded (4500 when the square footage is missing or
    0) and three 1500 W circuits; the counter advances by four. *)
Theorem createNECBaselineLoads_fresh (sqFt : option Q) (t1 t2 t3 t4 nextLoadId : Z) :
  let baselines := fst (createNECBaselineLoads sqFt t1 t2 t3 t4 nextLoadId) in
  snd (createNECBaselineLoads sqFt t1 t2 t3 t4 nextLoadId) = nextLoadId + 4
  /\ length baselines = 4%nat
  /\ Forall (fun e => isNECBaseline e = true) baselines
  /\ NoDup (map (fun e => id (load e)) baselines)
  /\ map (fun e => category (load e)) baselines
     = ["General Lighting/Receptacles"; "Other"; "Other"; "Other"]
  /\ map (fun e => assumedWatts (usage (load e))) baselines
     = [inject_Z (JS.Math_round (sqFtNum sqFt * 3)); 1500%Q; 1500%Q; 1500%Q]
  /\ (sqFt = None \/ sqFt = Some 0%Q -> JS.Math_round (sqFtNum sqFt * 3) = 4500).
Proof.
  cbv zeta. unfold createNECBaselineLoads, createLoadEntry. cbn [fst snd].
  split; [lia |]. split; [reflexivity |].
  split; [repeat constructor |]. split.
  - cbn [map load id].
    repeat constructor; cbn [In]; intros Hin;
      repeat match goal with
             | H : _ \/ _ |- _ => destruct H
             | H : False |- _ => destruct H
             | H : _ = _ |- _ => apply load_id_inj in H; lia
             end.
  - split; [reflexivity |]. split; [reflexivity |].
    intros [-> | ->]; reflexivity.
Qed.

Lemma createNECBaselineLoads_fresh_witness :
  JS.Math_round (sqFtNum None * 3) = 4500
  /\ snd (createNECBaselineLoads None 10 10 10 10 1) = 5.
Proof.
  split.
  - apply (createNECBaselineLoads_fresh None 10 10 10 10 1). now left.
  - apply (createNECBaselineLoads_fresh None 10 10 10 10 1).
Defined.

(** The demand estimate of the four baseline loads on their own: the
    lighting load is the general lighting figure, and the three 1500 W
    circuits are counted as other large loads at full value, on top of the
    fixed 4500 VA small-appliance and laundry allowance that the estimate
    always adds. *)
Theorem baseline_loads_demand
    (sqFt : option Q) (t1 t2 t3 t4 nextLoadId : Z) (service : Service) :
  let loads := map load (fst (createNECBaselineLoads sqFt t1 t2 t3 t4 nextLoadId)) in
  let lightingWatts := inject_Z (JS.Math_round (sqFtNum sqFt * 3)) in
  JS.Math_round (sqFtNum sqFt * 3) <> 0 ->
  (generalTotal loads None == lightingWatts + 4500)%Q
  /\ (otherLargeVA loads == 4500)%Q
  /\ (NEC.totalDemandVA (calculateNECOptionalMethod loads service None)
      == demandGeneral (generalTotal loads None) + 4500)%Q.
Proof.
  cbv zeta. intros Hnz. rewrite totalDemandVA_unfold.
  set (loads := map load _).
  assert (Hnz' : JS.eqb (inject_Z (JS.Math_round (sqFtNum sqFt * 3))) 0 = false).
  { unfold JS.eqb. apply not_true_is_false. intros Hz. apply Qeq_bool_iff in Hz.
    apply Hnz. revert Hz. generalize (JS.Math_round (sqFtNum sqFt * 3)).
    intros z Hz. unfold Qeq, inject_Z in Hz. cbn [Qnum Qden] in Hz. lia. }
  assert (Hgen : (generalTotal loads None
                  == inject_Z (JS.Math_round (sqFtNum sqFt * 3)) + 4500)%Q).
  { unfold generalTotal, generalLoadVA, smallApplianceVA, laundryVA, sumAssumedWatts.
    cbv zeta. subst loads.
    cbn [createNECBaselineLoads createLoadEntry fst map load filter isLighting category
         String.eqb Ascii.eqb Bool.eqb orDefault baselineOverrides o_category o_usage
         fold_left usage assumedWatts].
    assert (Hw : JS.eqb (0 + inject_Z (JS.Math_round (sqFtNum sqFt * 3))) 0 = false).
    { unfold JS.eqb in *. apply not_true_is_false. intros Hz. apply Qeq_bool_iff in Hz.
      apply not_true_iff_false in Hnz'. apply Hnz'. apply Qeq_bool_iff.
      rewrite <- Hz. ring. }
    rewrite Hw. ring. }
  assert (Hother : (otherLargeVA loads == 4500)%Q) by reflexivity.
  assert (Hfix : fixedLoadVA loads = 0%Q) by reflexivity.
  assert (Hcook : cookingDemand loads = 0%Q) by reflexivity.
  assert (Hdry : dryerDemand loads = 0%Q) by reflexivity.
  assert (Hhvac : (hvacDemand loads == 0)%Q) by reflexivity.
  assert (Hev : (evVA loads == 0)%Q) by reflexivity.
  split; [exact Hgen |]. split; [exact Hother |].
  rewrite Hfix, Hcook, Hdry, Hhvac, Hev, Hother. ring.
Qed.

Lemma baseline_loads_demand_witness :
  let loads := map load (fst (createNECBaselineLoads (Some 2000%Q) 10 11 12 13 1)) in
  (NEC.totalDemandVA (calculateNECOptionalMethod loads Sample.service_240_200 None)
   == 14700)%Q.
Proof.
  cbv zeta.
  destruct (baseline_loads_demand (Some 2000%Q) 10 11 12 13 1 Sample.service_240_200)
    as (_ & _ & Htotal).
  - discriminate.
  - rewrite Htotal. reflexivity.
Defined.

(** ** Baseline reconciliation of the load table *)

Lemma uniqueBaselines_Forall (P : LoadEntry -> Prop) (l : list LoadEntry) :
  forall seen kept, Forall P l -> Forall P (uniqueBaselines seen kept l).
Proof.
  induction l as [| bl rest IH]; intros seen kept Hall; cbn [uniqueBaselines]; cbv zeta;
    [constructor |].
  inversion Hall; subst.
  destruct (negb _ && _); [constructor |]; auto.
Qed.

Lemma uniqueBaselines_length (l : list LoadEntry) :
  forall seen kept, (kept <= 4 -> length (uniqueBaselines seen kept l) + kept <= 4)%nat.
Proof.
  induction l as [| bl rest IH]; intros seen kept Hk; cbn [uniqueBaselines length]; cbv zeta;
    [lia |].
  destruct (negb _) eqn:Hseen; cbn [andb].
  - destruct (Nat.ltb_spec kept 4) as [Hlt | Hge].
    + cbn [length]. specialize (IH ({[baselineKey bl]} ∪ seen) (S kept)).
      assert (Hs : (S kept <= 4)%nat) by lia. specialize (IH Hs). lia.
    + apply IH. lia.
  - apply IH. lia.
Qed.

Lemma uniqueBaselines_keys (l : list LoadEntry) :
  forall seen kept,
    NoDup (map baselineKey (uniqueBaselines seen kept l))
    /\ Forall (fun e => baselineKey e ∉ seen) (uniqueBaselines seen kept l).
Proof.
  induction l as [| bl rest IH]; intros seen kept; cbn [uniqueBaselines map]; cbv zeta.
  - split; constructor.
  - destruct (bool_decide (baselineKey bl ∈ seen)) eqn:Hseen; cbn [negb andb].
    + apply IH.
    + apply bool_decide_eq_false in Hseen.
      destruct (kept <? 4)%nat; [| apply IH].
      destruct (IH ({[baselineKey bl]} ∪ seen) (S kept)) as [Hnd Hout].
      split.
      * cbn [map]. constructor; [| exact Hnd].
        intros Hin. apply in_map_iff in Hin as (e & Hkey & He).
        rewrite Forall_forall in Hout. apply (Hout e He).
        rewrite Hkey. apply elem_of_union_l, elem_of_singleton. reflexivity.
      * constructor; [exact Hseen |].
        eapply Forall_impl; [| exact Hout].
        intros e He Hin. apply He, elem_of_union_r, Hin.
Qed.

Lemma filter_baseline_idem (l : list LoadEntry) :
  filter isNECBaseline (filter isNECBaseline l) = filter isNECBaseline l.
Proof. apply filter_all. apply Forall_forall. intros e He. now apply filter_In in He. Qed.

Lemma filter_baseline_nonbaseline (l : list LoadEntry) :
  filter isNECBaseline (filter (fun e => negb (isNECBaseline e)) l) = [].
Proof.
  apply filter_none. apply Forall_forall. intros e He.
  apply filter_In in He as [_ He]. now apply negb_true_iff in He.
Qed.

Lemma filter_nonbaseline_baseline (l : list LoadEntry) :
  Forall (fun e => isNECBaseline e = true) l ->
  filter (fun e => negb (isNECBaseline e)) l = [].
Proof.
  intros Hall. apply filter_none. eapply Forall_impl; [| exact Hall].
  intros e He. cbn in He. now rewrite He.
Qed.

Lemma filter_nonbaseline_idem (l : list LoadEntry) :
  filter (fun e => negb (isNECBaseline e)) (filter (fun e => negb (isNECBaseline e)) l)
  = filter (fun e => negb (isNECBaseline e)) l.
Proof. apply filter_all. apply Forall_forall. intros e He. now apply filter_In in He. Qed.

Lemma filter_baseline_all (l : list LoadEntry) :
  Forall (fun e => isNECBaseline e = true) l -> filter isNECBaseline l = l.
Proof. intros Hall. now apply filter_all. Qed.

Lemma reconcileBaselines_cases
    (sqFt : option Q) (t1 t2 t3 t4 : Z) (loads : list LoadEntry) (nextLoadId : Z) :
  let r := fst (reconcileBaselines sqFt t1 t2 t3 t4 loads nextLoadId) in
  filter (fun e => negb (isNECBaseline e)) r
  = filter (fun e => negb (isNECBaseline e)) loads
  /\ (1 <= length (filter isNECBaseline r) <= 4)%nat
  /\ ((4 < length (filter isNECBaseline loads))%nat ->
      NoDup (map baselineKey (filter isNECBaseline r)))
  /\ ((1 <= length (filter isNECBaseline loads) <= 4)%nat -> r = loads).
Proof.
  cbv zeta. unfold reconcileBaselines. cbv zeta.
  destruct (Nat.eqb_spec (length (filter isNECBaseline loads)) 4) as [H4 | H4].
  { cbn [fst]. repeat split; try lia. }
  destruct (Nat.eqb_spec (length (filter isNECBaseline loads)) 0) as [H0 | H0].
  { destruct (createNECBaselineLoads sqFt t1 t2 t3 t4 nextLoadId) as [baselines n] eqn:Hc.
    assert (Hb : Forall (fun e => isNECBaseline e = true) baselines
                 /\ length baselines = 4%nat).
    { replace baselines with (fst (createNECBaselineLoads sqFt t1 t2 t3 t4 nextLoadId))
        by now rewrite Hc.
      split; [| reflexivity]. repeat constructor. }
    destruct Hb as [Hb Hlen]. cbn [fst].
    rewrite !List.filter_app, filter_nonbaseline_idem, filter_baseline_nonbaseline,
      (filter_nonbaseline_baseline _ Hb), (filter_baseline_all _ Hb), app_nil_r.
    cbn [app]. repeat split; lia. }
  destruct (Nat.ltb_spec 4 (length (filter isNECBaseline loads))) as [Hgt | Hle].
  - cbn [fst].
    assert (Hall : Forall (fun e => isNECBaseline e = true)
                     (uniqueBaselines ∅ 0 (filter isNECBaseline loads))).
    { apply uniqueBaselines_Forall. apply Forall_forall. intros e He.
      now apply filter_In in He. }
    rewrite !List.filter_app, filter_nonbaseline_idem, filter_baseline_nonbaseline,
      (filter_nonbaseline_baseline _ Hall), (filter_baseline_all _ Hall), app_nil_r.
    cbn [app]. repeat split.
    + destruct (filter isNECBaseline loads) as [| bl rest]; [cbn in Hgt; lia |].
      cbn [uniqueBaselines]. cbv zeta.
      replace (bool_decide (baselineKey bl ∈ (∅ : gset string))) with false
        by (symmetry; apply bool_decide_eq_false; set_solver).
      cbn. lia.
    + pose proof (uniqueBaselines_length (filter isNECBaseline loads) ∅ 0). lia.
    + intros _. apply uniqueBaselines_keys.
    + lia.
  - cbn [fst]. repeat split; lia.
Qed.

(** The effect that reconciles the baseline loads when the load table is
    shown keeps every other load, in order; leaves between one and four
    baselines, with distinct descriptions when it had to deduplicate; and
    running it a second time changes nothing. *)
Theorem reconcileBaselines_invariants
    (sqFt sqFt' : option Q) (t1 t2 t3 t4 t1' t2' t3' t4' : Z)
    (loads : list LoadEntry) (nextLoadId : Z) :
  let r := fst (reconcileBaselines sqFt t1 t2 t3 t4 loads nextLoadId) in
  let n := snd (reconcileBaselines sqFt t1 t2 t3 t4 loads nextLoadId) in
  filter (fun e => negb (isNECBaseline e)) r
  = filter (fun e => negb (isNECBaseline e)) loads
  /\ (1 <= length (filter isNECBaseline r) <= 4)%nat
  /\ n = (if (length (filter isNECBaseline loads) =? 0)%nat
          then nextLoadId + 4 else nextLoadId)
  /\ ((4 < length (filter isNECBaseline loads))%nat ->
      NoDup (map baselineKey (filter isNECBaseline r)))
  /\ reconcileBaselines sqFt' t1' t2' t3' t4' r n = (r, n).
Proof.
  cbv zeta.
  destruct (reconcileBaselines_cases sqFt t1 t2 t3 t4 loads nextLoadId)
    as (Hnon & Hlen & Hkeys & _).
  cbv zeta in Hnon, Hlen, Hkeys.
  split; [exact Hnon |]. split; [exact Hlen |]. split; [| split; [exact Hkeys |]].
  - unfold reconcileBaselines. cbv zeta.
    destruct (Nat.eqb_spec (length (filter isNECBaseline loads)) 4) as [H4 | H4].
    { rewrite H4. reflexivity. }
    destruct (Nat.eqb_spec (length (filter isNECBaseline loads)) 0) as [H0 | H0].
    { unfold createNECBaselineLoads, createLoadEntry. cbn [snd]. lia. }
    destruct (4 <? _)%nat; reflexivity.
  - set (r := fst (reconcileBaselines sqFt t1 t2 t3 t4 loads nextLoadId)) in *.
    set (n := snd (reconcileBaselines sqFt t1 t2 t3 t4 loads nextLoadId)).
    destruct (reconcileBaselines_cases sqFt' t1' t2' t3' t4' r n) as (_ & _ & _ & Hsame).
    cbv zeta in Hsame. specialize (Hsame Hlen).
    unfold reconcileBaselines in *. cbv zeta in *.
    destruct (Nat.eqb_spec (length (filter isNECBaseline r)) 4); [reflexivity |].
    destruct (Nat.eqb_spec (length (filter isNECBaseline r)) 0); [lia |].
    destruct (Nat.ltb_spec 4 (length (filter isNECBaseline r))); [lia | reflexivity].
Qed.

Lemma uniqueBaselines_count (l : list LoadEntry) :
  forall (seen : gset string) (kept : nat),
    (kept <= 4)%nat ->
    length (uniqueBaselines seen kept l)
    = Nat.min (4 - kept) (size (list_to_set (map baselineKey l) ∖ seen : gset string)).
Proof.
  induction l as [| bl rest IH]; intros seen kept Hk;
    cbn [uniqueBaselines map length list_to_set]; cbv zeta.
  - replace (∅ ∖ seen) with (∅ : gset string) by (apply set_eq; intros x; set_unfold; tauto).
    rewrite size_empty. lia.
  - destruct (bool_decide (baselineKey bl ∈ seen)) eqn:Hseen; cbn [negb andb].
    + apply bool_decide_eq_true in Hseen. rewrite (IH seen kept Hk).
      replace (({[baselineKey bl]} ∪ list_to_set (map baselineKey rest)) ∖ seen)
        with (list_to_set (map baselineKey rest) ∖ seen : gset string).
      { reflexivity. }
      apply set_eq; intros x; set_unfold. intuition congruence.
    + apply bool_decide_eq_false in Hseen.
      destruct (Nat.ltb_spec kept 4) as [Hlt | Hge].
      * cbn [length]. rewrite (IH _ (S kept)) by lia.
        replace (({[baselineKey bl]} ∪ list_to_set (map baselineKey rest)) ∖ seen)
          with ({[baselineKey bl]}
                ∪ (list_to_set (map baselineKey rest) ∖ ({[baselineKey bl]} ∪ seen))
                : gset string).
        -- 
           rewrite (@size_union string (gset string) _ _ _ _ _ _ _ _ gset_fin_set).
           2:{ intros x. set_unfold. tauto. }
           rewrite (@size_singleton string (gset string) _ _ _ _ _ _ _ _ gset_fin_set). lia.
        -- apply set_eq. intros x. set_unfold.
           destruct (decide (x = baselineKey bl)) as [-> | Hne]; intuition congruence.
      * rewrite (IH seen kept Hk). lia.
Qed.

(** When more than four baselines are found, the number that the load table
    keeps is the number of distinct descriptions among them, four at most:
    duplicated baselines that share a description leave fewer than four. *)
Theorem reconcileBaselines_dedup_count
    (sqFt : option Q) (t1 t2 t3 t4 : Z) (loads : list LoadEntry) (nextLoadId : Z) :
  (4 < length (filter isNECBaseline loads))%nat ->
  length (filter isNECBaseline
            (fst (reconcileBaselines sqFt t1 t2 t3 t4 loads nextLoadId)))
  = Nat.min 4 (size (list_to_set (map baselineKey (filter isNECBaseline loads))
                     : gset string)).
Proof.
  intros Hgt. unfold reconcileBaselines. cbv zeta.
  destruct (Nat.eqb_spec (length (filter isNECBaseline loads)) 4) as [H4 | H4]; [lia |].
  destruct (Nat.eqb_spec (length (filter isNECBaseline loads)) 0) as [H0 | H0]; [lia |].
  destruct (Nat.ltb_spec 4 (length (filter isNECBaseline loads))) as [_ | Hle]; [| lia].
  cbn [fst].
  assert (Hall : Forall (fun e => isNECBaseline e = true)
                   (uniqueBaselines ∅ 0 (filter isNECBaseline loads))).
  { apply uniqueBaselines_Forall. apply Forall_forall. intros e He.
    now apply filter_In in He. }
  rewrite List.filter_app, filter_baseline_nonbaseline, (filter_baseline_all _ Hall),
    app_nil_r.
  rewrite uniqueBaselines_count by lia.
  replace (list_to_set (map baselineKey (filter isNECBaseline loads)) ∖ ∅)
    with (list_to_set (map baselineKey (filter isNECBaseline loads)) : gset string)
    by (apply set_eq; intros x; set_unfold; tauto).
  reflexivity.
Qed.

Lemma reconcileBaselines_dedup_count_witness :
  length (filter isNECBaseline
            (fst (reconcileBaselines None 1 2 3 4 sampleDuplicates 5))) = 1%nat.
Proof.
  rewrite (reconcileBaselines_dedup_count None 1 2 3 4 sampleDuplicates 5).
  - vm_compute. reflexivity.
  - vm_compute. lia.
Defined.

(** ** Removing a load *)

Lemma NoDup_map_eq {A B : Type} (f : A -> B) (l : list A) (a b : A) :
  NoDup (map f l) -> In a l -> In b l -> f a = f b -> a = b.
Proof.
  induction l as [| x l IH]; cbn [map In]; intros Hnd Ha Hb Hab; [contradiction |].
  inversion Hnd as [| ? ? Hnotin Hnd']; subst.
  destruct Ha as [-> | Ha], Hb as [-> | Hb]; auto.
  - exfalso. apply Hnotin. rewrite Hab. now apply in_map.
  - exfalso. apply Hnotin. rewrite <- Hab. now apply in_map.
Qed.

(** With distinct load ids, removing a load never removes a baseline load:
    the baselines are those of before, and what is left is every load but
    the non-baseline load of that id. *)
Theorem removeLoad_keeps_baselines (ident : string) (loads : list LoadEntry) :
  NoDup (map (fun e => id (load e)) loads) ->
  filter isNECBaseline (removeLoad ident loads) = filter isNECBaseline loads
  /\ removeLoad ident loads
     = filter (fun e => isNECBaseline e || negb (String.eqb (id (load e)) ident)) loads.
Proof.
  intros Hnd. unfold removeLoad.
  destruct (find _ loads) as [l |] eqn:Hfind.
  - apply find_some in Hfind as [Hin Hid]. apply String.eqb_eq in Hid.
    destruct (isNECBaseline l) eqn:Hbase.
    + split; [reflexivity |]. symmetry. apply filter_all.
      apply Forall_forall. intros e He.
      destruct (String.eqb_spec (id (load e)) ident) as [Heq | Hne];
        [| now rewrite orb_true_r].
      assert (e = l) as ->
          by (apply (NoDup_map_eq (fun e => id (load e)) loads); congruence).
      now rewrite Hbase.
    + assert (Hsame : filter (fun e => negb (String.eqb (id (load e)) ident)) loads
                      = filter (fun e => isNECBaseline e
                                         || negb (String.eqb (id (load e)) ident)) loads).
      { apply filter_ext_in. intros e He.
        destruct (String.eqb_spec (id (load e)) ident) as [Heq | Hne];
          [| now rewrite orb_true_r].
        assert (e = l) as ->
            by (apply (NoDup_map_eq (fun e => id (load e)) loads); congruence).
        now rewrite Hbase. }
      split; [| exact Hsame]. rewrite Hsame.
      rewrite filter_filter_sub; [reflexivity |].
      intros e He. now rewrite He.
  - assert (Hsame : filter (fun e => negb (String.eqb (id (load e)) ident)) loads
                    = filter (fun e => isNECBaseline e
                                       || negb (String.eqb (id (load e)) ident)) loads).
    { apply filter_ext_in. intros e He.
      rewrite (find_none _ _ Hfind e He). now rewrite orb_true_r. }
    split; [| exact Hsame]. rewrite Hsame.
    rewrite filter_filter_sub; [reflexivity |].
    intros e He. now rewrite He.
Qed.

Lemma removeLoad_keeps_baselines_witness :
  let loads := fst (createNECBaselineLoads None 1 2 3 4 1) in
  removeLoad "load_1_1" loads = loads.
Proof.
  cbv zeta.
  destruct (removeLoad_keeps_baselines "load_1_1"
              (fst (createNECBaselineLoads None 1 2 3 4 1))) as [_ Hleft].
  - vm_compute. repeat constructor; cbn [In]; intuition discriminate.
  - rewrite Hleft. vm_compute. reflexivity.
Defined.
